(** * concourse-github-lambda: rotation of GitHub deploy keys and access tokens

    Shallow embedding of the packages [template], [repo], [dynamodb],
    [manager] and [handler], followed by the properties of the
    specification that are settled against them.

    Conventions.
    - A Go pair [(T, error)] is a [result T]; a Go [error] return is a
      [result unit].
    - A Go pointer that the code tests or dereferences is an [option]; a
      dereference of [nil] is a panic.
    - The AWS, GitHub and clock services are external: the code is
      parameterised by a record of their operations over an abstract world,
      and an in-memory world instantiates it. *)

From stdpp Require Import base strings list gmap.
From Stdlib Require Import ZArith Lia Ascii String List Bool.
Import ListNotations.

Local Open Scope string_scope.
Local Open Scope Z_scope.

(* ===================================================================== *)
(** * Go values shared by all packages                                     *)
(* ===================================================================== *)

(** Go [error] values, as far as the code can tell them apart: the handler
    and [WriteSecret] type-assert [awserr.Error] and read its [Code()];
    [fmt.Errorf] keeps its format string (with its [%s] or [%w] verb) and the
    one argument every call site passes. *)
Inductive error : Type :=
| awserr_New (code message : string)
| errors_New (message : string)
| Errorf_str (format : string) (arg : string)
| Errorf_err (format : string) (arg : error).

Inductive result (A : Type) : Type :=
| Ok (a : A)
| Err (e : error).
Arguments Ok {A} a.
Arguments Err {A} e.

Definition is_ok {A} (r : result A) : bool :=
  match r with Ok _ => true | Err _ => false end.

(** [e, ok := err.(awserr.Error)] followed by [e.Code()]. *)
Definition awserr_Code (err : error) : option string :=
  match err with
  | awserr_New code _ => Some code
  | _ => None
  end.

(** [aws.StringValue]: the empty string for a nil pointer. *)
Definition aws_StringValue (p : option string) : string :=
  match p with Some s => s | None => "" end.

(* ===================================================================== *)
(** * Package [time] of the Go standard library (Go 1.14), at location UTC *)
(* ===================================================================== *)

(** The library is not part of the repository; what [GetLastUpdated],
    [WriteSecret] and the handler use of it is transcribed here: [Now],
    [UTC], [Format] and [Parse] with layout [RFC3339], [AddDate] and
    [After].  A [Time] is a wall-clock reading in Unix seconds and
    nanoseconds; the process location is UTC.  Go computes on [uint64] and
    [int]; the model computes on [Z], which agrees as long as nothing wraps,
    and nothing does for years 0 to 9999. *)
Module time.

Record Time : Type := mkTime { sec : Z; nsec : Z }.

Definition secondsPerMinute : Z := 60.
Definition secondsPerHour : Z := 60 * secondsPerMinute.
Definition secondsPerDay : Z := 24 * secondsPerHour.
Definition daysPer400Years : Z := 365 * 400 + 97.
Definition daysPer100Years : Z := 365 * 100 + 24.
Definition daysPer4Years : Z := 365 * 4 + 1.

Definition absoluteZeroYear : Z := -292277022399.
Definition internalYear : Z := 1.
(** [(absoluteZeroYear - internalYear) * 365.2425 * secondsPerDay] *)
Definition absoluteToInternal : Z :=
  (absoluteZeroYear - internalYear) * 3652425 * secondsPerDay / 10000.
Definition internalToAbsolute : Z := - absoluteToInternal.
Definition unixToInternal : Z :=
  (1969 * 365 + 1969 / 4 - 1969 / 100 + 1969 / 400) * secondsPerDay.
Definition internalToUnix : Z := - unixToInternal.

Definition Second : Z := 1000000000.

(** [daysBefore[m]]: days in a non-leap year before month [m+1]. *)
Definition daysBefore (m : Z) : Z :=
  nth (Z.to_nat m) [0; 31; 59; 90; 120; 151; 181; 212; 243; 273; 304; 334; 365] 0.

Definition isLeap (year : Z) : bool :=
  (Z.rem year 4 =? 0) && (negb (Z.rem year 100 =? 0) || (Z.rem year 400 =? 0)).

Definition daysIn (m year : Z) : Z :=
  if (m =? 2) && isLeap year then 29
  else daysBefore m - daysBefore (m - 1).

(** [t.abs()] for a time in UTC. *)
Definition abs (t : Time) : Z := sec t + (unixToInternal + internalToAbsolute).

(** [absDate(abs, true)]: year, month, day of the month, day of the year. *)
Definition absDate (abs : Z) : Z * Z * Z * Z :=
  let d := abs / secondsPerDay in
  let n := d / daysPer400Years in
  let y := 400 * n in
  let d := d - daysPer400Years * n in
  let n := d / daysPer100Years in
  let n := n - Z.shiftr n 2 in
  let y := y + 100 * n in
  let d := d - daysPer100Years * n in
  let n := d / daysPer4Years in
  let y := y + 4 * n in
  let d := d - daysPer4Years * n in
  let n := d / 365 in
  let n := n - Z.shiftr n 2 in
  let y := y + n in
  let d := d - 365 * n in
  let year := y + absoluteZeroYear in
  let yday := d in
  if isLeap year && (yday =? 31 + 29 - 1) then (year, 2, 29, yday)
  else
    let day := if isLeap year && (yday >? 31 + 29 - 1) then yday - 1 else yday in
    let month := day / 31 in
    let end_ := daysBefore (month + 1) in
    let '(month, begin) :=
      if day >=? end_ then (month + 1, end_) else (month, daysBefore month) in
    (year, month + 1, day - begin + 1, yday).

(** [absClock(abs)]: hour, minute, second. *)
Definition absClock (abs : Z) : Z * Z * Z :=
  let sec := abs mod secondsPerDay in
  let hour := sec / secondsPerHour in
  let sec := sec - hour * secondsPerHour in
  let min := sec / secondsPerMinute in
  let sec := sec - min * secondsPerMinute in
  (hour, min, sec).

(** [norm(hi, lo, base)] *)
Definition norm (hi lo base : Z) : Z * Z :=
  let '(hi, lo) :=
    if lo <? 0 then
      let n := (- lo - 1) / base + 1 in (hi - n, lo + n * base)
    else (hi, lo) in
  if lo >=? base then
    let n := lo / base in (hi + n, lo - n * base)
  else (hi, lo).

(** [Date(year, month, day, hour, min, sec, nsec, UTC)] *)
Definition Date (year month day hour min sec nsec : Z) : Time :=
  let m := month - 1 in
  let '(year, m) := norm year m 12 in
  let month := m + 1 in
  let '(sec, nsec) := norm sec nsec 1000000000 in
  let '(min, sec) := norm min sec 60 in
  let '(hour, min) := norm hour min 60 in
  let '(day, hour) := norm day hour 24 in
  let y := year - absoluteZeroYear in
  let n := y / 400 in
  let y := y - 400 * n in
  let d := daysPer400Years * n in
  let n := y / 100 in
  let y := y - 100 * n in
  let d := d + daysPer100Years * n in
  let n := y / 4 in
  let y := y - 4 * n in
  let d := d + daysPer4Years * n in
  let n := y in
  let d := d + 365 * n in
  let d := d + daysBefore (month - 1) in
  let d := if isLeap year && (month >=? 3) then d + 1 else d in
  let d := d + (day - 1) in
  let abs := d * secondsPerDay in
  let abs := abs + (hour * secondsPerHour + min * secondsPerMinute + sec) in
  let unix := abs + (absoluteToInternal + internalToUnix) in
  mkTime unix nsec.

(** [t.Year()] *)
Definition Year (t : Time) : Z :=
  let '(year, _, _, _) := absDate (abs t) in year.

(** [t.AddDate(years, months, days)] *)
Definition AddDate (t : Time) (years months days : Z) : Time :=
  let '(year, month, day, _) := absDate (abs t) in
  let '(hour, min, sec) := absClock (abs t) in
  Date (year + years) (month + months) (day + days) hour min sec (nsec t).

(** [t.After(u)] on wall-clock readings. *)
Definition After (t u : Time) : bool :=
  (sec t >? sec u) || ((sec t =? sec u) && (nsec t >? nsec u)).

(** ** Formatting *)

Definition digit (d : Z) : ascii := ascii_of_nat (48 + Z.to_nat d).

(** The loop of [appendInt] that assembles the decimal digits of [u] in
    front of [acc]; its buffer holds 20 bytes. *)
Fixpoint appendInt_loop (fuel : nat) (u : Z) (acc : string) : string :=
  match fuel with
  | O => acc
  | S fuel =>
      if u >=? 10 then
        let q := u / 10 in
        appendInt_loop fuel q (String (digit (u - q * 10)) acc)
      else String (digit u) acc
  end.

Fixpoint zeros (n : nat) : string :=
  match n with O => "" | S n => String "0" (zeros n) end.

(** [appendInt(b, x, width)], as the string appended to [b]. *)
Definition appendInt (x : Z) (width : nat) : string :=
  let sign := if x <? 0 then "-" else "" in
  let u := if x <? 0 then - x else x in
  let buf := appendInt_loop 20 u "" in
  sign +:+ zeros (width - String.length buf) +:+ buf.

(** [t.UTC().Format(time.RFC3339)]: layout [2006-01-02T15:04:05Z07:00],
    whose zone element prints [Z] at offset zero. *)
Definition Format_RFC3339 (t : Time) : string :=
  let '(year, month, day, _) := absDate (abs t) in
  let '(hour, min, sec) := absClock (abs t) in
  appendInt year 4 +:+ "-" +:+ appendInt month 2 +:+ "-" +:+ appendInt day 2
  +:+ "T" +:+ appendInt hour 2 +:+ ":" +:+ appendInt min 2 +:+ ":"
  +:+ appendInt sec 2 +:+ "Z".

(** ** Parsing *)

Definition isDigit (c : ascii) : bool :=
  (48 <=? nat_of_ascii c)%nat && (nat_of_ascii c <=? 57)%nat.

Definition digitVal (c : ascii) : Z := Z.of_nat (nat_of_ascii c) - 48.

(** [getnum(s, true)]: exactly two digits. *)
Definition getnum2 (a b : ascii) : option Z :=
  if isDigit a && isDigit b then Some (digitVal a * 10 + digitVal b) else None.

(** [atoi] on the four bytes taken for [stdLongYear], digits only. *)
Definition atoi4 (a b c d : ascii) : option Z :=
  if isDigit a && isDigit b && isDigit c && isDigit d
  then Some (((digitVal a * 10 + digitVal b) * 10 + digitVal c) * 10 + digitVal d)
  else None.

Definition ParseError (msg : string) : error :=
  Errorf_str "parsing time %s" msg.

(** [time.Parse(time.RFC3339, value)] on values of the form
    [YYYY-MM-DDTHH:MM:SSZ], the only ones [GetLastUpdated] passes (its
    regular expression admits nothing else).  Other well-formed RFC 3339
    values (fractional seconds, numeric offsets) are outside this model and
    are reported as errors. *)
Definition Parse_RFC3339 (value : string) : result Time :=
  match list_ascii_of_string value with
  | [y1; y2; y3; y4; h1; m1; m2; h2; d1; d2; t; H1; H2; c1; M1; M2; c2; S1; S2; z] =>
      match atoi4 y1 y2 y3 y4, getnum2 m1 m2, getnum2 d1 d2,
            getnum2 H1 H2, getnum2 M1 M2, getnum2 S1 S2 with
      | Some year, Some month, Some day, Some hour, Some min, Some sec =>
          if negb (Ascii.eqb h1 "-" && Ascii.eqb h2 "-" && Ascii.eqb t "T"
                   && Ascii.eqb c1 ":" && Ascii.eqb c2 ":" && Ascii.eqb z "Z")
          then Err (ParseError value)
          else if (month <=? 0) || (12 <? month) then
            Err (ParseError "month out of range")
          else if (hour <? 0) || (24 <=? hour) then
            Err (ParseError "hour out of range")
          else if 60 <=? min then Err (ParseError "minute out of range")
          else if 60 <=? sec then Err (ParseError "second out of range")
          else if (day <? 1) || (day >? daysIn month year) then
            Err (ParseError "day out of range")
          else Ok (Date year month day hour min sec 0)
      | _, _, _, _, _, _ => Err (ParseError value)
      end
  | _ => Err (ParseError value)
  end.

End time.

(* ===================================================================== *)
(** * Package [strings] of the Go standard library: [ReplaceAll]           *)
(* ===================================================================== *)

Module strings.

(** [strings.ReplaceAll(s, old, new)] for a non-empty [old]: the
    non-overlapping occurrences of [old] are replaced from left to right.
    [skip] counts the bytes of an occurrence still to be dropped.  (For an
    empty [old] Go inserts [new] around every UTF-8 sequence; the repository
    never passes one, and this model then inserts around every byte.) *)
Fixpoint ReplaceAll_from (old new : string) (skip : nat) (s : string) : string :=
  match s with
  | EmptyString => if String.eqb old "" then new else ""
  | String c s' =>
      match skip with
      | S k => ReplaceAll_from old new k s'
      | O =>
          if String.eqb old "" then new +:+ String c (ReplaceAll_from old new O s')
          else if String.prefix old s
          then new +:+ ReplaceAll_from old new (String.length old - 1) s'
          else String c (ReplaceAll_from old new O s')
      end
  end.

Definition ReplaceAll (s old new : string) : string :=
  ReplaceAll_from old new O s.

End strings.

(* ===================================================================== *)
(** * Package [template] of the repository                                 *)
(* ===================================================================== *)

Module template.

Record Template : Type := mkTemplate {
  Team : string;
  Owner : string;
  Repository : string;
  Template_ : string
}.

(** [NewTemplate] for github key title and secrets manager path. *)
Definition NewTemplate (team repository owner template : string) : Template :=
  {| Team := team;
     Owner := owner;
     Repository := strings.ReplaceAll repository "." "-";
     Template_ := template |}.

Definition NewTemplateWithoutRepository (team owner template : string) : Template :=
  {| Team := team;
     Owner := owner;
     Repository := "";
     Template_ := template |}.

(** The two calls that [String] makes into the library [text/template]:
    [template.New("path").Option("missingkey=error").Parse] and
    [Execute] into a [strings.Builder]. *)
Record Engine : Type := mkEngine {
  parsed : Type;
  Parse : string -> result parsed;
  Execute : parsed -> Template -> result string
}.

Definition String (E : Engine) (p : Template) : result string :=
  match Parse E (Template_ p) with
  | Err err => Err err
  | Ok t =>
      match Execute E t p with
      | Err err => Err err
      | Ok s => Ok s
      end
  end.

End template.

(* ===================================================================== *)
(** * A fragment of the library [text/template]                           *)
(* ===================================================================== *)

(** Templates made of literal text and of actions [{{.Field}}] (spaces
    allowed inside the delimiters), which is what path and title templates
    are made of.  The rest of the template language (pipelines, functions,
    control structures, trim markers, the method [String] of the data) is
    outside this fragment: the fragment's [Parse] rejects it, although the
    library accepts part of it. *)
Module text_template.

Inductive node : Type :=
| TextNode (text : string)
| FieldNode (name : string).

Definition isSpace (c : ascii) : bool := Ascii.eqb c " ".

Definition isIdentChar (c : ascii) : bool :=
  let n := nat_of_ascii c in
  ((65 <=? n) && (n <=? 90) || (97 <=? n) && (n <=? 122)
   || (48 <=? n) && (n <=? 57) || (n =? 95))%nat.

Fixpoint dropSpaces (s : string) : string :=
  match s with
  | String c s' => if isSpace c then dropSpaces s' else s
  | EmptyString => EmptyString
  end.

(** The identifier at the head of [s] and what follows it. *)
Fixpoint takeIdent (s : string) : string * string :=
  match s with
  | String c s' =>
      if isIdentChar c then let '(i, r) := takeIdent s' in (String c i, r)
      else (EmptyString, s)
  | EmptyString => (EmptyString, EmptyString)
  end.

(** The body of an action: a single field of the data. *)
Definition parseAction (body : string) : result node :=
  match dropSpaces body with
  | String "." s =>
      let '(name, rest) := takeIdent s in
      if negb (String.eqb name "") && String.eqb (dropSpaces rest) ""
      then Ok (FieldNode name)
      else Err (errors_New "template: path: unsupported action")
  | _ => Err (errors_New "template: path: unsupported action")
  end.

Definition textNode (acc : string) : list node :=
  if String.eqb acc "" then [] else [TextNode acc].

(** The lexer and parser: [acc] is the text or the action body read so far. *)
Fixpoint parseFrom (s : string) (inAction : bool) (acc : string)
    (nodes : list node) : result (list node) :=
  match s with
  | EmptyString =>
      if inAction then Err (errors_New "template: path: unclosed action")
      else Ok (nodes ++ textNode acc)%list
  | String c s' =>
      if inAction then
        match c, s' with
        | "}"%char, String "}" s'' =>
            match parseAction acc with
            | Err err => Err err
            | Ok n => parseFrom s'' false "" (nodes ++ [n])%list
            end
        | _, _ => parseFrom s' true (acc +:+ String c "") nodes
        end
      else
        match c, s' with
        | "{"%char, String "{" s'' => parseFrom s'' true "" (nodes ++ textNode acc)%list
        | _, _ => parseFrom s' false (acc +:+ String c "") nodes
        end
  end.

Definition Parse (text : string) : result (list node) :=
  parseFrom text false "" [].

(** Field access on a [*Template]; an unknown field is an execution error. *)
Definition evalField (name : string) (p : template.Template) : result string :=
  if String.eqb name "Team" then Ok (template.Team p)
  else if String.eqb name "Owner" then Ok (template.Owner p)
  else if String.eqb name "Repository" then Ok (template.Repository p)
  else if String.eqb name "Template" then Ok (template.Template_ p)
  else Err (Errorf_str "template: path: can't evaluate field %s in type *template.Template" name).

Fixpoint Execute (t : list node) (p : template.Template) : result string :=
  match t with
  | [] => Ok ""
  | TextNode text :: t' =>
      match Execute t' p with
      | Ok s => Ok (text +:+ s)
      | Err err => Err err
      end
  | FieldNode name :: t' =>
      match evalField name p with
      | Err err => Err err
      | Ok v =>
          match Execute t' p with
          | Ok s => Ok (v +:+ s)
          | Err err => Err err
          end
      end
  end.

Definition engine : template.Engine :=
  {| template.parsed := list node;
     template.Parse := Parse;
     template.Execute := Execute |}.

End text_template.

(* ===================================================================== *)
(** * Package [regexp]: the one expression the repository compiles        *)
(* ===================================================================== *)

Module regexp.

Inductive atom : Type :=
| Digit               (* \d *)
| Lit (c : ascii).

(** The text matched by [re] at the head of [s], if any.  The expressions
    built from [atom]s have no alternation and no repetition operator, so
    the leftmost match of the library is the first position where this
    succeeds. *)
Fixpoint matchPrefix (re : list atom) (s : string) : option string :=
  match re with
  | [] => Some EmptyString
  | a :: re' =>
      match s with
      | EmptyString => None
      | String c s' =>
          if match a with Digit => time.isDigit c | Lit l => Ascii.eqb c l end
          then option_map (String c) (matchPrefix re' s')
          else None
      end
  end.

(** [re.FindString(s)]: the leftmost match, or the empty string. *)
Fixpoint FindString (re : list atom) (s : string) : string :=
  match matchPrefix re s with
  | Some m => m
  | None =>
      match s with
      | EmptyString => EmptyString
      | String _ s' => FindString re s'
      end
  end.

End regexp.

(* ===================================================================== *)
(** * Data of the packages [github], [repo] and [team]                     *)
(* ===================================================================== *)

Module github.

(** [github.Key]: every field is a pointer.  The slices of keys and of
    repositories hold pointers too; their elements come from decoders that
    never produce nil, and are modelled as values. *)
Record Key : Type := mkKey {
  ID : option Z;
  Key_ : option string;
  URL : option string;
  Title : option string;
  ReadOnly : option bool
}.

End github.

Module repo.

Record Repo : Type := mkRepo {
  Name : string;
  ReadOnly : bool
}.

End repo.

Module team.

(** Modelled from the spec: the team descriptor of package [team], which is
    not among the sources; the handler reads its [Name] only. *)
Record Team : Type := mkTeam { Name : string }.

End team.

(* ===================================================================== *)
(** * Runs: the world, the trace of calls, panics                          *)
(* ===================================================================== *)

Inductive LogArg : Type :=
| ArgError (err : error)
| ArgInt (n : Z).

(** What a run does that can be observed: the calls the handler makes to
    the manager, to the repository lister and to [time.Sleep], each with
    its arguments and its result, and the log entries with their logrus
    fields. *)
Inductive Event : Type :=
| Warnf (fields : list (string * string)) (format : string) (args : list LogArg)
| Errorf (fields : list (string * string)) (format : string) (args : list LogArg)
| CreateAccessToken_call (owner : string) (r : result string)
| WriteSecret_call (name secret : string) (r : result unit)
| List_call (r : result (list repo.Repo))
| ListKeys_call (repoOwner repoName : string) (r : result (list github.Key))
| GetLastUpdated_call (name : string) (r : result time.Time)
| GenerateKeyPair_call (title : string) (r : result (string * string))
| CreateKey_call (repoOwner repoName : string) (repoReadOnly : bool)
    (title publicKey : string) (r : result unit)
| Sleep_call (d : Z)
| DeleteKey_call (repoOwner repoName : string) (id : Z) (r : result unit).

Inductive exec (A : Type) : Type :=
| Returns (a : A)
| Panics (msg : string).
Arguments Returns {A} a.
Arguments Panics {A} msg.

(** A computation over a world [W]: it may change the world, it returns
    or panics, and it leaves the events of its run, in order. *)
Definition M (W A : Type) : Type := W -> exec A * W * list Event.

(** The events [ev] happened before the run [x]. *)
Definition after {W A} (ev : list Event) (x : exec A * W * list Event)
  : exec A * W * list Event :=
  let '(r, w, ev') := x in (r, w, (ev ++ ev')%list).

Definition M_ret {W A} (a : A) : M W A := fun w => (Returns a, w, []).

Definition M_bind {W A B} (f : A -> M W B) (m : M W A) : M W B :=
  fun w =>
    match m w with
    | (Returns a, w', ev) => after ev (f a w')
    | (Panics msg, w', ev) => (Panics msg, w', ev)
    end.

#[global] Instance M_MRet {W} : MRet (M W) := fun A => @M_ret W A.
#[global] Instance M_MBind {W} : MBind (M W) := fun A B => @M_bind W A B.

Definition panic {W A} (msg : string) : M W A := fun w => (Panics msg, w, []).

Definition emit {W} (e : Event) : M W unit := fun w => (Returns tt, w, [e]).

(** An operation of the outside world. *)
Definition lift {W A} (f : W -> A * W) : M W A :=
  fun w => let '(a, w') := f w in (Returns a, w', []).

(** A call that leaves its event in the trace when it returns. *)
Definition call {W A} (m : M W A) (ev : A -> Event) : M W A :=
  a ← m; _ ← emit (ev a); mret a.

(** [*p] *)
Definition deref {W A} (p : option A) : M W A :=
  match p with
  | Some a => mret a
  | None => panic "runtime error: invalid memory address or nil pointer dereference"
  end.

(** [for _, x := range xs { body }] where the body only falls through or
    continues. *)
Fixpoint for_range {W A} (xs : list A) (body : A -> M W unit) : M W unit :=
  match xs with
  | [] => mret tt
  | x :: xs' => _ ← body x; for_range xs' body
  end.

(* ===================================================================== *)
(** * Package [manager]                                                    *)
(* ===================================================================== *)

Module manager.

(** What the [Manager] reaches outside the process.  [SecretsClient] and
    [EC2Client] are interfaces of the AWS SDK; the [GithubApp] methods
    [createInstallationToken] and [getInstallationClient] are declared in a
    file that is not among the sources; the PEM, X.509 and SSH encoders are
    pure functions on strings of bytes. *)
Record Clients (W : Type) : Type := mkClients {
  (* package time *)
  time_Now : W -> time.Time * W;
  time_Sleep : Z -> W -> unit * W;
  (* secretsmanageriface.SecretsManagerAPI *)
  DescribeSecret : string -> W -> result (option string) * W;
  CreateSecret : string -> string -> W -> result unit * W;
  UpdateSecret : string -> string -> string -> W -> result unit * W;
  (* ec2iface.EC2API *)
  CreateKeyPair : string -> W -> result (option string) * W;
  DeleteKeyPair : string -> W -> result unit * W;
  (* GithubApp *)
  createInstallationToken : string -> W -> result string * W;
  installationClient : Type;
  getInstallationClient : string -> W -> result installationClient * W;
  (* github.RepositoriesService *)
  Repos_ListKeys :
    installationClient -> string -> string -> W -> result (list github.Key) * W;
  Repos_CreateKey :
    installationClient -> string -> string -> github.Key -> W -> result unit * W;
  Repos_DeleteKey :
    installationClient -> string -> string -> Z -> W -> result unit * W;
  (* encoding/pem, crypto/x509, golang.org/x/crypto/ssh *)
  pem_Decode : string -> option string;
  x509_ParsePKCS1PrivateKey : string -> result string;
  ssh_NewPublicKey : string -> result string;
  ssh_MarshalAuthorizedKey : string -> string
}.

Arguments time_Now {W} _. Arguments time_Sleep {W} _.
Arguments DescribeSecret {W} _. Arguments CreateSecret {W} _.
Arguments UpdateSecret {W} _. Arguments CreateKeyPair {W} _.
Arguments DeleteKeyPair {W} _. Arguments createInstallationToken {W} _.
Arguments installationClient {W} _. Arguments getInstallationClient {W} _.
Arguments Repos_ListKeys {W} _. Arguments Repos_CreateKey {W} _.
Arguments Repos_DeleteKey {W} _. Arguments pem_Decode {W} _.
Arguments x509_ParsePKCS1PrivateKey {W} _. Arguments ssh_NewPublicKey {W} _.
Arguments ssh_MarshalAuthorizedKey {W} _.

(** [secretsmanager.ErrCodeResourceExistsException] and
    [secretsmanager.ErrCodeResourceNotFoundException] *)
Definition ErrCodeResourceExistsException : string := "ResourceExistsException".
Definition ErrCodeResourceNotFoundException : string := "ResourceNotFoundException".

(** [regexp.MustCompile(`\d{4}-\d{2}-\d{2}T\d{2}:\d{2}:\d{2}Z`)] *)
Definition re : list regexp.atom :=
  (repeat regexp.Digit 4 ++ [regexp.Lit "-"] ++ repeat regexp.Digit 2
   ++ [regexp.Lit "-"] ++ repeat regexp.Digit 2 ++ [regexp.Lit "T"]
   ++ repeat regexp.Digit 2 ++ [regexp.Lit ":"] ++ repeat regexp.Digit 2
   ++ [regexp.Lit ":"] ++ repeat regexp.Digit 2 ++ [regexp.Lit "Z"])%list.

(** [fmt.Sprintf("Github credentials for Concourse. Last updated: %s", timestamp)] *)
Definition description (timestamp : string) : string :=
  "Github credentials for Concourse. Last updated: " +:+ timestamp.

Section Manager.
Context {W : Type} (m : Clients W).

(** Create an access token for the organisation. *)
Definition CreateAccessToken (owner : string) (w : W) : result string * W :=
  createInstallationToken m owner w.

(** List deploy keys for a repository. *)
Definition ListKeys (repoOwner repoName : string) (w : W)
  : result (list github.Key) * W :=
  match getInstallationClient m repoOwner w with
  | (Err err, w) => (Err err, w)
  | (Ok client, w) =>
      match Repos_ListKeys m client repoOwner repoName w with
      | (Err err, w) => (Err err, w)
      | (Ok keys, w) => (Ok keys, w)
      end
  end.

(** Create deploy key for a repository. *)
Definition CreateKey (repoOwner repoName : string) (repoReadOnly : bool)
    (title publicKey : string) (w : W) : result unit * W :=
  match getInstallationClient m repoOwner w with
  | (Err err, w) => (Err err, w)
  | (Ok client, w) =>
      let input :=
        {| github.ID := None;
           github.Key_ := Some publicKey;
           github.URL := None;
           github.Title := Some title;
           github.ReadOnly := Some repoReadOnly |} in
      Repos_CreateKey m client repoOwner repoName input w
  end.

(** Delete a deploy key. *)
Definition DeleteKey (repoOwner repoName : string) (id : Z) (w : W)
  : result unit * W :=
  match getInstallationClient m repoOwner w with
  | (Err err, w) => (Err err, w)
  | (Ok client, w) => Repos_DeleteKey m client repoOwner repoName id w
  end.

(** Get the time the secret was last updated by this lambda from the
    secret description. *)
Definition GetLastUpdated (name : string) (w : W) : result time.Time * W :=
  match DescribeSecret m name w with
  | (Err err, w) => (Err err, w)
  | (Ok out_Description, w) =>
      let ds := regexp.FindString re (aws_StringValue out_Description) in
      if String.eqb ds "" then
        (Err (Errorf_str "failed to find timestamp in description: %s"
                (aws_StringValue out_Description)), w)
      else
        match time.Parse_RFC3339 ds with
        | Err err => (Err (Errorf_err "failed to parse timestamp: %s" err), w)
        | Ok t => (Ok t, w)
        end
  end.

(** Write a secret to secrets manager. *)
Definition WriteSecret (name secret : string) (w : W) : result unit * W :=
  let '(now, w) := time_Now m w in
  let timestamp := time.Format_RFC3339 now in
  let '(r, w) := CreateSecret m name (description timestamp) w in
  let failed :=
    match r with
    | Ok _ => None
    | Err err =>
        match awserr_Code err with
        | None => Some (Errorf_err "failed to convert error: %s" err)
        | Some code =>
            if negb (String.eqb code ErrCodeResourceExistsException)
            then Some err else None
        end
    end in
  match failed with
  | Some err => (Err err, w)
  | None => UpdateSecret m (description timestamp) name secret w
  end.

(** The body of [GenerateKeyPair] after [CreateKeyPair] has succeeded and
    the clean-up has been deferred. *)
Definition derivePublicKey (privateKey : string) : result (string * string) :=
  match pem_Decode m privateKey with
  | None => Err (errors_New "failed to decode private key")
  | Some block_Bytes =>
      match x509_ParsePKCS1PrivateKey m block_Bytes with
      | Err err => Err err
      | Ok key =>
          match ssh_NewPublicKey m key with
          | Err err => Err err
          | Ok public =>
              Ok (privateKey, ssh_MarshalAuthorizedKey m public)
          end
      end
  end.

(** Generate a key pair for the deploy key.  The deferred [DeleteKeyPair]
    runs on every path after [CreateKeyPair] succeeded, and its error is
    discarded. *)
Definition GenerateKeyPair (title : string) (w : W)
  : result (string * string) * W :=
  match CreateKeyPair m title w with
  | (Err err, w) => (Err err, w)
  | (Ok res_KeyMaterial, w) =>
      let r := derivePublicKey (aws_StringValue res_KeyMaterial) in
      let '(_, w) := DeleteKeyPair m title w in
      (r, w)
  end.

End Manager.
End manager.

(* ===================================================================== *)
(** * Package [dynamodb]                                                   *)
(* ===================================================================== *)

Module dynamodb.

Definition repoNameAttribute : string := "repo_name".

Section Lister.
(** [Item] is a [map[string]*dynamodb.AttributeValue]; [Scan] is the call
    [l.dynamoDBService.Scan] for the lister's table, returning
    [scanOutput.Items]; [UnmarshalMap] decodes an item into the local
    [tableItem] struct, of which [RepoName] is the only field. *)
Context {W Item : Type}
  (DynamoDBTableName : string)
  (Scan : string -> W -> result (list Item) * W)
  (UnmarshalMap : Item -> result string).

Definition log_fields : list (string * string) :=
  [("dynamodb_table", DynamoDBTableName)].

(** The loop over [scanOutput.Items]: [repos] is the slice built so far. *)
Fixpoint appendRepos (items : list Item) (repos : list repo.Repo)
  : M W (list repo.Repo) :=
  match items with
  | [] => mret repos
  | scanOutputItem :: items' =>
      match UnmarshalMap scanOutputItem with
      | Err err => panic "Failed to unmarshal Record, %v"
      | Ok item_RepoName =>
          let repo := {| repo.Name := item_RepoName; repo.ReadOnly := false |} in
          appendRepos items' (repos ++ [repo])%list
      end
  end.

Definition List : M W (result (list repo.Repo)) :=
  r ← lift (Scan DynamoDBTableName);
  match r with
  | Err err =>
      _ ← emit (Errorf log_fields "failed to scan DynamoDB table: %v" [ArgError err]);
      mret (Err (Errorf_err "scanning DynamoDB table: %w" err))
  | Ok items =>
      repos ← appendRepos items [];
      mret (Ok repos)
  end.

End Lister.
End dynamodb.

(* ===================================================================== *)
(** * Package [handler]                                                    *)
(* ===================================================================== *)

Module handler.

(** How the loop over the keys of a repository ends: [break] or the end of
    the list, with the value of [oldKey]; or [continue Loop]. *)
Inductive scan : Type :=
| Proceed (oldKey : option github.Key)
| ContinueLoop.

(** [key.ReadOnly != nil && *key.ReadOnly != repo.ReadOnly] *)
Definition permissionsChanged (key : github.Key) (repo : repo.Repo) : bool :=
  match github.ReadOnly key with
  | Some readOnly => negb (Bool.eqb readOnly (repo.ReadOnly repo))
  | None => false
  end.

Section New.
Context {W : Type}
  (manager : manager.Clients W)
  (engine : template.Engine)
  (githubOrganisation : string)
  (repoLister : M W (result (list repo.Repo)))
  (tokenTemplate keyTemplate titleTemplate : string)
  (team : team.Team).

(** [logger.WithFields(logrus.Fields{"team": team.Name})] *)
Definition log : list (string * string) := [("team", team.Name team)].

Section Repo.
Context (repo : repo.Repo) (keyPath title : string).

(** [log.WithFields(logrus.Fields{"repository": repo.Name})] *)
Definition log_repo : list (string * string) :=
  (log ++ [("repository", repo.Name repo)])%list.

(** Lines 300-323: look for existing keys belonging to the team. *)
Fixpoint findOldKey (keys : list github.Key) (oldKey : option github.Key)
  : M W scan :=
  match keys with
  | [] => mret (Proceed oldKey)
  | key :: keys' =>
      key_Title ← deref (github.Title key);
      if String.eqb key_Title title then
        let oldKey := Some key in
        (* Rotate the key if read/write permissions have changed *)
        if permissionsChanged key repo then mret (Proceed oldKey)
        else
          (* Do not rotate if nothing has changed and the key is not >7 days old *)
          r ← call (lift (manager.GetLastUpdated manager keyPath))
                   (GetLastUpdated_call keyPath);
          match r with
          | Err err =>
              if match awserr_Code err with
                 | Some code =>
                     String.eqb code manager.ErrCodeResourceNotFoundException
                 | None => false
                 end
              then mret (Proceed oldKey)
              else
                _ ← emit (Warnf log_repo "failed to get last updated for secret: %s"
                            [ArgError err]);
                mret (Proceed oldKey)
          | Ok updated =>
              now ← lift (manager.time_Now manager);
              if time.After updated (time.AddDate now 0 0 (-7))
              then mret ContinueLoop
              else findOldKey keys' oldKey
          end
      else findOldKey keys' oldKey
  end.

(** Lines 325-351: generate, publish, persist, then delete the old key. *)
Definition rotate (oldKey : option github.Key) : M W unit :=
  r ← call (lift (manager.GenerateKeyPair manager title))
           (GenerateKeyPair_call title);
  match r with
  | Err err =>
      emit (Warnf log_repo "failed to generate new key pair: %s" [ArgError err])
  | Ok (private, public) =>
      r ← call (lift (manager.CreateKey manager githubOrganisation
                        (repo.Name repo) (repo.ReadOnly repo) title public))
               (CreateKey_call githubOrganisation (repo.Name repo)
                  (repo.ReadOnly repo) title public);
      match r with
      | Err err =>
          emit (Warnf log_repo "failed to create key on github: %s" [ArgError err])
      | Ok _ =>
          r ← call (lift (manager.WriteSecret manager keyPath private))
                   (WriteSecret_call keyPath private);
          match r with
          | Err err =>
              emit (Warnf log_repo "failed to write secret key: %s" [ArgError err])
          | Ok _ =>
              (* Sleep before deleting old key *)
              match oldKey with
              | None => mret tt
              | Some oldKey =>
                  _ ← call (lift (manager.time_Sleep manager (time.Second * 1)))
                           (fun _ => Sleep_call (time.Second * 1));
                  oldKey_ID ← deref (github.ID oldKey);
                  r ← call (lift (manager.DeleteKey manager githubOrganisation
                                    (repo.Name repo) oldKey_ID))
                           (DeleteKey_call githubOrganisation (repo.Name repo)
                              oldKey_ID);
                  match r with
                  | Err err =>
                      emit (Warnf log_repo "failed to delete old github key: %d: %s"
                              [ArgInt oldKey_ID; ArgError err])
                  | Ok _ => mret tt
                  end
              end
          end
      end
  end.

End Repo.

(** The body of the loop over the repositories (lines 276-353). *)
Definition processRepo (repo : repo.Repo) : M W unit :=
  match template.String engine
          (template.NewTemplate (team.Name team) (repo.Name repo)
             githubOrganisation keyTemplate) with
  | Err err =>
      emit (Warnf (log_repo repo) "failed to parse deploy key template: %s"
              [ArgError err])
  | Ok keyPath =>
      match template.String engine
              (template.NewTemplate (team.Name team) (repo.Name repo)
                 githubOrganisation titleTemplate) with
      | Err err =>
          emit (Warnf (log_repo repo) "failed to parse github title template: %s"
                  [ArgError err])
      | Ok title =>
          (* Look for existing keys belonging to the team *)
          r ← call (lift (manager.ListKeys manager githubOrganisation
                            (repo.Name repo)))
                   (ListKeys_call githubOrganisation (repo.Name repo));
          match r with
          | Err err =>
              emit (Warnf (log_repo repo) "failed to list github keys: %s"
                      [ArgError err])
          | Ok keys =>
              s ← findOldKey repo keyPath title keys None;
              match s with
              | ContinueLoop => mret tt
              | Proceed oldKey => rotate repo keyPath title oldKey
              end
          end
      end
  end.

(** The function that [New] returns, applied to [team]; [None] is a nil
    error. *)
Definition New : M W (option error) :=
  (* Write an access token for the organisation *)
  match template.String engine
          (template.NewTemplateWithoutRepository (team.Name team)
             githubOrganisation tokenTemplate) with
  | Err err =>
      _ ← emit (Warnf log "failed to parse token path template: %s" [ArgError err]);
      mret (Some (Errorf_err "parsing token path template: %w" err))
  | Ok tokenPath =>
      r ← call (lift (manager.CreateAccessToken manager githubOrganisation))
               (CreateAccessToken_call githubOrganisation);
      match r with
      | Err err =>
          _ ← emit (Warnf log "failed to create access token: %s" [ArgError err]);
          mret (Some (Errorf_err "creating access token: %w" err))
      | Ok token =>
          r ← call (lift (manager.WriteSecret manager tokenPath token))
                   (WriteSecret_call tokenPath token);
          match r with
          | Err err =>
              _ ← emit (Warnf log "failed to write access token: %s" [ArgError err]);
              mret (Some (Errorf_err "writing access token: %w" err))
          | Ok _ =>
              r ← call repoLister List_call;
              match r with
              | Err err =>
                  _ ← emit (Warnf log "failed to list repos: %v" [ArgError err]);
                  mret (Some (Errorf_err "listing repos: %w" err))
              | Ok repos =>
                  _ ← for_range repos processRepo;
                  mret None
              end
          end
      end
  end.

End New.

(** The calls that change something upstream on behalf of a repository. *)
Definition mutating (e : Event) : bool :=
  match e with
  | GenerateKeyPair_call _ _ | CreateKey_call _ _ _ _ _ _
  | WriteSecret_call _ _ _ | DeleteKey_call _ _ _ _ => true
  | _ => false
  end.

End handler.

(* ===================================================================== *)
(** * An in-memory world                                                   *)
(* ===================================================================== *)

(** A test double of the services, in the manner of the mocks the
    repository generates for its clients: a clock, a secret store, the
    deploy keys of each repository, the EC2 key pairs, and faults that can
    be injected per operation. *)
Module fake.

Record Secret : Type := mkSecret {
  Description : option string;
  SecretString : option string
}.

Record World : Type := mkWorld {
  clock : time.Time;
  secrets : gmap string Secret;
  deployKeys : gmap (string * string) (list github.Key);
  nextID : Z;
  keyPairs : gset string;
  keyMaterial : string;
  faults : string -> option error
}.

Definition no_faults : string -> option error := fun _ => None.

Definition set_clock (t : time.Time) (w : World) : World :=
  mkWorld t (secrets w) (deployKeys w) (nextID w) (keyPairs w) (keyMaterial w) (faults w).
Definition set_secrets (x : gmap string Secret) (w : World) : World :=
  mkWorld (clock w) x (deployKeys w) (nextID w) (keyPairs w) (keyMaterial w) (faults w).
Definition set_deployKeys (x : gmap (string * string) (list github.Key)) (n : Z)
    (w : World) : World :=
  mkWorld (clock w) (secrets w) x n (keyPairs w) (keyMaterial w) (faults w).
Definition set_keyPairs (x : gset string) (w : World) : World :=
  mkWorld (clock w) (secrets w) (deployKeys w) (nextID w) x (keyMaterial w) (faults w).

(** An operation that fails when a fault is injected under its name. *)
Definition guarded {A} (op : string) (f : World -> result A * World) (w : World)
  : result A * World :=
  match faults w op with
  | Some err => (Err err, w)
  | None => f w
  end.

Definition Now (w : World) : time.Time * World := (clock w, w).

(** Sleeping advances the clock by [d] nanoseconds. *)
Definition Sleep (d : Z) (w : World) : unit * World :=
  let ns := time.nsec (clock w) + d in
  (tt, set_clock (time.mkTime (time.sec (clock w) + ns / 1000000000)
                              (ns mod 1000000000)) w).

Definition notFound : error :=
  awserr_New "ResourceNotFoundException"
    "Secrets Manager can't find the specified secret.".

Definition DescribeSecret (name : string) : World -> result (option string) * World :=
  guarded "DescribeSecret" (fun w =>
    match secrets w !! name with
    | None => (Err notFound, w)
    | Some s => (Ok (Description s), w)
    end).

Definition CreateSecret (name description : string) : World -> result unit * World :=
  guarded "CreateSecret" (fun w =>
    match secrets w !! name with
    | Some _ =>
        (Err (awserr_New "ResourceExistsException"
                "The operation failed because the secret already exists."), w)
    | None => (Ok tt, set_secrets (<[name := mkSecret (Some description) None]> (secrets w)) w)
    end).

Definition UpdateSecret (description secretId secretString : string)
  : World -> result unit * World :=
  guarded "UpdateSecret" (fun w =>
    match secrets w !! secretId with
    | None => (Err notFound, w)
    | Some _ =>
        (Ok tt, set_secrets (<[secretId := mkSecret (Some description) (Some secretString)]>
                               (secrets w)) w)
    end).

Definition CreateKeyPair (name : string) : World -> result (option string) * World :=
  guarded "CreateKeyPair" (fun w =>
    if decide (name ∈ keyPairs w) then
      (Err (awserr_New "InvalidKeyPair.Duplicate" "The key pair already exists."), w)
    else (Ok (Some (keyMaterial w)), set_keyPairs ({[name]} ∪ keyPairs w) w)).

Definition DeleteKeyPair (name : string) : World -> result unit * World :=
  guarded "DeleteKeyPair" (fun w => (Ok tt, set_keyPairs (keyPairs w ∖ {[name]}) w)).

Definition createInstallationToken (owner : string) : World -> result string * World :=
  guarded "createInstallationToken" (fun w => (Ok ("token:" +:+ owner), w)).

Definition getInstallationClient (owner : string) : World -> result unit * World :=
  guarded "getInstallationClient" (fun w => (Ok tt, w)).

Definition keysOf (owner name : string) (w : World) : list github.Key :=
  default [] (deployKeys w !! (owner, name)).

Definition Repos_ListKeys (_ : unit) (owner name : string)
  : World -> result (list github.Key) * World :=
  guarded "ListKeys" (fun w => (Ok (keysOf owner name w), w)).

(** GitHub assigns the identifier of a new key. *)
Definition Repos_CreateKey (_ : unit) (owner name : string) (key : github.Key)
  : World -> result unit * World :=
  guarded "CreateKey" (fun w =>
    let key' := github.mkKey (Some (nextID w)) (github.Key_ key) (github.URL key)
                  (github.Title key) (github.ReadOnly key) in
    (Ok tt, set_deployKeys (<[(owner, name) := (keysOf owner name w ++ [key'])%list]>
                              (deployKeys w)) (nextID w + 1) w)).

Definition hasID (id : Z) (key : github.Key) : bool :=
  match github.ID key with Some i => i =? id | None => false end.

Definition Repos_DeleteKey (_ : unit) (owner name : string) (id : Z)
  : World -> result unit * World :=
  guarded "DeleteKey" (fun w =>
    (Ok tt, set_deployKeys
              (<[(owner, name) := List.filter (fun k => negb (hasID id k)) (keysOf owner name w)]>
                 (deployKeys w)) (nextID w) w)).

(** The encoders are stand-ins: any non-empty key material decodes. *)
Definition clients : manager.Clients World :=
  {| manager.time_Now := Now;
     manager.time_Sleep := Sleep;
     manager.DescribeSecret := DescribeSecret;
     manager.CreateSecret := CreateSecret;
     manager.UpdateSecret := UpdateSecret;
     manager.CreateKeyPair := CreateKeyPair;
     manager.DeleteKeyPair := DeleteKeyPair;
     manager.createInstallationToken := createInstallationToken;
     manager.installationClient := unit;
     manager.getInstallationClient := getInstallationClient;
     manager.Repos_ListKeys := Repos_ListKeys;
     manager.Repos_CreateKey := Repos_CreateKey;
     manager.Repos_DeleteKey := Repos_DeleteKey;
     manager.pem_Decode := fun s => if String.eqb s "" then None else Some s;
     manager.x509_ParsePKCS1PrivateKey := fun b => Ok b;
     manager.ssh_NewPublicKey := fun k => Ok k;
     manager.ssh_MarshalAuthorizedKey := fun k => "ssh-rsa " +:+ k |}.

(** A repository lister over a fixed list. *)
Definition lister (repos : list repo.Repo) : M World (result (list repo.Repo)) :=
  lift (guarded "List" (fun w => (Ok repos, w))).

(** The result and the events of a run. *)
Definition outcome {A} (x : exec A * World * list Event) : exec A * list Event :=
  (fst (fst x), snd x).

End fake.

(* ===================================================================== *)
(** * Scenarios in the in-memory world                                     *)
(* ===================================================================== *)

Module scenario.

Definition organisation : string := "org".
Definition platform : team.Team := team.mkTeam "platform".
Definition tokenTemplate : string := "/concourse/{{.Team}}/github-token".
Definition keyTemplate : string := "/concourse/{{.Team}}/{{.Repository}}-deploy-key".
Definition titleTemplate : string := "concourse-{{.Team}}-deploy-key".
Definition badTemplate : string := "/concourse/{{.Team}}/{{.Repo}}".

Definition tokenPath : string := "/concourse/platform/github-token".
Definition keyPath : string := "/concourse/platform/svc-a-deploy-key".
Definition title : string := "concourse-platform-deploy-key".

(** The repository [svc-a], declared writable or read-only. *)
Definition svc_a (readOnly : bool) : repo.Repo := repo.mkRepo "svc-a" readOnly.
Definition svc_b : repo.Repo := repo.mkRepo "svc-b" false.

(** 2026-10-31T00:00:00.000000123Z *)
Definition now : time.Time := time.mkTime 1793404800 123.
(** One day and thirty days before [now]. *)
Definition yesterday : time.Time := time.mkTime 1793318400 0.
Definition lastMonth : time.Time := time.mkTime 1790812800 0.

Definition teamKey (id : Z) (readOnly : bool) : github.Key :=
  github.mkKey (Some id) (Some "ssh-rsa OLD") None (Some title) (Some readOnly).
Definition otherKey : github.Key :=
  github.mkKey (Some 7) (Some "ssh-rsa OTHER") None
    (Some "concourse-data-deploy-key") (Some true).

Definition secretOf (updated : time.Time) : fake.Secret :=
  fake.mkSecret (Some (manager.description (time.Format_RFC3339 updated)))
    (Some "OLD PRIVATE").

(** A world where [svc-a] has the keys [keys] and, if [updated] is given, a
    secret for its deploy key that was written at that time. *)
Definition world (keys : list github.Key) (updated : option time.Time)
    (faults : string -> option error) : fake.World :=
  fake.mkWorld now
    (match updated with
     | Some t => {[ keyPath := secretOf t ]}
     | None => ∅
     end)
    {[ (organisation, "svc-a") := keys ]}
    100 ∅ "NEW PRIVATE" faults.

Definition failing (op : string) (err : error) : string -> option error :=
  fun o => if String.eqb o op then Some err else None.

Definition internalError : error :=
  awserr_New "InternalServiceError" "An error occurred on the server side.".

Definition processRepo : repo.Repo -> M fake.World unit :=
  handler.processRepo fake.clients text_template.engine organisation
    keyTemplate titleTemplate platform.

Definition run (repos : list repo.Repo) : M fake.World (option error) :=
  handler.New fake.clients text_template.engine organisation (fake.lister repos)
    tokenTemplate keyTemplate titleTemplate platform.

(** [handler.New] with a key template that names an unknown field. *)
Definition runBadKeyTemplate (repos : list repo.Repo) : M fake.World (option error) :=
  handler.New fake.clients text_template.engine organisation (fake.lister repos)
    tokenTemplate badTemplate titleTemplate platform.

End scenario.

(* ===================================================================== *)
(** * Vocabulary of the properties                                         *)
(* ===================================================================== *)

Module props.

(** [t.UnixNano()] *)
Definition UnixNano (t : time.Time) : Z :=
  time.sec t * 1000000000 + time.nsec t.

Definition sevenDays : Z := 7 * 24 * 3600 * 1000000000.

(** [updated] is less than seven days before [now]. *)
Definition fresh (updated now : time.Time) : Prop :=
  UnixNano now - UnixNano updated < sevenDays.

(** A reading of the clock: its nanoseconds are within the second. *)
Definition clockReading (t : time.Time) : Prop :=
  0 <= time.nsec t < 1000000000.

(** The key has a title, and it is another one. *)
Definition otherTitle (title : string) (key : github.Key) : Prop :=
  exists t, github.Title key = Some t /\ t <> title.

(** [k] is the first key of the listing that carries [title]. *)
Definition firstWithTitle (title : string) (keys : list github.Key)
    (k : github.Key) : Prop :=
  exists pre post,
    keys = (pre ++ k :: post)%list
    /\ Forall (otherTitle title) pre
    /\ github.Title k = Some title.

(** The lookup failed because no secret exists at the path. *)
Definition isNotFound (err : error) : Prop :=
  awserr_Code err = Some manager.ErrCodeResourceNotFoundException.

Section Rotation.
Context (githubOrganisation : string) (repo : repo.Repo)
  (keyPath title : string) (fields : list (string * string)).

(** The events of one rotation for [repo] (steps a to d), by how far it
    gets; [oldKey] is the key to retire, if any. *)
Inductive rotation : option github.Key -> list Event -> Prop :=
| generate_failed oldKey err :
    rotation oldKey
      [GenerateKeyPair_call title (Err err);
       Warnf fields "failed to generate new key pair: %s" [ArgError err]]
| publish_failed oldKey private public err :
    rotation oldKey
      [GenerateKeyPair_call title (Ok (private, public));
       CreateKey_call githubOrganisation (repo.Name repo) (repo.ReadOnly repo)
         title public (Err err);
       Warnf fields "failed to create key on github: %s" [ArgError err]]
| persist_failed oldKey private public err :
    rotation oldKey
      [GenerateKeyPair_call title (Ok (private, public));
       CreateKey_call githubOrganisation (repo.Name repo) (repo.ReadOnly repo)
         title public (Ok tt);
       WriteSecret_call keyPath private (Err err);
       Warnf fields "failed to write secret key: %s" [ArgError err]]
| created private public :
    rotation None
      [GenerateKeyPair_call title (Ok (private, public));
       CreateKey_call githubOrganisation (repo.Name repo) (repo.ReadOnly repo)
         title public (Ok tt);
       WriteSecret_call keyPath private (Ok tt)]
| rotated oldKey id private public r :
    github.ID oldKey = Some id ->
    rotation (Some oldKey)
      ([GenerateKeyPair_call title (Ok (private, public));
        CreateKey_call githubOrganisation (repo.Name repo) (repo.ReadOnly repo)
          title public (Ok tt);
        WriteSecret_call keyPath private (Ok tt);
        Sleep_call (time.Second * 1);
        DeleteKey_call githubOrganisation (repo.Name repo) id r]
       ++ match r with
          | Ok _ => []
          | Err err =>
              [Warnf fields "failed to delete old github key: %d: %s"
                 [ArgInt id; ArgError err]]
          end)%list
| old_key_without_id oldKey private public :
    github.ID oldKey = None ->
    rotation (Some oldKey)
      [GenerateKeyPair_call title (Ok (private, public));
       CreateKey_call githubOrganisation (repo.Name repo) (repo.ReadOnly repo)
         title public (Ok tt);
       WriteSecret_call keyPath private (Ok tt);
       Sleep_call (time.Second * 1)].

End Rotation.

(** The events that the scan of a repository's keys can leave. *)
Definition lookupOrWarning (e : Event) : bool :=
  match e with
  | GetLastUpdated_call _ _ | Warnf _ _ _ => true
  | _ => false
  end.

(** No byte of [s] is a decimal digit. *)
Fixpoint noDigits (s : string) : bool :=
  match s with
  | EmptyString => true
  | String c s' => negb (time.isDigit c) && noDigits s'
  end.

(** The repository name with every ['.'] turned into ['-']. *)
Fixpoint dotsToDashes (s : string) : string :=
  match s with
  | EmptyString => EmptyString
  | String c s' =>
      String (if Ascii.eqb c "." then "-"%char else c) (dotsToDashes s')
  end.

End props.

(** ** Auxiliary definitions for the calendar proofs *)

Module calendar.
Import time.

(** The last step of [absDate]: month and day of the month from the day
    of the year, [leap] being [isLeap year]. *)
Definition monthDay (leap : bool) (yday : Z) : Z * Z :=
  if leap && (yday =? 31 + 29 - 1) then (2, 29)
  else
    let day := if leap && (yday >? 31 + 29 - 1) then yday - 1 else yday in
    let month := day / 31 in
    let end_ := daysBefore (month + 1) in
    let '(month, begin) :=
      if day >=? end_ then (month + 1, end_) else (month, daysBefore month) in
    (month + 1, day - begin + 1).

(** [absDate] from its second step on: [y] years are accounted for and [d]
    days remain within the 400-year cycle. *)
Definition absDate_from (y d : Z) : Z * Z * Z * Z :=
  let n := d / daysPer100Years in
  let n := n - Z.shiftr n 2 in
  let y := y + 100 * n in
  let d := d - daysPer100Years * n in
  let n := d / daysPer4Years in
  let y := y + 4 * n in
  let d := d - daysPer4Years * n in
  let n := d / 365 in
  let n := n - Z.shiftr n 2 in
  let y := y + n in
  let d := d - 365 * n in
  let year := y + absoluteZeroYear in
  let '(month, day) := monthDay (isLeap year) d in
  (year, month, day, d).

(** The day count that [Date] computes for a year and an in-range month. *)
Definition dateDays (year month day : Z) : Z :=
  let y := year - absoluteZeroYear in
  let n := y / 400 in
  let y := y - 400 * n in
  let d := daysPer400Years * n in
  let n := y / 100 in
  let y := y - 100 * n in
  let d := d + daysPer100Years * n in
  let n := y / 4 in
  let y := y - 4 * n in
  let d := d + daysPer4Years * n in
  let n := y in
  let d := d + 365 * n in
  let d := d + daysBefore (month - 1) in
  let d := if isLeap year && (month >=? 3) then d + 1 else d in
  d + (day - 1).

(** [monthDay] yields a calendar date, and [Date] counts back to the day
    of the year. *)
Definition monthDay_ok (leap : bool) (yday : Z) : bool :=
  let '(m, d) := monthDay leap yday in
  (1 <=? m) && (m <=? 12) && (1 <=? d)
  && (d <=? (if (m =? 2) && leap then 29 else daysBefore m - daysBefore (m - 1)))
  && (daysBefore (m - 1) + (if leap && (m >=? 3) then 1 else 0) + (d - 1) =? yday).

(** [f] holds on the [n] integers from [lo] on. *)
Fixpoint all_from (f : Z -> bool) (n : nat) (lo : Z) : bool :=
  match n with
  | O => true
  | S n => f lo && all_from f n (lo + 1)
  end.

(** The four decimal digits of a year and the two of a smaller field. *)
Definition fmt4 (x : Z) : string :=
  String (digit (x / 1000)) (String (digit (x / 100 mod 10))
    (String (digit (x / 10 mod 10)) (String (digit (x mod 10)) EmptyString))).

Definition fmt2 (x : Z) : string :=
  String (digit (x / 10)) (String (digit (x mod 10)) EmptyString).

Definition fmt4_ok (x : Z) : bool :=
  String.eqb (appendInt x 4) (fmt4 x)
  && match fmt4 x with
     | String a (String b (String c (String d EmptyString))) =>
         match atoi4 a b c d with Some v => v =? x | None => false end
     | _ => false
     end.

Definition fmt2_ok (x : Z) : bool :=
  String.eqb (appendInt x 2) (fmt2 x)
  && match fmt2 x with
     | String a (String b EmptyString) =>
         match getnum2 a b with Some v => v =? x | None => false end
     | _ => false
     end.

End calendar.

(* ===================================================================== *)
(** * Further vocabulary: what a repository's run leaves in the trace      *)
(* ===================================================================== *)

Module traces.

(** The key has the title. *)
Definition hasTitle (title : string) (key : github.Key) : bool :=
  match github.Title key with
  | Some t => String.eqb t title
  | None => false
  end.

(** The value of [oldKey] after a scan that runs to the end of the listing:
    the last key that has the title, or the initial value. *)
Fixpoint lastWithTitle (title : string) (keys : list github.Key)
    (oldKey : option github.Key) : option github.Key :=
  match keys with
  | [] => oldKey
  | key :: keys' =>
      lastWithTitle title keys' (if hasTitle title key then Some key else oldKey)
  end.




(** The wrapped errors that [handler.New] returns. *)
Definition fatalFormats : list string :=
  ["parsing token path template: %w"; "creating access token: %w";
   "writing access token: %w"; "listing repos: %w"].

End traces.

Module listing.

(** The repository that [dynamodb.List] builds for a decoded item. *)
Definition repoOf (name : string) : repo.Repo :=
  {| repo.Name := name; repo.ReadOnly := false |}.

End listing.

(* ===================================================================== *)
(** * Further cases on the in-memory world                                 *)
(* ===================================================================== *)

Module cases.
Import scenario.

(** Seven days before [scenario.now], to the second. *)
Definition lastWeek : time.Time := time.mkTime 1792800000 0.

(** A key that is listed without a title. *)
Definition untitledKey : github.Key :=
  github.mkKey (Some 9) (Some "ssh-rsa UNTITLED") None None (Some false).

(** A description that [WriteSecret] did not write. *)
Definition handWritten : string :=
  "Rotated by hand at " +:+ time.Format_RFC3339 yesterday +:+ " (see the runbook)".

(** A world whose only secret is the deploy key of [svc-a], described by
    [d]. *)
Definition described (d : option string) : fake.World :=
  fake.mkWorld now {[ keyPath := fake.mkSecret d (Some "OLD PRIVATE") ]}
    ∅ 100 ∅ "NEW PRIVATE" fake.no_faults.

(** A table whose items stand for what they decode to. *)
Definition Scan (items : list (result string)) (table : string)
  : fake.World -> result (list (result string)) * fake.World :=
  fake.guarded "Scan" (fun w => (Ok items, w)).

Definition UnmarshalMap (item : result string) : result string := item.

Definition List (items : list (result string))
  : M fake.World (result (list repo.Repo)) :=
  dynamodb.List "github-repos" (Scan items) UnmarshalMap.

(** [handler.New] over the table. *)
Definition runTable (items : list (result string)) : M fake.World (option error) :=
  handler.New fake.clients text_template.engine organisation (List items)
    tokenTemplate keyTemplate titleTemplate platform.

End cases.

(* ===================================================================== *)
(** * Properties                                                           *)
(* ===================================================================== *)

Example Format_epoch :
  time.Format_RFC3339 (time.mkTime 0 0) = "1970-01-01T00:00:00Z".
Proof. vm_compute. reflexivity. Qed.

Example Format_2020 :
  time.Format_RFC3339 (time.mkTime 1582934400 5) = "2020-02-29T00:00:00Z".
Proof. vm_compute. reflexivity. Qed.

Example Format_2026 :
  time.Format_RFC3339 (time.mkTime 1793404800 0) = "2026-10-31T00:00:00Z".
Proof. vm_compute. reflexivity. Qed.

Example Parse_2026 :
  time.Parse_RFC3339 "2026-10-31T00:00:00Z" = Ok (time.mkTime 1793404800 0).
Proof. vm_compute. reflexivity. Qed.

Example AddDate_2026 :
  time.AddDate (time.mkTime 1793404800 7) 0 0 (-7) = time.mkTime (1793404800 - 7 * 86400) 7.
Proof. vm_compute. reflexivity. Qed.

(* --------------------------------------------------------------------- *)
(** ** The calendar: [Date] inverts [absDate]                              *)
(* --------------------------------------------------------------------- *)

Module calendar_facts.
Import time calendar.

Lemma rem_zero_mod (a b : Z) : 0 < b -> (Z.rem a b =? 0) = (a mod b =? 0).
Proof.
  intros Hb.
  destruct (Z.eqb_spec (Z.rem a b) 0) as [H|H];
    destruct (Z.eqb_spec (a mod b) 0) as [H'|H']; try reflexivity; exfalso.
  - apply H'. apply Z.rem_divide in H; [|lia]. apply Z.mod_divide; [lia|exact H].
  - apply H. apply Z.mod_divide in H'; [|lia]. apply Z.rem_divide; [lia|exact H'].
Qed.

Lemma isLeap_cycle (y q : Z) : isLeap (y + 400 * q) = isLeap y.
Proof.
  unfold isLeap. rewrite !rem_zero_mod by lia.
  replace (y + 400 * q) with (y + (100 * q) * 4) at 1 by lia.
  replace (y + 400 * q) with (y + (4 * q) * 100) at 1 by lia.
  replace (y + 400 * q) with (y + q * 400) by lia.
  rewrite !Z_mod_plus_full. reflexivity.
Qed.

Lemma absDate_unfold (a : Z) :
  absDate a =
  absDate_from (400 * (a / secondsPerDay / daysPer400Years))
               ((a / secondsPerDay) mod daysPer400Years).
Proof.
  rewrite Z.mod_eq by (unfold daysPer400Years; lia).
  unfold absDate, absDate_from, monthDay. cbv zeta.
  repeat match goal with
         | |- context [if ?b then _ else _] => destruct b
         end; reflexivity.
Qed.

Lemma all_from_spec (f : Z -> bool) (n : nat) (lo : Z) :
  all_from f n lo = true ->
  forall r, lo <= r < lo + Z.of_nat n -> f r = true.
Proof.
  revert lo. induction n as [|n IH]; intros lo H r Hr; [lia|].
  simpl in H. apply andb_true_iff in H as [H0 H1].
  destruct (Z.eq_dec r lo) as [->|Hne]; [exact H0|].
  apply (IH (lo + 1) H1). lia.
Qed.

Lemma monthDay_all :
  all_from (monthDay_ok true) 366 0 && all_from (monthDay_ok false) 365 0 = true.
Proof. vm_compute. reflexivity. Qed.

Lemma monthDay_spec (leap : bool) (yd : Z) :
  0 <= yd < (if leap then 366 else 365) ->
  let '(m, d) := monthDay leap yd in
  1 <= m <= 12
  /\ 1 <= d <= (if (m =? 2) && leap then 29 else daysBefore m - daysBefore (m - 1))
  /\ daysBefore (m - 1) + (if leap && (m >=? 3) then 1 else 0) + (d - 1) = yd.
Proof.
  intros Hyd. pose proof monthDay_all as H. apply andb_true_iff in H as [Ht Hf].
  assert (Hok : monthDay_ok leap yd = true).
  { destruct leap.
    - apply (all_from_spec _ _ _ Ht). lia.
    - apply (all_from_spec _ _ _ Hf). lia. }
  unfold monthDay_ok in Hok. destruct (monthDay leap yd) as [m d].
  repeat (apply andb_true_iff in Hok as [Hok ?]).
  repeat match goal with
         | H : (_ <=? _) = true |- _ => apply Z.leb_le in H
         | H : (_ =? _) = true |- _ => apply Z.eqb_eq in H
         end.
  lia.
Qed.

Lemma isLeap_mod (y : Z) :
  isLeap y = (y mod 4 =? 0) && (negb (y mod 100 =? 0) || (y mod 400 =? 0)).
Proof. unfold isLeap. rewrite !rem_zero_mod by lia. reflexivity. Qed.

(** From a day [r] of the 400-year cycle, [Date] counts back the days that
    [absDate] split, also when [k] days are added to the day of the month. *)
Lemma absDate_from_dateDays (q r k : Z) :
  0 <= r < daysPer400Years ->
  let '(y, m, d, _) := absDate_from (400 * q) r in
  dateDays y m (d + k) = daysPer400Years * q + r + k
  /\ 1 <= m <= 12 /\ 1 <= d <= daysIn m y.
Proof.
  intros Hr. unfold absDate_from, daysPer100Years, daysPer4Years, daysPer400Years in *.
  cbv zeta. rewrite !Z.shiftr_div_pow2 by lia. change (2 ^ 2) with 4.
  change (365 * 100 + 24) with 36524. change (365 * 4 + 1) with 1461.
  change (365 * 400 + 97) with 146097 in *.
  set (n1 := r / 36524 - r / 36524 / 4).
  set (d1 := r - 36524 * n1).
  set (n2 := d1 / 1461).
  set (d2 := d1 - 1461 * n2).
  set (n3 := d2 / 365 - d2 / 365 / 4).
  set (d3 := d2 - 365 * n3).
  set (y := 100 * n1 + 4 * n2 + n3).
  replace (400 * q + 100 * n1 + 4 * n2 + n3 + absoluteZeroYear)
    with (y + 1 + 400 * (q - 730692556)) by (unfold absoluteZeroYear, y; lia).
  set (year := y + 1 + 400 * (q - 730692556)).
  assert (Hleap : isLeap year = isLeap (y + 1)) by apply isLeap_cycle.
  assert (Hy : 0 <= y < 400 /\ 0 <= d3 <= 365
               /\ 36524 * (y / 100) + 1461 * ((y - 100 * (y / 100)) / 4)
                  + 365 * (y - 100 * (y / 100) - 4 * ((y - 100 * (y / 100)) / 4))
                  = r - d3
               /\ (d3 = 365 -> (y + 1) mod 4 = 0
                               /\ ((y + 1) mod 100 <> 0 \/ (y + 1) mod 400 = 0))).
  { clear Hleap. clearbody year. subst y d3 n3 d2 n2 d1 n1.
    split; [|split; [|split; [|intros ?; split]]];
      Z.div_mod_to_equations; lia. }
  destruct Hy as (Hy & Hd3 & Hdays & Hlast).
  assert (Hyd : 0 <= d3 < (if isLeap year then 366 else 365)).
  { rewrite Hleap. destruct (isLeap (y + 1)) eqn:E; [lia|].
    destruct (Z.eq_dec d3 365) as [E365|]; [|lia]. exfalso.
    destruct (Hlast E365) as [H4 H100].
    rewrite isLeap_mod in E.
    apply andb_false_iff in E as [E|E].
    - apply Z.eqb_neq in E. lia.
    - apply orb_false_iff in E as [E1 E2].
      apply negb_false_iff, Z.eqb_eq in E1. apply Z.eqb_neq in E2. lia. }
  pose proof (monthDay_spec (isLeap year) d3 Hyd) as Hmd.
  destruct (monthDay (isLeap year) d3) as [m d].
  destruct Hmd as (Hm & Hd & Hback).
  split; [|split; [exact Hm|]].
  - unfold dateDays, daysPer100Years, daysPer4Years, daysPer400Years. cbv zeta.
    replace (year - absoluteZeroYear) with (y + (q * 400))
      by (unfold year, absoluteZeroYear; lia).
    rewrite Z.div_add by lia. rewrite (Z.div_small y 400) by lia.
    replace (y + q * 400 - 400 * (0 + q)) with y by lia.
    destruct (isLeap year && (m >=? 3)); lia.
  - unfold daysIn. rewrite andb_comm in Hd |- *.
    destruct (isLeap year && (m =? 2)); lia.
Qed.

Lemma norm_id (hi lo base : Z) : 0 <= lo < base -> norm hi lo base = (hi, lo).
Proof.
  intros H. unfold norm.
  destruct (Z.ltb_spec lo 0); [lia|].
  destruct (Z.geb_spec lo base); [lia|reflexivity].
Qed.

Lemma Date_dateDays (year month day hour min sec nsec : Z) :
  1 <= month <= 12 -> 0 <= hour < 24 -> 0 <= min < 60 -> 0 <= sec < 60 ->
  0 <= nsec < 1000000000 ->
  Date year month day hour min sec nsec =
  mkTime (dateDays year month day * secondsPerDay
          + (hour * secondsPerHour + min * secondsPerMinute + sec)
          + (absoluteToInternal + internalToUnix)) nsec.
Proof.
  intros Hm Hh Hmi Hs Hns. unfold Date.
  rewrite (norm_id year (month - 1) 12) by lia.
  rewrite (norm_id sec nsec) by lia.
  rewrite (norm_id min sec) by lia.
  rewrite (norm_id hour min) by lia.
  rewrite (norm_id day hour) by lia.
  cbv zeta. unfold dateDays. cbv zeta.
  replace (month - 1 + 1) with month by lia.
  reflexivity.
Qed.

Lemma absClock_spec (a : Z) :
  let '(h, mi, s) := absClock a in
  0 <= h < 24 /\ 0 <= mi < 60 /\ 0 <= s < 60
  /\ h * secondsPerHour + mi * secondsPerMinute + s = a mod secondsPerDay.
Proof.
  unfold absClock, secondsPerDay, secondsPerHour, secondsPerMinute. cbv zeta.
  change (24 * (60 * 60)) with 86400. change (60 * 60) with 3600.
  pose proof (Z.mod_pos_bound a 86400 ltac:(lia)) as Hs.
  set (s := a mod 86400) in *. clearbody s.
  repeat split; Z.div_mod_to_equations; lia.
Qed.

(** [Date] applied to the fields of an absolute time, with [k] days added
    to the day of the month, is that time [k] days later. *)
Lemma Date_absDate (a k ns : Z) :
  0 <= ns < 1000000000 ->
  let '(y, m, d, _) := absDate a in
  let '(h, mi, s) := absClock a in
  Date y m (d + k) h mi s ns
  = mkTime (a + k * secondsPerDay + (absoluteToInternal + internalToUnix)) ns
  /\ 1 <= m <= 12 /\ 1 <= d <= daysIn m y
  /\ 0 <= h < 24 /\ 0 <= mi < 60 /\ 0 <= s < 60.
Proof.
  intros Hns. rewrite absDate_unfold.
  set (D := a / secondsPerDay).
  assert (Hr : 0 <= D mod daysPer400Years < daysPer400Years)
    by (apply Z.mod_pos_bound; unfold daysPer400Years; lia).
  pose proof (absDate_from_dateDays (D / daysPer400Years) _ k Hr) as Hd.
  destruct (absDate_from _ _) as [[[y m] d] yd].
  destruct Hd as (Hdays & Hm & Hd).
  pose proof (absClock_spec a) as Hc.
  destruct (absClock a) as [[h mi] s].
  destruct Hc as (Hh & Hmi & Hs & Hclock).
  repeat (split; [|lia]).
  rewrite Date_dateDays by lia. f_equal.
  rewrite Hdays, Hclock.
  pose proof (Z.div_mod D daysPer400Years ltac:(unfold daysPer400Years; lia)).
  pose proof (Z.div_mod a secondsPerDay ltac:(unfold secondsPerDay, secondsPerHour, secondsPerMinute; lia)).
  fold D in H0. lia.
Qed.

Lemma AddDate_days (t : Time) (k : Z) :
  0 <= nsec t < 1000000000 ->
  AddDate t 0 0 k = mkTime (sec t + k * secondsPerDay) (nsec t).
Proof.
  intros Hns. unfold AddDate.
  pose proof (Date_absDate (abs t) k (nsec t) Hns) as H.
  destruct (absDate (abs t)) as [[[y m] d] yd].
  destruct (absClock (abs t)) as [[h mi] s].
  destruct H as [H _]. rewrite !Z.add_0_r. rewrite H. f_equal.
  unfold abs, internalToAbsolute, internalToUnix. lia.
Qed.

Lemma fmt4_all : all_from fmt4_ok (Z.to_nat 10000) 0 = true.
Proof. vm_compute. reflexivity. Qed.

Lemma fmt2_all : all_from fmt2_ok (Z.to_nat 100) 0 = true.
Proof. vm_compute. reflexivity. Qed.

Lemma appendInt_4 (x : Z) :
  0 <= x <= 9999 ->
  appendInt x 4 = fmt4 x
  /\ atoi4 (digit (x / 1000)) (digit (x / 100 mod 10))
           (digit (x / 10 mod 10)) (digit (x mod 10)) = Some x.
Proof.
  intros Hx.
  assert (H : fmt4_ok x = true)
    by (apply (all_from_spec _ _ _ fmt4_all); rewrite Z2Nat.id; lia).
  unfold fmt4_ok in H. apply andb_true_iff in H as [H1 H2].
  apply String.eqb_eq in H1. split; [exact H1|].
  unfold fmt4 in H2.
  destruct (atoi4 _ _ _ _) as [v|]; [|discriminate].
  apply Z.eqb_eq in H2. congruence.
Qed.

Lemma appendInt_2 (x : Z) :
  0 <= x <= 99 ->
  appendInt x 2 = fmt2 x
  /\ getnum2 (digit (x / 10)) (digit (x mod 10)) = Some x.
Proof.
  intros Hx.
  assert (H : fmt2_ok x = true)
    by (apply (all_from_spec _ _ _ fmt2_all); rewrite Z2Nat.id; lia).
  unfold fmt2_ok in H. apply andb_true_iff in H as [H1 H2].
  apply String.eqb_eq in H1. split; [exact H1|].
  unfold fmt2 in H2.
  destruct (getnum2 _ _) as [v|]; [|discriminate].
  apply Z.eqb_eq in H2. congruence.
Qed.

Lemma daysIn_le_31 (m y : Z) : 1 <= m <= 12 -> daysIn m y <= 31.
Proof.
  intros Hm. unfold daysIn. destruct ((m =? 2) && isLeap y); [lia|].
  assert (Hc : m = 1 \/ m = 2 \/ m = 3 \/ m = 4 \/ m = 5 \/ m = 6 \/ m = 7
               \/ m = 8 \/ m = 9 \/ m = 10 \/ m = 11 \/ m = 12) by lia.
  repeat (destruct Hc as [->|Hc]; [vm_compute; discriminate|]).
  subst m. vm_compute. discriminate.
Qed.

(** The layout [RFC3339] at UTC is read back by [Parse] as the instant that
    was formatted, to the second. *)
Lemma Parse_Format (t : Time) :
  0 <= Year t <= 9999 ->
  Parse_RFC3339 (Format_RFC3339 t) = Ok (mkTime (sec t) 0).
Proof.
  unfold Year, Format_RFC3339. intros Hy.
  pose proof (Date_absDate (abs t) 0 0 ltac:(lia)) as H.
  destruct (absDate (abs t)) as [[[y m] d] yd].
  destruct (absClock (abs t)) as [[h mi] s].
  destruct H as (HD & Hm & Hd & Hh & Hmi & Hs).
  pose proof (daysIn_le_31 m y Hm) as H31.
  destruct (appendInt_4 y Hy) as [-> Ey].
  destruct (appendInt_2 m ltac:(lia)) as [-> Em].
  destruct (appendInt_2 d ltac:(lia)) as [-> Ed].
  destruct (appendInt_2 h ltac:(lia)) as [-> Eh].
  destruct (appendInt_2 mi ltac:(lia)) as [-> Emi].
  destruct (appendInt_2 s ltac:(lia)) as [-> Es].
  unfold fmt4, fmt2, Parse_RFC3339.
  simpl String.append. simpl list_ascii_of_string. cbv iota beta.
  rewrite Ey, Em, Ed, Eh, Emi, Es.
  cbn [Ascii.eqb Bool.eqb andb negb].
  replace ((m <=? 0) || (12 <? m)) with false
    by (symmetry; apply orb_false_iff; split; [apply Z.leb_gt|apply Z.ltb_ge]; lia).
  replace ((h <? 0) || (24 <=? h)) with false
    by (symmetry; apply orb_false_iff; split; [apply Z.ltb_ge|apply Z.leb_gt]; lia).
  replace (60 <=? mi) with false by (symmetry; apply Z.leb_gt; lia).
  replace (60 <=? s) with false by (symmetry; apply Z.leb_gt; lia).
  replace ((d <? 1) || (d >? daysIn m y)) with false
    by (symmetry; apply orb_false_iff; split;
        [apply Z.ltb_ge|rewrite Z.gtb_ltb; apply Z.ltb_ge]; lia).
  f_equal. rewrite Z.add_0_r in HD. rewrite HD. f_equal.
  unfold abs, internalToAbsolute, internalToUnix, secondsPerDay. lia.
Qed.

Lemma Date_nsec (year month day hour min sec : Z) :
  nsec (Date year month day hour min sec 0) = 0.
Proof.
  unfold Date. rewrite (norm_id sec 0) by lia.
  repeat match goal with
         | |- context [let '(_, _) := ?x in _] => destruct x
         end.
  reflexivity.
Qed.

Lemma Parse_nsec (value : string) (t : Time) :
  Parse_RFC3339 value = Ok t -> nsec t = 0.
Proof.
  unfold Parse_RFC3339. intros H.
  repeat match type of H with
         | match ?x with _ => _ end = _ => destruct x; try discriminate H
         | (if ?b then _ else _) = _ => destruct b; try discriminate H
         end.
  injection H as <-. apply Date_nsec.
Qed.

(** The comparison of the handler, [updated.After(now.AddDate(0, 0, -7))],
    holds exactly when [updated] is less than seven days before [now]. *)
Lemma After_AddDate (updated now : Time) :
  nsec updated = 0 -> 0 <= nsec now < 1000000000 ->
  (After updated (AddDate now 0 0 (-7)) = true
   <-> props.fresh updated now).
Proof.
  intros Hu Hn. rewrite AddDate_days by exact Hn.
  unfold After, props.fresh, props.UnixNano, props.sevenDays, secondsPerDay,
    secondsPerHour, secondsPerMinute. simpl sec. simpl nsec. rewrite Hu.
  rewrite orb_true_iff, andb_true_iff, !Z.gtb_ltb, !Z.ltb_lt, Z.eqb_eq. lia.
Qed.

Lemma append_cons (c : ascii) (s1 s2 : string) :
  String c s1 +:+ s2 = String c (s1 +:+ s2).
Proof. reflexivity. Qed.

Lemma append_nil (s : string) : "" +:+ s = s.
Proof. reflexivity. Qed.

Lemma isDigit_digit (k : Z) : 0 <= k <= 9 -> isDigit (digit k) = true.
Proof.
  intros H.
  assert (Hc : k = 0 \/ k = 1 \/ k = 2 \/ k = 3 \/ k = 4 \/ k = 5 \/ k = 6
               \/ k = 7 \/ k = 8 \/ k = 9) by lia.
  repeat (destruct Hc as [->|Hc]; [reflexivity|]). subst k. reflexivity.
Qed.

(** The layout [RFC3339] at UTC has the shape that [GetLastUpdated] looks
    for: the whole of a formatted time matches its regular expression. *)
Lemma Format_matches (t : Time) :
  0 <= Year t <= 9999 ->
  regexp.matchPrefix manager.re (Format_RFC3339 t) = Some (Format_RFC3339 t).
Proof.
  unfold Year, Format_RFC3339. intros Hy.
  pose proof (Date_absDate (abs t) 0 0 ltac:(lia)) as H.
  destruct (absDate (abs t)) as [[[y m] d] yd].
  destruct (absClock (abs t)) as [[h mi] s].
  destruct H as (_ & Hm & Hd & Hh & Hmi & Hs).
  pose proof (daysIn_le_31 m y Hm) as H31.
  destruct (appendInt_4 y Hy) as [-> _].
  destruct (appendInt_2 m ltac:(lia)) as [-> _].
  destruct (appendInt_2 d ltac:(lia)) as [-> _].
  destruct (appendInt_2 h ltac:(lia)) as [-> _].
  destruct (appendInt_2 mi ltac:(lia)) as [-> _].
  destruct (appendInt_2 s ltac:(lia)) as [-> _].
  unfold fmt4, fmt2, manager.re. rewrite !append_cons, !append_nil.
  simpl repeat. simpl app. cbn [regexp.matchPrefix].
  rewrite !isDigit_digit by (Z.div_mod_to_equations; lia).
  reflexivity.
Qed.

Lemma FindString_skip (re : list regexp.atom) (pre s : string) :
  props.noDigits pre = true ->
  regexp.FindString (regexp.Digit :: re) (pre +:+ s)
  = regexp.FindString (regexp.Digit :: re) s.
Proof.
  induction pre as [|c pre IH]; intros H; [reflexivity|].
  simpl in H. apply andb_true_iff in H as [Hc Hpre].
  apply negb_true_iff in Hc.
  change ((String c pre) +:+ s) with (String c (pre +:+ s)).
  cbn [regexp.FindString regexp.matchPrefix]. rewrite Hc. exact (IH Hpre).
Qed.

Lemma FindString_match (re : list regexp.atom) (s : string) :
  regexp.matchPrefix re s = Some s -> regexp.FindString re s = s.
Proof. intros H. destruct s; simpl; rewrite H; reflexivity. Qed.

(** What [GetLastUpdated] finds in a description that [WriteSecret] wrote. *)
Lemma FindString_description (t : Time) :
  0 <= Year t <= 9999 ->
  regexp.FindString manager.re (manager.description (Format_RFC3339 t))
  = Format_RFC3339 t.
Proof.
  intros Hy. unfold manager.description.
  change manager.re with (regexp.Digit :: tl manager.re).
  rewrite FindString_skip by reflexivity.
  apply FindString_match. exact (Format_matches t Hy).
Qed.

Lemma Format_not_empty (t : Time) :
  0 <= Year t <= 9999 -> String.eqb (Format_RFC3339 t) "" = false.
Proof.
  intros Hy. pose proof (Format_matches t Hy) as H.
  destruct (Format_RFC3339 t); [discriminate H|reflexivity].
Qed.

End calendar_facts.

Example String_path :
  template.String text_template.engine
    (template.NewTemplate "x" "foo.bar" "org" "{{.Team}}/{{.Repository}}")
  = Ok "x/foo-bar".
Proof. vm_compute. reflexivity. Qed.

Example String_spaces :
  template.String text_template.engine
    (template.NewTemplate "x" "a.b.c" "org" "/concourse/{{ .Team }}/{{.Repository}}-deploy-key")
  = Ok "/concourse/x/a-b-c-deploy-key".
Proof. vm_compute. reflexivity. Qed.

Example String_unknown_field :
  is_ok (template.String text_template.engine
    (template.NewTemplate "x" "r" "org" "{{.Team}}/{{.Nope}}")) = false.
Proof. vm_compute. reflexivity. Qed.

Example String_unclosed :
  is_ok (template.String text_template.engine
    (template.NewTemplate "x" "r" "org" "{{.Team")) = false.
Proof. vm_compute. reflexivity. Qed.

(* --------------------------------------------------------------------- *)
(** ** Runs of the handler                                                *)
(* --------------------------------------------------------------------- *)

Module run_facts.

Section Runs.
Context {W : Type}.

Lemma after_nil {A} (x : exec A * W * list Event) : after [] x = x.
Proof. destruct x as [[r w] ev]. reflexivity. Qed.

Lemma after_after {A} ev1 ev2 (x : exec A * W * list Event) :
  after ev1 (after ev2 x) = after (ev1 ++ ev2)%list x.
Proof. destruct x as [[r w] ev]. simpl. rewrite app_assoc. reflexivity. Qed.

Lemma bind_returns {A B} (m : M W A) (f : A -> M W B) w a w' ev :
  m w = (Returns a, w', ev) -> (m ≫= f) w = after ev (f a w').
Proof. intros H. unfold mbind, M_MBind, M_bind. rewrite H. reflexivity. Qed.

Lemma bind_panics {A B} (m : M W A) (f : A -> M W B) w msg w' ev :
  m w = (Panics msg, w', ev) -> (m ≫= f) w = (Panics msg, w', ev).
Proof. intros H. unfold mbind, M_MBind, M_bind. rewrite H. reflexivity. Qed.

Lemma call_lift {A} (f : W -> A * W) (ev : A -> Event) w a w' :
  f w = (a, w') -> call (lift f) ev w = (Returns a, w', [ev a]).
Proof.
  intros H. unfold call, lift, emit, mbind, mret, M_MBind, M_MRet, M_bind, M_ret.
  rewrite H. reflexivity.
Qed.

Lemma lift_run {A} (f : W -> A * W) w a w' :
  f w = (a, w') -> lift f w = (Returns a, w', []).
Proof. intros H. unfold lift. rewrite H. reflexivity. Qed.

Lemma mret_run {A} (a : A) (w : W) : (mret a : M W A) w = (Returns a, w, []).
Proof. reflexivity. Qed.

End Runs.

Lemma permissionsChanged_same (k : github.Key) (repo : repo.Repo) :
  github.ReadOnly k = Some (repo.ReadOnly repo) ->
  handler.permissionsChanged k repo = false.
Proof.
  intros H. unfold handler.permissionsChanged. rewrite H.
  rewrite Bool.eqb_reflx. reflexivity.
Qed.

Lemma permissionsChanged_other (k : github.Key) (repo : repo.Repo) readOnly :
  github.ReadOnly k = Some readOnly -> readOnly <> repo.ReadOnly repo ->
  handler.permissionsChanged k repo = true.
Proof.
  intros H Hne. unfold handler.permissionsChanged. rewrite H.
  destruct readOnly, (repo.ReadOnly repo); try reflexivity; congruence.
Qed.

(** A timestamp read from a description has no nanoseconds. *)
Lemma GetLastUpdated_nsec {W} (m : manager.Clients W) name w t w' :
  manager.GetLastUpdated m name w = (Ok t, w') -> time.nsec t = 0.
Proof.
  unfold manager.GetLastUpdated.
  destruct (manager.DescribeSecret m name w) as [[d|err] w1]; [|discriminate].
  destruct (String.eqb _ ""); [discriminate|].
  destruct (time.Parse_RFC3339 _) as [t'|err] eqn:E; [|discriminate].
  intros H. injection H as <- _. exact (calendar_facts.Parse_nsec _ _ E).
Qed.

Lemma split_nth {A} (l a b : list A) (x : A) :
  l = (a ++ x :: b)%list ->
  nth_error l (length a) = Some x /\ a = firstn (length a) l.
Proof.
  intros ->. split.
  - rewrite nth_error_app2 by lia. rewrite Nat.sub_diag. reflexivity.
  - rewrite firstn_app, firstn_all, Nat.sub_diag. simpl.
    rewrite app_nil_r. reflexivity.
Qed.

Section Handler.
Context {W : Type}
  (manager : manager.Clients W)
  (engine : template.Engine)
  (githubOrganisation : string)
  (repoLister : M W (result (list repo.Repo)))
  (tokenTemplate keyTemplate titleTemplate : string)
  (team : team.Team).

Local Abbreviation processRepo :=
  (handler.processRepo manager engine githubOrganisation keyTemplate
     titleTemplate team).
Local Abbreviation New :=
  (handler.New manager engine githubOrganisation repoLister tokenTemplate
     keyTemplate titleTemplate team).
Local Abbreviation keyPathOf repo :=
  (template.String engine
     (template.NewTemplate (team.Name team) (repo.Name repo)
        githubOrganisation keyTemplate)).
Local Abbreviation titleOf repo :=
  (template.String engine
     (template.NewTemplate (team.Name team) (repo.Name repo)
        githubOrganisation titleTemplate)).
Local Abbreviation tokenPathOf :=
  (template.String engine
     (template.NewTemplateWithoutRepository (team.Name team)
        githubOrganisation tokenTemplate)).

Section Repo.
Context (repo : repo.Repo) (keyPath title : string).

Local Abbreviation findOldKey :=
  (handler.findOldKey manager team repo keyPath title).
Local Abbreviation rotate :=
  (handler.rotate manager githubOrganisation team repo keyPath title).
Local Abbreviation rotation :=
  (props.rotation githubOrganisation repo keyPath title
     (handler.log_repo team repo)).
Local Abbreviation listed keys :=
  (ListKeys_call githubOrganisation (repo.Name repo) (Ok keys)).

(** Keys with other titles are passed over. *)
Lemma findOldKey_skip pre keys oldKey w :
  Forall (props.otherTitle title) pre ->
  findOldKey (pre ++ keys)%list oldKey w = findOldKey keys oldKey w.
Proof.
  induction 1 as [|k pre [t [Ht Hne]] _ IH]; [reflexivity|].
  simpl. rewrite Ht. unfold deref.
  erewrite bind_returns by apply mret_run. rewrite after_nil.
  apply String.eqb_neq in Hne. rewrite Hne. exact IH.
Qed.

(** At a key that carries the title. *)
Lemma findOldKey_match k keys oldKey w :
  github.Title k = Some title ->
  findOldKey (k :: keys) oldKey w =
  (if handler.permissionsChanged k repo then mret (handler.Proceed (Some k))
   else
     r ← call (lift (manager.GetLastUpdated manager keyPath))
              (GetLastUpdated_call keyPath);
     match r with
     | Err err =>
         if match awserr_Code err with
            | Some code =>
                String.eqb code manager.ErrCodeResourceNotFoundException
            | None => false
            end
         then mret (handler.Proceed (Some k))
         else
           _ ← emit (Warnf (handler.log_repo team repo)
                       "failed to get last updated for secret: %s" [ArgError err]);
           mret (handler.Proceed (Some k))
     | Ok updated =>
         now ← lift (manager.time_Now manager);
         if time.After updated (time.AddDate now 0 0 (-7))
         then mret handler.ContinueLoop
         else findOldKey keys (Some k)
     end) w.
Proof.
  intros Ht. simpl. rewrite Ht. unfold deref.
  erewrite bind_returns by apply mret_run. rewrite after_nil.
  rewrite String.eqb_refl. reflexivity.
Qed.

(** What a rotation leaves in the trace. *)
Lemma rotate_trace oldKey w :
  exists r w' new, rotate oldKey w = (r, w', new) /\ rotation oldKey new.
Proof.
  unfold handler.rotate.
  destruct (manager.GenerateKeyPair manager title w)
    as [[[private public]|err] w1] eqn:Eg;
    erewrite bind_returns by (apply call_lift; exact Eg); cbv beta iota.
  2: { do 3 eexists. split; [reflexivity|]. apply props.generate_failed. }
  destruct (manager.CreateKey manager githubOrganisation (repo.Name repo)
              (repo.ReadOnly repo) title public w1) as [[[]|err] w2] eqn:Ec;
    erewrite bind_returns by (apply call_lift; exact Ec); cbv beta iota.
  2: { do 3 eexists. split; [reflexivity|]. apply props.publish_failed. }
  destruct (manager.WriteSecret manager keyPath private w2)
    as [[[]|err] w3] eqn:Ew;
    erewrite bind_returns by (apply call_lift; exact Ew); cbv beta iota.
  2: { do 3 eexists. split; [reflexivity|]. apply props.persist_failed. }
  destruct oldKey as [k|].
  2: { do 3 eexists. split; [reflexivity|]. apply props.created. }
  destruct (manager.time_Sleep manager (time.Second * 1) w3) as [[] w4] eqn:Es.
  erewrite bind_returns by (apply call_lift; exact Es).
  destruct (github.ID k) as [id|] eqn:Eid; unfold deref.
  2: { erewrite bind_panics by reflexivity. do 3 eexists.
       split; [reflexivity|]. apply props.old_key_without_id. exact Eid. }
  erewrite bind_returns by apply mret_run. rewrite after_nil.
  destruct (manager.DeleteKey manager githubOrganisation (repo.Name repo) id w4)
    as [r w5] eqn:Ed.
  erewrite bind_returns by (apply call_lift; exact Ed).
  destruct r as [[]|err]; cbv beta iota.
  - do 3 eexists. split; [reflexivity|].
    apply (props.rotated _ _ _ _ _ k id private public (Ok tt) Eid).
  - do 3 eexists. split; [reflexivity|].
    apply (props.rotated _ _ _ _ _ k id private public (Err err) Eid).
Qed.

(** A rotation returns unless the old key has no identifier. *)
Lemma rotate_returns oldKey w :
  (forall k, oldKey = Some k -> github.ID k <> None) ->
  exists w' new, rotate oldKey w = (Returns tt, w', new).
Proof.
  intros Hid. unfold handler.rotate.
  destruct (manager.GenerateKeyPair manager title w)
    as [[[private public]|err] w1] eqn:Eg;
    erewrite bind_returns by (apply call_lift; exact Eg); cbv beta iota.
  2: { do 2 eexists. reflexivity. }
  destruct (manager.CreateKey manager githubOrganisation (repo.Name repo)
              (repo.ReadOnly repo) title public w1) as [[[]|err] w2] eqn:Ec;
    erewrite bind_returns by (apply call_lift; exact Ec); cbv beta iota.
  2: { do 2 eexists. reflexivity. }
  destruct (manager.WriteSecret manager keyPath private w2)
    as [[[]|err] w3] eqn:Ew;
    erewrite bind_returns by (apply call_lift; exact Ew); cbv beta iota.
  2: { do 2 eexists. reflexivity. }
  destruct oldKey as [k|].
  2: { do 2 eexists. reflexivity. }
  destruct (manager.time_Sleep manager (time.Second * 1) w3) as [[] w4] eqn:Es.
  erewrite bind_returns by (apply call_lift; exact Es).
  destruct (github.ID k) as [id|] eqn:Eid; [|destruct (Hid k eq_refl Eid)].
  unfold deref. erewrite bind_returns by apply mret_run. rewrite after_nil.
  destruct (manager.DeleteKey manager githubOrganisation (repo.Name repo) id w4)
    as [r w5] eqn:Ed.
  erewrite bind_returns by (apply call_lift; exact Ed).
  destruct r as [[]|err]; cbv beta iota; do 2 eexists; reflexivity.
Qed.

(** Once the paths are resolved and the keys are listed, the repository is
    handled by the scan of the keys and, unless it continues, a rotation. *)
Lemma processRepo_listed keys w w1 :
  keyPathOf repo = Ok keyPath ->
  titleOf repo = Ok title ->
  manager.ListKeys manager githubOrganisation (repo.Name repo) w = (Ok keys, w1) ->
  processRepo repo w =
  after [listed keys]
    ((s ← findOldKey keys None;
      match s with
      | handler.ContinueLoop => mret tt
      | handler.Proceed oldKey => rotate oldKey
      end) w1).
Proof.
  intros Hk Ht Hl. unfold handler.processRepo. rewrite Hk, Ht.
  erewrite bind_returns by (apply call_lift; exact Hl). reflexivity.
Qed.

(** C1, as amended: when the first key of the listing that carries the
    team's title has the repository's read-only flag, and the timestamp of
    the secret is less than seven days before the clock reading that follows
    the lookup, the repository is left alone: the run lists the keys, looks
    the timestamp up, and makes no mutating call. *)
Theorem fresh_first_key_is_skipped keys k updated now w w1 w2 w3 :
  keyPathOf repo = Ok keyPath ->
  titleOf repo = Ok title ->
  manager.ListKeys manager githubOrganisation (repo.Name repo) w = (Ok keys, w1) ->
  props.firstWithTitle title keys k ->
  github.ReadOnly k = Some (repo.ReadOnly repo) ->
  manager.GetLastUpdated manager keyPath w1 = (Ok updated, w2) ->
  manager.time_Now manager w2 = (now, w3) ->
  props.clockReading now ->
  props.fresh updated now ->
  exists new,
    processRepo repo w = (Returns tt, w3, new)
    /\ new = [listed keys; GetLastUpdated_call keyPath (Ok updated)]
    /\ Forall (fun e => handler.mutating e = false) new.
Proof.
  intros Hk Ht Hl (pre & post & -> & Hpre & Hkt) Hro Hg Hn Hclock Hfresh.
  eexists. split; [|split; [reflexivity|repeat constructor]].
  rewrite (processRepo_listed _ _ _ Hk Ht Hl).
  rewrite bind_returns with (a := handler.ContinueLoop) (w' := w3)
    (ev := [GetLastUpdated_call keyPath (Ok updated)]); [reflexivity|].
  rewrite findOldKey_skip by exact Hpre.
  rewrite findOldKey_match by exact Hkt.
  rewrite (permissionsChanged_same _ _ Hro).
  erewrite bind_returns by (apply call_lift; exact Hg). cbv beta iota.
  erewrite bind_returns by (apply lift_run; exact Hn).
  apply (calendar_facts.After_AddDate updated now
           (GetLastUpdated_nsec _ _ _ _ _ Hg) Hclock) in Hfresh.
  rewrite Hfresh. reflexivity.
Qed.

(** C4, as amended: when the first key of the listing that carries the
    team's title has a read-only flag that differs from the repository's,
    the run goes from the listing straight to a rotation with that key as
    the old key; the timestamp of the secret is not looked up. *)
Theorem changed_permissions_rotate keys k readOnly w w1 :
  keyPathOf repo = Ok keyPath ->
  titleOf repo = Ok title ->
  manager.ListKeys manager githubOrganisation (repo.Name repo) w = (Ok keys, w1) ->
  props.firstWithTitle title keys k ->
  github.ReadOnly k = Some readOnly ->
  readOnly <> repo.ReadOnly repo ->
  exists r w' new,
    processRepo repo w = (r, w', listed keys :: new)
    /\ rotate (Some k) w1 = (r, w', new)
    /\ rotation (Some k) new
    /\ forall name res, ~ In (GetLastUpdated_call name res) (listed keys :: new).
Proof.
  intros Hk Ht Hl (pre & post & -> & Hpre & Hkt) Hro Hne.
  destruct (rotate_trace (Some k) w1) as (r & w' & new & Hrot & Hshape).
  exists r, w', new. split; [|split; [exact Hrot|split; [exact Hshape|]]].
  - rewrite (processRepo_listed _ _ _ Hk Ht Hl).
    rewrite bind_returns with (a := handler.Proceed (Some k)) (w' := w1) (ev := []).
    + rewrite after_nil, Hrot. reflexivity.
    + rewrite findOldKey_skip by exact Hpre.
      rewrite findOldKey_match by exact Hkt.
      rewrite (permissionsChanged_other _ _ _ Hro Hne). reflexivity.
  - intros name res [Hin|Hin]; [discriminate|].
    inversion Hshape; subst; simpl in Hin;
      repeat (destruct Hin as [Hin|Hin]; [discriminate|]); try contradiction.
    destruct r0; simpl in Hin;
      repeat (destruct Hin as [Hin|Hin]; [discriminate|]); contradiction.
Qed.



(** What the scan of the keys leaves in the trace, and the old key it
    proceeds with. *)
Lemma findOldKey_trace keys oldKey w :
  exists r w' ev,
    findOldKey keys oldKey w = (r, w', ev)
    /\ Forall (fun e => props.lookupOrWarning e = true) ev
    /\ forall o, r = Returns (handler.Proceed o) ->
         o = oldKey
         \/ exists k, o = Some k /\ In k keys /\ github.Title k = Some title.
Proof.
  revert oldKey w. induction keys as [|key keys IH]; intros oldKey w.
  { do 3 eexists. split; [reflexivity|]. split; [constructor|].
    intros o [= <-]. left. reflexivity. }
  assert (Hlater : forall (k : github.Key) o,
            (o = Some key \/ exists k', o = Some k' /\ In k' keys
                                   /\ github.Title k' = Some title) ->
            github.Title key = Some title ->
            o = oldKey \/ exists k', o = Some k' /\ In k' (key :: keys)
                                /\ github.Title k' = Some title).
  { intros _ o [->|(k' & -> & Hin & Hk')] Hk; right.
    - exists key. repeat split; [left; reflexivity|exact Hk].
    - exists k'. repeat split; [right; exact Hin|exact Hk']. }
  simpl. destruct (github.Title key) as [t|] eqn:Et; unfold deref.
  2: { erewrite bind_panics by reflexivity. do 3 eexists.
       split; [reflexivity|]. split; [constructor|]. discriminate. }
  erewrite bind_returns by apply mret_run. rewrite after_nil.
  destruct (String.eqb_spec t title) as [->|Hne].
  2: { destruct (IH oldKey w) as (r & w' & ev & -> & Hev & Ho).
       do 3 eexists. split; [reflexivity|]. split; [exact Hev|].
       intros o Hr. destruct (Ho o Hr) as [->|(k' & -> & Hin & Hk')];
         [left; reflexivity|right].
       exists k'. repeat split; [right; exact Hin|exact Hk']. }
  destruct (handler.permissionsChanged key repo).
  { do 3 eexists. split; [reflexivity|]. split; [constructor|].
    intros o [= <-]. apply (Hlater key); [left; reflexivity|reflexivity]. }
  destruct (manager.GetLastUpdated manager keyPath w) as [[updated|err] w1] eqn:Eg;
    erewrite bind_returns by (apply call_lift; exact Eg); cbv beta iota.
  - destruct (manager.time_Now manager w1) as [now w2] eqn:En.
    erewrite bind_returns by (apply lift_run; exact En). rewrite after_nil.
    destruct (time.After updated (time.AddDate now 0 0 (-7))).
    + do 3 eexists. split; [reflexivity|]. split; [repeat constructor|discriminate].
    + destruct (IH (Some key) w2) as (r & w' & ev & -> & Hev & Ho).
      do 3 eexists. split; [reflexivity|]. split; [constructor; [reflexivity|exact Hev]|].
      intros o Hr. apply (Hlater key); [exact (Ho o Hr)|reflexivity].
  - destruct (match awserr_Code err with
              | Some code => String.eqb code manager.ErrCodeResourceNotFoundException
              | None => false
              end).
    + do 3 eexists. split; [reflexivity|]. split; [repeat constructor|].
      intros o [= <-]. apply (Hlater key); [left; reflexivity|reflexivity].
    + do 3 eexists. split; [reflexivity|]. split; [repeat constructor|].
      intros o [= <-]. apply (Hlater key); [left; reflexivity|reflexivity].
Qed.

(** A deletion in the trace of a rotation comes fifth, after a successful
    generation, publication and persistence and after the sleep, and it
    deletes the old key by its identifier. *)
Lemma rotation_delete oldKey new a owner name id res b :
  rotation oldKey new ->
  new = (a ++ DeleteKey_call owner name id res :: b)%list ->
  exists k private public,
    oldKey = Some k /\ github.ID k = Some id
    /\ owner = githubOrganisation /\ name = repo.Name repo
    /\ a = [GenerateKeyPair_call title (Ok (private, public));
            CreateKey_call githubOrganisation (repo.Name repo)
              (repo.ReadOnly repo) title public (Ok tt);
            WriteSecret_call keyPath private (Ok tt);
            Sleep_call (time.Second * 1)].
Proof.
  intros Hrot H. apply split_nth in H as [Hn Ha].
  inversion Hrot as [? ?|? ? ? ?|? ? ? ?|? ?|k id' private public r Hid|? ? ? ?];
    subst; try destruct r;
    destruct (length a) as [|[|[|[|[|[|?]]]]]];
    simpl in Hn; try discriminate Hn;
    try match type of Hn with
        | nth_error [] ?n = _ => destruct n; discriminate Hn
        end.
  all: injection Hn as <- <- <- <-; exists k, private, public;
    repeat split; assumption.
Qed.

End Repo.

Lemma app_split_notin {A} (l1 l2 a b : list A) (x : A) :
  (l1 ++ l2 = a ++ x :: b)%list -> ~ In x l1 ->
  exists a', a = (l1 ++ a')%list /\ l2 = (a' ++ x :: b)%list.
Proof.
  revert a. induction l1 as [|y l1 IH]; intros a H Hn.
  - exists a. split; [reflexivity|exact H].
  - destruct a as [|z a]; simpl in H; injection H as -> H.
    + exfalso. apply Hn. left. reflexivity.
    + destruct (IH a H) as (a' & -> & ->); [intros Hin; apply Hn; right; exact Hin|].
      exists a'. split; reflexivity.
Qed.

(** C2: in the run for a repository, every call of [DeleteKey] comes
    directly after a successful [CreateKey] for the new public key, a
    successful [WriteSecret] for the new private key and a sleep of one
    second, in this order, and it deletes by identifier a key that was
    listed for the repository under the team's title. *)
Theorem old_key_deleted_last repo w a owner name id res b :
  snd (processRepo repo w) = (a ++ DeleteKey_call owner name id res :: b)%list ->
  exists keyPath title keys k private public a0,
    keyPathOf repo = Ok keyPath /\ titleOf repo = Ok title
    /\ owner = githubOrganisation /\ name = repo.Name repo
    /\ a = (a0 ++ [CreateKey_call githubOrganisation (repo.Name repo)
                     (repo.ReadOnly repo) title public (Ok tt);
                   WriteSecret_call keyPath private (Ok tt);
                   Sleep_call (time.Second * 1)])%list
    /\ In (ListKeys_call githubOrganisation (repo.Name repo) (Ok keys)) a0
    /\ In k keys /\ github.Title k = Some title /\ github.ID k = Some id.
Proof.
  unfold handler.processRepo.
  destruct (keyPathOf repo) as [keyPath|err] eqn:Hk.
  2: { simpl. intros H. destruct a as [|? a]; [discriminate H|].
       injection H as <- H. destruct a; discriminate H. }
  destruct (titleOf repo) as [title|err] eqn:Ht.
  2: { simpl. intros H. destruct a as [|? a]; [discriminate H|].
       injection H as <- H. destruct a; discriminate H. }
  destruct (manager.ListKeys manager githubOrganisation (repo.Name repo) w)
    as [[keys|err] w1] eqn:Hl;
    erewrite bind_returns by (apply call_lift; exact Hl); cbv beta iota.
  2: { simpl. intros H. destruct a as [|? a]; [discriminate H|].
       injection H as <- H. destruct a as [|? a]; [discriminate H|].
       injection H as <- H. destruct a; discriminate H. }
  destruct (findOldKey_trace repo keyPath title keys None w1)
    as (r & w2 & ev & Hscan & Hev & Hold).
  assert (Hnotin : ~ In (DeleteKey_call owner name id res)
                     (ListKeys_call githubOrganisation (repo.Name repo) (Ok keys) :: ev)).
  { intros [Hin|Hin]; [discriminate|].
    rewrite Forall_forall in Hev. apply Hev in Hin. discriminate. }
  destruct r as [[oldKey|]|msg].
  - erewrite bind_returns by exact Hscan.
    destruct (rotate_trace repo keyPath title oldKey w2)
      as (r & w' & new & Hrot & Hshape).
    rewrite Hrot. simpl. intros H.
    change (ListKeys_call githubOrganisation (repo.Name repo) (Ok keys)
              :: (ev ++ new)%list)
      with ((ListKeys_call githubOrganisation (repo.Name repo) (Ok keys) :: ev)
              ++ new)%list in H.
    destruct (app_split_notin _ _ _ _ _ H Hnotin) as (a' & -> & Hnew).
    destruct (rotation_delete repo keyPath title oldKey new a' owner name id res b
                Hshape Hnew)
      as (k & private & public & -> & Hid & -> & -> & ->).
    destruct (Hold (Some k) eq_refl) as [Hnone|(k' & [= <-] & Hin & Hkt)];
      [discriminate|].
    exists keyPath, title, keys, k, private, public,
      (ListKeys_call githubOrganisation (repo.Name repo) (Ok keys) :: ev
       ++ [GenerateKeyPair_call title (Ok (private, public))])%list.
    repeat split; try assumption; try reflexivity.
    + simpl. rewrite <- app_assoc. reflexivity.
    + left. reflexivity.
  - erewrite bind_returns by exact Hscan. simpl. rewrite app_nil_r. intros H.
    exfalso. apply Hnotin. rewrite H. apply in_or_app. right. left. reflexivity.
  - erewrite bind_panics by exact Hscan. simpl. intros H.
    exfalso. apply Hnotin. rewrite H. apply in_or_app. right. left. reflexivity.
Qed.

(** After the token step and the listing of the repositories, the run is
    the loop over the repositories, one body after the other, and it returns
    no error. *)
Lemma New_loop tokenPath token repos w w1 w2 w3 ev :
  tokenPathOf = Ok tokenPath ->
  manager.CreateAccessToken manager githubOrganisation w = (Ok token, w1) ->
  manager.WriteSecret manager tokenPath token w1 = (Ok tt, w2) ->
  repoLister w2 = (Returns (Ok repos), w3, ev) ->
  New w =
  after ([CreateAccessToken_call githubOrganisation (Ok token);
          WriteSecret_call tokenPath token (Ok tt)]
         ++ ev ++ [List_call (Ok repos)])%list
    ((_ ← for_range repos processRepo; mret None) w3).
Proof.
  intros Ht Hc Hw Hl. unfold handler.New. rewrite Ht.
  erewrite bind_returns by (apply call_lift; exact Hc). cbv beta iota.
  erewrite bind_returns by (apply call_lift; exact Hw). cbv beta iota.
  assert (Hcall : call repoLister List_call w2
                  = (Returns (Ok repos), w3, (ev ++ [List_call (Ok repos)])%list)).
  { unfold call. erewrite bind_returns by exact Hl. reflexivity. }
  erewrite bind_returns by exact Hcall. cbv beta iota.
  rewrite !after_after. reflexivity.
Qed.

(** A repository whose body returns is followed by the remaining ones. *)
Lemma for_range_next repo rest w w' ev :
  processRepo repo w = (Returns tt, w', ev) ->
  for_range (repo :: rest) processRepo w = after ev (for_range rest processRepo w').
Proof. intros H. simpl. erewrite bind_returns by exact H. reflexivity. Qed.

(** C3, as amended: when the first key of the listing that carries the
    team's title has an identifier and the repository's read-only flag, and
    the lookup of the timestamp fails for another reason than a missing
    secret, the run logs the failure and then rotates, with that key as the
    old key; the body of the loop returns, so the loop goes on with the
    repositories that remain, and the run of the team, which has no error
    to return for a repository, returns none for this one. *)
Theorem lookup_failure_rotates repo keyPath title keys k err w w1 w2 :
  keyPathOf repo = Ok keyPath ->
  titleOf repo = Ok title ->
  manager.ListKeys manager githubOrganisation (repo.Name repo) w = (Ok keys, w1) ->
  props.firstWithTitle title keys k ->
  github.ReadOnly k = Some (repo.ReadOnly repo) ->
  github.ID k <> None ->
  manager.GetLastUpdated manager keyPath w1 = (Err err, w2) ->
  ~ props.isNotFound err ->
  exists w' new,
    processRepo repo w =
      (Returns tt, w',
       [ListKeys_call githubOrganisation (repo.Name repo) (Ok keys);
        GetLastUpdated_call keyPath (Err err);
        Warnf (handler.log_repo team repo)
          "failed to get last updated for secret: %s" [ArgError err]]
       ++ new)%list
    /\ handler.rotate manager githubOrganisation team repo keyPath title
         (Some k) w2 = (Returns tt, w', new)
    /\ props.rotation githubOrganisation repo keyPath title
         (handler.log_repo team repo) (Some k) new
    /\ (forall rest,
          for_range (repo :: rest) processRepo w
          = after (snd (processRepo repo w)) (for_range rest processRepo w'))
    /\ (forall tokenPath token rest w0 w0' w0'' listing,
          tokenPathOf = Ok tokenPath ->
          manager.CreateAccessToken manager githubOrganisation w0
          = (Ok token, w0') ->
          manager.WriteSecret manager tokenPath token w0' = (Ok tt, w0'') ->
          repoLister w0'' = (Returns (Ok (repo :: rest)), w, listing) ->
          New w0
          = after ([CreateAccessToken_call githubOrganisation (Ok token);
                    WriteSecret_call tokenPath token (Ok tt)]
                   ++ listing ++ [List_call (Ok (repo :: rest))]
                   ++ snd (processRepo repo w))%list
              ((_ ← for_range rest processRepo; mret None) w')
          /\ forall e, fst (fst (New w0)) <> Returns (Some e)).
Proof.
  intros Hk Ht Hl (pre & post & -> & Hpre & Hkt) Hro Hid Hg Hnf.
  destruct (rotate_returns repo keyPath title (Some k) w2) as (w' & new & Hrot).
  { intros k' [= <-]. exact Hid. }
  destruct (rotate_trace repo keyPath title (Some k) w2) as (r & w'' & new' & Hrot' & Hshape).
  rewrite Hrot in Hrot'. injection Hrot' as <- <- <-.
  assert (Hbody :
    processRepo repo w =
      (Returns tt, w',
       [ListKeys_call githubOrganisation (repo.Name repo)
          (Ok (pre ++ k :: post)%list);
        GetLastUpdated_call keyPath (Err err);
        Warnf (handler.log_repo team repo)
          "failed to get last updated for secret: %s" [ArgError err]]
       ++ new)%list).
  { rewrite (processRepo_listed repo keyPath title _ _ _ Hk Ht Hl).
    rewrite bind_returns with (a := handler.Proceed (Some k)) (w' := w2)
      (ev := [GetLastUpdated_call keyPath (Err err);
              Warnf (handler.log_repo team repo)
                "failed to get last updated for secret: %s" [ArgError err]]).
    - rewrite Hrot. reflexivity.
    - rewrite findOldKey_skip by exact Hpre.
      rewrite findOldKey_match by exact Hkt.
      rewrite (permissionsChanged_same _ _ Hro).
      erewrite bind_returns by (apply call_lift; exact Hg). cbv beta iota.
      unfold props.isNotFound in Hnf.
      destruct (awserr_Code err) as [code|]; [|reflexivity].
      destruct (String.eqb_spec code manager.ErrCodeResourceNotFoundException)
        as [->|_]; [congruence|reflexivity]. }
  exists w', new.
  split; [exact Hbody|]. split; [exact Hrot|]. split; [exact Hshape|].
  assert (Hnext : forall rest,
            for_range (repo :: rest) processRepo w
            = after (snd (processRepo repo w)) (for_range rest processRepo w')).
  { intros rest. rewrite (for_range_next repo rest w w' _ Hbody), Hbody.
    reflexivity. }
  split; [exact Hnext|].
  intros tokenPath token rest w0 w0' w0'' listing Htok Hc Hw Hlist.
  assert (Hrun :
    New w0
    = after ([CreateAccessToken_call githubOrganisation (Ok token);
              WriteSecret_call tokenPath token (Ok tt)]
             ++ listing ++ [List_call (Ok (repo :: rest))]
             ++ snd (processRepo repo w))%list
        ((_ ← for_range rest processRepo; mret None) w')).
  { erewrite New_loop by eassumption.
    unfold mbind, M_MBind, M_bind. rewrite Hnext.
    generalize (snd (processRepo repo w)). intros body.
    destruct (for_range rest processRepo w') as [[[[]|msg] w3] ev3];
      simpl; rewrite <- ?app_assoc; reflexivity. }
  split; [exact Hrun|].
  intros e. rewrite Hrun. unfold mbind, M_MBind, M_bind.
  destruct (for_range rest processRepo w') as [[[[]|msg] w3] ev3];
    cbn; discriminate.
Qed.

(** C7: a failure of the token step ends the run of the team with an
    error before anything else is done (the events given are all the events of
    the run: no repository is listed, no key is listed or rotated); and
    whenever the token path resolves, the run starts by requesting a new
    token, without reading any timestamp, and writes it as soon as it has
    it. *)
Theorem token_step_is_fatal w :
  (forall err,
     tokenPathOf = Err err ->
     New w =
       (Returns (Some (Errorf_err "parsing token path template: %w" err)), w,
        [Warnf (handler.log team) "failed to parse token path template: %s"
           [ArgError err]]))
  /\ (forall tokenPath err w1,
        tokenPathOf = Ok tokenPath ->
        manager.CreateAccessToken manager githubOrganisation w = (Err err, w1) ->
        New w =
          (Returns (Some (Errorf_err "creating access token: %w" err)), w1,
           [CreateAccessToken_call githubOrganisation (Err err);
            Warnf (handler.log team) "failed to create access token: %s"
              [ArgError err]]))
  /\ (forall tokenPath token err w1 w2,
        tokenPathOf = Ok tokenPath ->
        manager.CreateAccessToken manager githubOrganisation w = (Ok token, w1) ->
        manager.WriteSecret manager tokenPath token w1 = (Err err, w2) ->
        New w =
          (Returns (Some (Errorf_err "writing access token: %w" err)), w2,
           [CreateAccessToken_call githubOrganisation (Ok token);
            WriteSecret_call tokenPath token (Err err);
            Warnf (handler.log team) "failed to write access token: %s"
              [ArgError err]]))
  /\ (forall tokenPath,
        tokenPathOf = Ok tokenPath ->
        exists rest,
          snd (New w) =
            CreateAccessToken_call githubOrganisation
              (fst (manager.CreateAccessToken manager githubOrganisation w))
            :: rest
          /\ forall token w1,
               manager.CreateAccessToken manager githubOrganisation w
                 = (Ok token, w1) ->
               exists rest',
                 rest = WriteSecret_call tokenPath token
                          (fst (manager.WriteSecret manager tokenPath token w1))
                        :: rest').
Proof.
  unfold handler.New. repeat split.
  - intros err ->. reflexivity.
  - intros tokenPath err w1 -> Hc.
    erewrite bind_returns by (apply call_lift; exact Hc). reflexivity.
  - intros tokenPath token err w1 w2 -> Hc Hw.
    erewrite bind_returns by (apply call_lift; exact Hc). cbv beta iota.
    erewrite bind_returns by (apply call_lift; exact Hw). reflexivity.
  - intros tokenPath ->.
    destruct (manager.CreateAccessToken manager githubOrganisation w)
      as [r w1] eqn:Hc.
    erewrite bind_returns by (apply call_lift; exact Hc).
    destruct r as [token|err]; cbv beta iota.
    2: { eexists. split; [reflexivity|]. intros ? ? [=]. }
    destruct (manager.WriteSecret manager tokenPath token w1) as [r w2] eqn:Hw.
    erewrite bind_returns by (apply call_lift; exact Hw).
    match goal with
    | |- context [after ?e (after ?e' ?x)] => destruct x as [[r' w'] ev]
    end.
    eexists. split; [reflexivity|].
    intros token' w1' [= <- <-]. rewrite Hw. eexists. reflexivity.
Qed.

(** C6, as amended: a template error is fatal where it concerns the token
    path, and there it ends the run at once, before any call; a template
    error in the secret path or in the key title of a repository is logged
    and only that repository is passed over: the loop goes on with the
    repositories that remain. *)
Theorem template_errors w :
  (forall err,
     tokenPathOf = Err err ->
     New w =
       (Returns (Some (Errorf_err "parsing token path template: %w" err)), w,
        [Warnf (handler.log team) "failed to parse token path template: %s"
           [ArgError err]]))
  /\ (forall repo rest err,
        keyPathOf repo = Err err ->
        for_range (repo :: rest) processRepo w =
          after [Warnf (handler.log_repo team repo)
                   "failed to parse deploy key template: %s" [ArgError err]]
            (for_range rest processRepo w))
  /\ (forall repo rest keyPath err,
        keyPathOf repo = Ok keyPath ->
        titleOf repo = Err err ->
        for_range (repo :: rest) processRepo w =
          after [Warnf (handler.log_repo team repo)
                   "failed to parse github title template: %s" [ArgError err]]
            (for_range rest processRepo w)).
Proof.
  repeat split.
  - intros err H. unfold handler.New. rewrite H. reflexivity.
  - intros repo rest err H. simpl.
    rewrite bind_returns with (a := tt) (w' := w)
      (ev := [Warnf (handler.log_repo team repo)
                "failed to parse deploy key template: %s" [ArgError err]]);
      [reflexivity|].
    unfold handler.processRepo. rewrite H. reflexivity.
  - intros repo rest keyPath err Hk H. simpl.
    rewrite bind_returns with (a := tt) (w' := w)
      (ev := [Warnf (handler.log_repo team repo)
                "failed to parse github title template: %s" [ArgError err]]);
      [reflexivity|].
    unfold handler.processRepo. rewrite Hk, H. reflexivity.
Qed.

End Handler.
End run_facts.

(* --------------------------------------------------------------------- *)
(** ** Templates                                                          *)
(* --------------------------------------------------------------------- *)

Module template_facts.

Lemma prefix_dot (c : ascii) (s : string) :
  String.prefix "." (String c s) = Ascii.eqb c ".".
Proof.
  change (String.prefix "." (String c s))
    with (if ascii_dec "." c then String.prefix "" s else false).
  destruct (ascii_dec "." c) as [<-|Hne].
  - destruct s; reflexivity.
  - destruct (Ascii.eqb_spec c "."); [congruence|reflexivity].
Qed.

Lemma ReplaceAll_dots (s : string) :
  strings.ReplaceAll s "." "-" = props.dotsToDashes s.
Proof.
  unfold strings.ReplaceAll. induction s as [|c s IH]; [reflexivity|].
  change (strings.ReplaceAll_from "." "-" 0 (String c s))
    with (if String.prefix "." (String c s)
          then "-" +:+ strings.ReplaceAll_from "." "-" 0 s
          else String c (strings.ReplaceAll_from "." "-" 0 s)).
  rewrite prefix_dot, IH. simpl. destruct (Ascii.eqb c "."); reflexivity.
Qed.

Lemma dotsToDashes_idem (s : string) :
  props.dotsToDashes (props.dotsToDashes s) = props.dotsToDashes s.
Proof.
  induction s as [|c s IH]; [reflexivity|]. simpl. rewrite IH.
  destruct (Ascii.eqb_spec c ".") as [->|Hne]; [reflexivity|].
  destruct (Ascii.eqb_spec c "."); [congruence|reflexivity].
Qed.

(** C8: the entry point that includes the repository stores the name with
    every ['.'] replaced by ['-'], so whatever the template and the
    template library, resolution sees the sanitised name only; and the name
    [foo.bar] under the team/repository template with team [x] resolves to
    [x/foo-bar]. *)
Theorem repository_dots_become_dashes :
  (forall team repository owner text,
     template.Repository (template.NewTemplate team repository owner text)
     = props.dotsToDashes repository)
  /\ (forall E team repository owner text,
        template.String E (template.NewTemplate team repository owner text)
        = template.String E
            (template.NewTemplate team (props.dotsToDashes repository) owner text))
  /\ (forall owner,
        template.String text_template.engine
          (template.NewTemplate "x" "foo.bar" owner "{{.Team}}/{{.Repository}}")
        = Ok "x/foo-bar").
Proof.
  split; [|split].
  - intros. apply ReplaceAll_dots.
  - intros. unfold template.NewTemplate.
    rewrite !ReplaceAll_dots, dotsToDashes_idem. reflexivity.
  - intros owner. reflexivity.
Qed.

End template_facts.

(* --------------------------------------------------------------------- *)
(** ** The repository lister                                              *)
(* --------------------------------------------------------------------- *)

Module dynamodb_facts.

Section Lister.
Context {W Item : Type}
  (DynamoDBTableName : string)
  (Scan : string -> W -> result (list Item) * W)
  (UnmarshalMap : Item -> result string).

Lemma appendRepos_writable items : forall repos (w : W) r w' ev,
  Forall (fun x => repo.ReadOnly x = false) repos ->
  dynamodb.appendRepos UnmarshalMap items repos w = (Returns r, w', ev) ->
  Forall (fun x => repo.ReadOnly x = false) r.
Proof.
  induction items as [|item items IH]; intros repos w r w' ev Hall H.
  - injection H as <- _ _. exact Hall.
  - simpl in H. destruct (UnmarshalMap item) as [name|err]; [|discriminate H].
    apply (IH _ _ _ _ _) in H; [exact H|].
    apply Forall_app_2; [exact Hall|]. repeat constructor.
Qed.

(** C10: every repository that [List] returns is declared writable, whatever
    the table holds; so for such a repository the permissions of an existing
    key count as changed only when the key is read-only. *)
Theorem listed_repositories_are_writable w repos w' ev :
  dynamodb.List DynamoDBTableName Scan UnmarshalMap w = (Returns (Ok repos), w', ev) ->
  Forall (fun r => repo.ReadOnly r = false) repos
  /\ forall r key,
       In r repos ->
       handler.permissionsChanged key r = true ->
       github.ReadOnly key = Some true.
Proof.
  intros H.
  assert (Hall : Forall (fun r => repo.ReadOnly r = false) repos).
  { unfold dynamodb.List in H.
    destruct (Scan DynamoDBTableName w) as [[items|err] w1] eqn:Es;
      erewrite run_facts.bind_returns in H by (apply run_facts.lift_run; exact Es);
      cbv beta iota in H.
    2: { discriminate H. }
    destruct (dynamodb.appendRepos UnmarshalMap items [] w1) as [[[r|msg] w2] ev2] eqn:Ea.
    - erewrite run_facts.bind_returns in H by exact Ea.
      injection H as <- _ _.
      exact (appendRepos_writable _ _ _ _ _ _ (Forall_nil _) Ea).
    - erewrite run_facts.bind_panics in H by exact Ea. discriminate H. }
  split; [exact Hall|].
  intros r key Hin Hch. rewrite Forall_forall in Hall.
  unfold handler.permissionsChanged in Hch. rewrite (Hall r Hin) in Hch.
  destruct (github.ReadOnly key) as [[|]|]; [reflexivity|discriminate|discriminate].
Qed.

End Lister.
End dynamodb_facts.

(* --------------------------------------------------------------------- *)
(** ** Secrets and their timestamps                                       *)
(* --------------------------------------------------------------------- *)

Module manager_facts.

(** Whatever the secret store, a description stamped by [WriteSecret] at
    time [t] is read by [GetLastUpdated] as [t], to the second. *)
Lemma GetLastUpdated_stamped {W} (m : manager.Clients W) name (t : time.Time) w w' :
  0 <= time.Year t <= 9999 ->
  manager.DescribeSecret m name w
    = (Ok (Some (manager.description (time.Format_RFC3339 t))), w') ->
  manager.GetLastUpdated m name w = (Ok (time.mkTime (time.sec t) 0), w').
Proof.
  intros Hy Hd. unfold manager.GetLastUpdated. rewrite Hd.
  cbn [aws_StringValue].
  rewrite (calendar_facts.FindString_description _ Hy).
  rewrite (calendar_facts.Format_not_empty _ Hy).
  rewrite (calendar_facts.Parse_Format _ Hy). reflexivity.
Qed.

(** C9: for a clock in the years 0 to 9999 (the range of the layout), a
    description that carries the stamp of [WriteSecret] for a time is read
    back by [GetLastUpdated] as that time, to the second, whatever the
    secret store; and on the in-memory store [WriteSecret] succeeds whether
    or not a secret exists under the name and leaves the value with a
    description stamped with the current time in the layout [RFC3339], which
    has the shape that the regular expression of [GetLastUpdated] looks for,
    so that [GetLastUpdated] then returns the time that was written. *)
Theorem WriteSecret_stamp_round_trip :
  (forall W (m : manager.Clients W) name (t : time.Time) w w',
     0 <= time.Year t <= 9999 ->
     manager.DescribeSecret m name w
       = (Ok (Some (manager.description (time.Format_RFC3339 t))), w') ->
     manager.GetLastUpdated m name w = (Ok (time.mkTime (time.sec t) 0), w'))
  /\ (forall (w : fake.World) (name secret : string),
        0 <= time.Year (fake.clock w) <= 9999 ->
        fake.faults w "CreateSecret" = None ->
        fake.faults w "UpdateSecret" = None ->
        fake.faults w "DescribeSecret" = None ->
        let stamp := time.Format_RFC3339 (fake.clock w) in
        let written := manager.WriteSecret fake.clients name secret w in
        fst written = Ok tt
        /\ fake.secrets (snd written) !! name
           = Some (fake.mkSecret (Some (manager.description stamp)) (Some secret))
        /\ regexp.matchPrefix manager.re stamp = Some stamp
        /\ fst (manager.GetLastUpdated fake.clients name (snd written))
           = Ok (time.mkTime (time.sec (fake.clock w)) 0)).
Proof.
  split; [intros W m name t w w'; apply GetLastUpdated_stamped|].
  intros w name secret Hy Hc Hu Hd.
  pose proof (calendar_facts.Format_matches _ Hy) as Hmatch.
  cbv zeta.
  assert (Hw : exists w',
             manager.WriteSecret fake.clients name secret w = (Ok tt, w')
             /\ fake.faults w' = fake.faults w
             /\ fake.secrets w' !! name
                = Some (fake.mkSecret
                          (Some (manager.description
                                   (time.Format_RFC3339 (fake.clock w))))
                          (Some secret))).
  { unfold manager.WriteSecret, fake.clients.
    cbn [manager.time_Now manager.CreateSecret manager.UpdateSecret].
    unfold fake.Now. cbv beta iota zeta.
    set (stamp := time.Format_RFC3339 (fake.clock w)). clearbody stamp.
    unfold fake.CreateSecret, fake.UpdateSecret, fake.guarded. rewrite Hc.
    destruct (fake.secrets w !! name) as [old|] eqn:E.
    - simpl. rewrite Hu, E. eexists. split; [reflexivity|]. split; [reflexivity|].
      simpl. apply lookup_insert_eq.
    - simpl. rewrite Hu, lookup_insert_eq. eexists. split; [reflexivity|].
      split; [reflexivity|]. simpl. apply lookup_insert_eq. }
  destruct Hw as (w' & -> & Hf & Hs). simpl fst. simpl snd.
  repeat split; [exact Hs|exact Hmatch|].
  erewrite GetLastUpdated_stamped; [reflexivity|exact Hy|].
  unfold fake.clients. cbn [manager.DescribeSecret].
  unfold fake.DescribeSecret, fake.guarded. rewrite Hf, Hd, Hs. reflexivity.
Qed.

End manager_facts.

(* --------------------------------------------------------------------- *)
(** ** Runs in the in-memory world                                        *)
(* --------------------------------------------------------------------- *)

Module examples.
Import scenario.

(** C1 as stated fails: [svc-a] is declared writable; its listing holds a
    key with the team's title that is read-only, and after it a key with the
    team's title that is writable, as the repository is; the secret was
    written a day ago.  The run stops at the first of the two and rotates. *)
Lemma fresh_key_behind_changed_key_is_rotated :
  let keys := [teamKey 1 true; teamKey 2 false] in
  let w := world keys (Some yesterday) fake.no_faults in
  fst (manager.ListKeys fake.clients organisation "svc-a" w) = Ok keys
  /\ In (teamKey 2 false) keys
  /\ github.Title (teamKey 2 false) = Some title
  /\ github.ReadOnly (teamKey 2 false) = Some (repo.ReadOnly (svc_a false))
  /\ fst (manager.GetLastUpdated fake.clients keyPath w) = Ok yesterday
  /\ props.fresh yesterday (fst (manager.time_Now fake.clients w))
  /\ fake.outcome (processRepo (svc_a false) w)
     = (Returns tt,
        [ListKeys_call "org" "svc-a" (Ok keys);
         GenerateKeyPair_call title (Ok ("NEW PRIVATE", "ssh-rsa NEW PRIVATE"));
         CreateKey_call "org" "svc-a" false title "ssh-rsa NEW PRIVATE" (Ok tt);
         WriteSecret_call keyPath "NEW PRIVATE" (Ok tt);
         Sleep_call 1000000000;
         DeleteKey_call "org" "svc-a" 1 (Ok tt)])
  /\ existsb handler.mutating (snd (fake.outcome (processRepo (svc_a false) w)))
     = true.
Proof.
  cbv zeta. repeat split; try (vm_compute; reflexivity).
  right. left. reflexivity.
Qed.

(** C4 as stated fails: [svc-a] is declared writable; its listing holds a
    writable key with the team's title and, after it, a read-only key with
    the team's title, whose flag differs; the secret was written a day ago.
    The run stops at the first of the two and rotates nothing. *)
Lemma changed_key_behind_fresh_key_is_kept :
  let keys := [teamKey 2 false; teamKey 1 true] in
  let w := world keys (Some yesterday) fake.no_faults in
  fst (manager.ListKeys fake.clients organisation "svc-a" w) = Ok keys
  /\ In (teamKey 1 true) keys
  /\ github.Title (teamKey 1 true) = Some title
  /\ github.ReadOnly (teamKey 1 true) = Some true
  /\ repo.ReadOnly (svc_a false) = false
  /\ fake.outcome (processRepo (svc_a false) w)
     = (Returns tt,
        [ListKeys_call "org" "svc-a" (Ok keys);
         GetLastUpdated_call keyPath (Ok yesterday)])
  /\ existsb handler.mutating (snd (fake.outcome (processRepo (svc_a false) w)))
     = false.
Proof.
  cbv zeta. repeat split; try (vm_compute; reflexivity).
  right. left. reflexivity.
Qed.

(** C3 as stated fails: the one key of [svc-a] has the team's title and the
    repository's flag, and the lookup of the timestamp fails with an
    internal error of the secret store, which is not a missing secret.  The
    run logs the failure and rotates. *)
Lemma lookup_failure_is_not_skipped :
  let keys := [teamKey 2 false] in
  let w := world keys (Some yesterday) (failing "DescribeSecret" internalError) in
  fst (manager.ListKeys fake.clients organisation "svc-a" w) = Ok keys
  /\ github.Title (teamKey 2 false) = Some title
  /\ github.ReadOnly (teamKey 2 false) = Some (repo.ReadOnly (svc_a false))
  /\ fst (manager.GetLastUpdated fake.clients keyPath w) = Err internalError
  /\ awserr_Code internalError <> Some manager.ErrCodeResourceNotFoundException
  /\ fake.outcome (processRepo (svc_a false) w)
     = (Returns tt,
        [ListKeys_call "org" "svc-a" (Ok keys);
         GetLastUpdated_call keyPath (Err internalError);
         Warnf [("team", "platform"); ("repository", "svc-a")]
           "failed to get last updated for secret: %s" [ArgError internalError];
         GenerateKeyPair_call title (Ok ("NEW PRIVATE", "ssh-rsa NEW PRIVATE"));
         CreateKey_call "org" "svc-a" false title "ssh-rsa NEW PRIVATE" (Ok tt);
         WriteSecret_call keyPath "NEW PRIVATE" (Ok tt);
         Sleep_call 1000000000;
         DeleteKey_call "org" "svc-a" 2 (Ok tt)])
  /\ existsb handler.mutating (snd (fake.outcome (processRepo (svc_a false) w)))
     = true.
Proof.
  cbv zeta. repeat split; try (vm_compute; reflexivity).
  discriminate.
Qed.

(** C6 as stated fails: the key template names a field that does not
    exist, so resolving the secret path fails for [svc-a]; the run is not
    aborted: it goes on to [svc-b], and it returns no error. *)
Lemma key_template_error_is_not_fatal :
  let w := world [] None fake.no_faults in
  let err := Errorf_str
    "template: path: can't evaluate field %s in type *template.Template" "Repo" in
  template.String text_template.engine
    (template.NewTemplate "platform" "svc-a" organisation badTemplate) = Err err
  /\ fake.outcome (runBadKeyTemplate [svc_a false; svc_b] w)
     = (Returns None,
        [CreateAccessToken_call "org" (Ok "token:org");
         WriteSecret_call tokenPath "token:org" (Ok tt);
         List_call (Ok [svc_a false; svc_b]);
         Warnf [("team", "platform"); ("repository", "svc-a")]
           "failed to parse deploy key template: %s" [ArgError err];
         Warnf [("team", "platform"); ("repository", "svc-b")]
           "failed to parse deploy key template: %s" [ArgError err]]).
Proof. cbv zeta. split; vm_compute; reflexivity. Qed.

(** The first key with the team's title in a listing that starts with the
    key of another team. *)
Lemma firstWithTitle_second (k : github.Key) :
  github.Title k = Some title ->
  props.firstWithTitle title [otherKey; k] k.
Proof.
  intros Hk. exists [otherKey], []. split; [reflexivity|]. split; [|exact Hk].
  constructor; [|constructor].
  exists "concourse-data-deploy-key". split; [reflexivity|discriminate].
Qed.

(** C1 at work: the key of the team comes after another team's key, has the
    repository's flag, and the secret was written a day ago. *)
Lemma fresh_first_key_is_skipped_witness :
  let keys := [otherKey; teamKey 2 false] in
  let w := world keys (Some yesterday) fake.no_faults in
  exists new,
    processRepo (svc_a false) w = (Returns tt, w, new)
    /\ new = [ListKeys_call organisation "svc-a" (Ok keys);
              GetLastUpdated_call keyPath (Ok yesterday)]
    /\ Forall (fun e => handler.mutating e = false) new.
Proof.
  cbv zeta.
  apply (run_facts.fresh_first_key_is_skipped fake.clients text_template.engine
           organisation keyTemplate titleTemplate platform (svc_a false)
           keyPath title [otherKey; teamKey 2 false] (teamKey 2 false)
           yesterday now
           (world [otherKey; teamKey 2 false] (Some yesterday) fake.no_faults)
           (world [otherKey; teamKey 2 false] (Some yesterday) fake.no_faults)
           (world [otherKey; teamKey 2 false] (Some yesterday) fake.no_faults)
           (world [otherKey; teamKey 2 false] (Some yesterday) fake.no_faults)).
  - vm_compute. reflexivity.
  - vm_compute. reflexivity.
  - vm_compute. reflexivity.
  - apply firstWithTitle_second. reflexivity.
  - reflexivity.
  - vm_compute. reflexivity.
  - reflexivity.
  - unfold props.clockReading. simpl. lia.
  - vm_compute. reflexivity.
Defined.

(** C4 at work: [svc-a] is now declared read-only and its key is writable;
    the secret was written a day ago. *)
Lemma changed_permissions_rotate_witness :
  let keys := [otherKey; teamKey 2 false] in
  let w := world keys (Some yesterday) fake.no_faults in
  exists r w' new,
    processRepo (svc_a true) w
      = (r, w', ListKeys_call organisation "svc-a" (Ok keys) :: new)
    /\ handler.rotate fake.clients organisation platform (svc_a true) keyPath
         title (Some (teamKey 2 false)) w = (r, w', new)
    /\ props.rotation organisation (svc_a true) keyPath title
         (handler.log_repo platform (svc_a true)) (Some (teamKey 2 false)) new
    /\ forall name res,
         ~ In (GetLastUpdated_call name res)
             (ListKeys_call organisation "svc-a" (Ok keys) :: new).
Proof.
  cbv zeta.
  apply (run_facts.changed_permissions_rotate fake.clients text_template.engine
           organisation keyTemplate titleTemplate platform (svc_a true)
           keyPath title [otherKey; teamKey 2 false] (teamKey 2 false) false
           (world [otherKey; teamKey 2 false] (Some yesterday) fake.no_faults)
           (world [otherKey; teamKey 2 false] (Some yesterday) fake.no_faults)).
  - vm_compute. reflexivity.
  - vm_compute. reflexivity.
  - vm_compute. reflexivity.
  - apply firstWithTitle_second. reflexivity.
  - reflexivity.
  - discriminate.
Defined.

(** C3 at work: the lookup fails with an internal error of the store;
    [svc-b] is what remains of the listing. *)
Lemma lookup_failure_rotates_witness :
  let keys := [otherKey; teamKey 2 false] in
  let w := world keys (Some yesterday) (failing "DescribeSecret" internalError) in
  exists w' new,
    processRepo (svc_a false) w
      = (Returns tt, w',
         [ListKeys_call organisation "svc-a" (Ok keys);
          GetLastUpdated_call keyPath (Err internalError);
          Warnf (handler.log_repo platform (svc_a false))
            "failed to get last updated for secret: %s"
            [ArgError internalError]] ++ new)%list
    /\ handler.rotate fake.clients organisation platform (svc_a false) keyPath
         title (Some (teamKey 2 false)) w = (Returns tt, w', new)
    /\ props.rotation organisation (svc_a false) keyPath title
         (handler.log_repo platform (svc_a false)) (Some (teamKey 2 false)) new
    /\ for_range [svc_a false; svc_b] processRepo w
       = after (snd (processRepo (svc_a false) w))
           (for_range [svc_b] processRepo w')
    /\ In (ListKeys_call organisation "svc-b" (Ok []))
          (snd (for_range [svc_a false; svc_b] processRepo w)).
Proof.
  cbv zeta.
  destruct (run_facts.lookup_failure_rotates fake.clients text_template.engine
              organisation (fake.lister [svc_a false; svc_b]) tokenTemplate
              keyTemplate titleTemplate platform (svc_a false)
              keyPath title [otherKey; teamKey 2 false] (teamKey 2 false)
              internalError
              (world [otherKey; teamKey 2 false] (Some yesterday)
                 (failing "DescribeSecret" internalError))
              (world [otherKey; teamKey 2 false] (Some yesterday)
                 (failing "DescribeSecret" internalError))
              (world [otherKey; teamKey 2 false] (Some yesterday)
                 (failing "DescribeSecret" internalError)))
    as (w' & new & Hbody & Hrot & Hshape & Hnext & _).
  - vm_compute. reflexivity.
  - vm_compute. reflexivity.
  - vm_compute. reflexivity.
  - apply firstWithTitle_second. reflexivity.
  - reflexivity.
  - discriminate.
  - vm_compute. reflexivity.
  - unfold props.isNotFound. discriminate.
  - exists w', new.
    split; [exact Hbody|]. split; [exact Hrot|]. split; [exact Hshape|].
    split; [exact (Hnext [svc_b])|].
    vm_compute. do 8 right. left. reflexivity.
Defined.


(** C2 at work: the rotation of the writable key of [svc-a], now declared
    read-only, ends with the deletion of key 2. *)
Lemma old_key_deleted_last_witness :
  let keys := [otherKey; teamKey 2 false] in
  let w := world keys (Some yesterday) fake.no_faults in
  exists keyPath' title' keys' k private public a0,
    template.String text_template.engine
      (template.NewTemplate "platform" "svc-a" organisation keyTemplate)
      = Ok keyPath'
    /\ template.String text_template.engine
         (template.NewTemplate "platform" "svc-a" organisation titleTemplate)
         = Ok title'
    /\ "org" = organisation /\ "svc-a" = repo.Name (svc_a true)
    /\ [ListKeys_call organisation "svc-a" (Ok keys);
        GenerateKeyPair_call title (Ok ("NEW PRIVATE", "ssh-rsa NEW PRIVATE"));
        CreateKey_call "org" "svc-a" true title "ssh-rsa NEW PRIVATE" (Ok tt);
        WriteSecret_call keyPath "NEW PRIVATE" (Ok tt);
        Sleep_call 1000000000]
       = (a0 ++ [CreateKey_call organisation "svc-a" true title' public (Ok tt);
                 WriteSecret_call keyPath' private (Ok tt);
                 Sleep_call (time.Second * 1)])%list
    /\ In (ListKeys_call organisation "svc-a" (Ok keys')) a0
    /\ In k keys' /\ github.Title k = Some title' /\ github.ID k = Some 2.
Proof.
  cbv zeta.
  apply (run_facts.old_key_deleted_last fake.clients text_template.engine
           organisation keyTemplate titleTemplate platform (svc_a true)
           (world [otherKey; teamKey 2 false] (Some yesterday) fake.no_faults)
           _ "org" "svc-a" 2 (Ok tt) []).
  vm_compute. reflexivity.
Defined.

(** C7 at work: a token template that does not parse, a token request
    that fails, a secret store that refuses the update; and a run whose
    token step succeeds. *)
Lemma token_step_is_fatal_witness :
  let w := world [] None fake.no_faults in
  let w_token := world [] None (failing "createInstallationToken" internalError) in
  let w_store := world [] None (failing "UpdateSecret" internalError) in
  let unclosed := errors_New "template: path: unclosed action" in
  handler.New fake.clients text_template.engine organisation
      (fake.lister [svc_a false]) "{{.Team" keyTemplate titleTemplate platform w
    = (Returns (Some (Errorf_err "parsing token path template: %w" unclosed)), w,
       [Warnf (handler.log platform) "failed to parse token path template: %s"
          [ArgError unclosed]])
  /\ run [svc_a false] w_token
     = (Returns (Some (Errorf_err "creating access token: %w" internalError)),
        w_token,
        [CreateAccessToken_call organisation (Err internalError);
         Warnf (handler.log platform) "failed to create access token: %s"
           [ArgError internalError]])
  /\ run [svc_a false] w_store
     = (Returns (Some (Errorf_err "writing access token: %w" internalError)),
        snd (manager.WriteSecret fake.clients tokenPath "token:org" w_store),
        [CreateAccessToken_call organisation (Ok "token:org");
         WriteSecret_call tokenPath "token:org" (Err internalError);
         Warnf (handler.log platform) "failed to write access token: %s"
           [ArgError internalError]])
  /\ exists rest,
       snd (run [svc_a false] w)
         = CreateAccessToken_call organisation
             (fst (manager.CreateAccessToken fake.clients organisation w))
           :: rest
       /\ forall token w1,
            manager.CreateAccessToken fake.clients organisation w = (Ok token, w1) ->
            exists rest',
              rest = WriteSecret_call tokenPath token
                       (fst (manager.WriteSecret fake.clients tokenPath token w1))
                     :: rest'.
Proof.
  cbv zeta. split; [|split; [|split]].
  - apply (proj1 (run_facts.token_step_is_fatal fake.clients text_template.engine
                    organisation (fake.lister [svc_a false]) "{{.Team" keyTemplate
                    titleTemplate platform (world [] None fake.no_faults))).
    vm_compute. reflexivity.
  - apply (proj1 (proj2 (run_facts.token_step_is_fatal fake.clients
                           text_template.engine organisation
                           (fake.lister [svc_a false]) tokenTemplate keyTemplate
                           titleTemplate platform
                           (world [] None
                              (failing "createInstallationToken" internalError))))
             tokenPath).
    + vm_compute. reflexivity.
    + vm_compute. reflexivity.
  - apply (proj1 (proj2 (proj2 (run_facts.token_step_is_fatal fake.clients
                           text_template.engine organisation
                           (fake.lister [svc_a false]) tokenTemplate keyTemplate
                           titleTemplate platform
                           (world [] None (failing "UpdateSecret" internalError)))))
             tokenPath "token:org" internalError
             (world [] None (failing "UpdateSecret" internalError))).
    + vm_compute. reflexivity.
    + vm_compute. reflexivity.
    + vm_compute. reflexivity.
  - apply (proj2 (proj2 (proj2 (run_facts.token_step_is_fatal fake.clients
                           text_template.engine organisation
                           (fake.lister [svc_a false]) tokenTemplate keyTemplate
                           titleTemplate platform (world [] None fake.no_faults))))
             tokenPath).
    vm_compute. reflexivity.
Defined.

(** C6 at work: a token template that does not parse ends the run; a key
    template or a title template with an unknown field only passes the
    repository over. *)
Lemma template_errors_witness :
  let w := world [] None fake.no_faults in
  let unclosed := errors_New "template: path: unclosed action" in
  let unknown := Errorf_str
    "template: path: can't evaluate field %s in type *template.Template" "Repo" in
  handler.New fake.clients text_template.engine organisation
      (fake.lister [svc_a false]) "{{.Team" keyTemplate titleTemplate platform w
    = (Returns (Some (Errorf_err "parsing token path template: %w" unclosed)), w,
       [Warnf (handler.log platform) "failed to parse token path template: %s"
          [ArgError unclosed]])
  /\ for_range [svc_a false; svc_b]
       (handler.processRepo fake.clients text_template.engine organisation
          badTemplate titleTemplate platform) w
     = after [Warnf (handler.log_repo platform (svc_a false))
                "failed to parse deploy key template: %s" [ArgError unknown]]
         (for_range [svc_b]
            (handler.processRepo fake.clients text_template.engine organisation
               badTemplate titleTemplate platform) w)
  /\ for_range [svc_a false; svc_b]
       (handler.processRepo fake.clients text_template.engine organisation
          keyTemplate badTemplate platform) w
     = after [Warnf (handler.log_repo platform (svc_a false))
                "failed to parse github title template: %s" [ArgError unknown]]
         (for_range [svc_b]
            (handler.processRepo fake.clients text_template.engine organisation
               keyTemplate badTemplate platform) w).
Proof.
  cbv zeta. split; [|split].
  - apply (proj1 (run_facts.template_errors fake.clients text_template.engine
                    organisation (fake.lister [svc_a false]) "{{.Team" keyTemplate
                    titleTemplate platform (world [] None fake.no_faults))).
    vm_compute. reflexivity.
  - apply (proj1 (proj2 (run_facts.template_errors fake.clients
                           text_template.engine organisation
                           (fake.lister [svc_a false]) tokenTemplate badTemplate
                           titleTemplate platform (world [] None fake.no_faults)))).
    vm_compute. reflexivity.
  - apply (proj2 (proj2 (run_facts.template_errors fake.clients
                           text_template.engine organisation
                           (fake.lister [svc_a false]) tokenTemplate keyTemplate
                           badTemplate platform (world [] None fake.no_faults)))
             (svc_a false) [svc_b] keyPath).
    + vm_compute. reflexivity.
    + vm_compute. reflexivity.
Defined.

(** C9 at work: a first write, and a write over a secret of last month. *)
Lemma WriteSecret_stamp_round_trip_witness :
  let stamp := "2026-10-31T00:00:00Z" in
  let stamped := fake.mkSecret (Some (manager.description stamp)) (Some "PRIVATE") in
  let first := manager.WriteSecret fake.clients keyPath "PRIVATE"
                 (world [] None fake.no_faults) in
  let again := manager.WriteSecret fake.clients keyPath "PRIVATE"
                 (world [] (Some lastMonth) fake.no_faults) in
  (fst first = Ok tt
   /\ fake.secrets (snd first) !! keyPath = Some stamped
   /\ regexp.matchPrefix manager.re stamp = Some stamp
   /\ fst (manager.GetLastUpdated fake.clients keyPath (snd first))
      = Ok (time.mkTime 1793404800 0))
  /\ (fst again = Ok tt
      /\ fake.secrets (snd again) !! keyPath = Some stamped
      /\ regexp.matchPrefix manager.re stamp = Some stamp
      /\ fst (manager.GetLastUpdated fake.clients keyPath (snd again))
         = Ok (time.mkTime 1793404800 0)).
Proof.
  cbv zeta. split.
  - apply (proj2 manager_facts.WriteSecret_stamp_round_trip
             (world [] None fake.no_faults) keyPath "PRIVATE");
      try reflexivity.
    vm_compute. split; discriminate.
  - apply (proj2 manager_facts.WriteSecret_stamp_round_trip
             (world [] (Some lastMonth) fake.no_faults) keyPath "PRIVATE");
      try reflexivity.
    vm_compute. split; discriminate.
Defined.

(** C10 at work: a table of two names, scanned in a world without state. *)
Lemma listed_repositories_are_writable_witness :
  let repos := [repo.mkRepo "svc-a" false; repo.mkRepo "svc.b" false] in
  Forall (fun r => repo.ReadOnly r = false) repos
  /\ forall r key,
       In r repos ->
       handler.permissionsChanged key r = true ->
       github.ReadOnly key = Some true.
Proof.
  cbv zeta.
  apply (dynamodb_facts.listed_repositories_are_writable (W := unit)
           "github-repos"
           (fun (_ : string) (u : unit) => (Ok ["svc-a"; "svc.b"], u))
           (fun item : string => Ok item) tt _ tt []).
  reflexivity.
Defined.

End examples.

(* --------------------------------------------------------------------- *)
(** ** More on the run for one repository                                 *)
(* --------------------------------------------------------------------- *)

Module body_facts.
Import run_facts.

Section Handler.
Context {W : Type}
  (manager : manager.Clients W)
  (engine : template.Engine)
  (githubOrganisation : string)
  (repoLister : M W (result (list repo.Repo)))
  (tokenTemplate keyTemplate titleTemplate : string)
  (team : team.Team).

Local Abbreviation processRepo :=
  (handler.processRepo manager engine githubOrganisation keyTemplate
     titleTemplate team).
Local Abbreviation New :=
  (handler.New manager engine githubOrganisation repoLister tokenTemplate
     keyTemplate titleTemplate team).
Local Abbreviation keyPathOf repo :=
  (template.String engine
     (template.NewTemplate (team.Name team) (repo.Name repo)
        githubOrganisation keyTemplate)).
Local Abbreviation titleOf repo :=
  (template.String engine
     (template.NewTemplate (team.Name team) (repo.Name repo)
        githubOrganisation titleTemplate)).
Local Abbreviation tokenPathOf :=
  (template.String engine
     (template.NewTemplateWithoutRepository (team.Name team)
        githubOrganisation tokenTemplate)).

Section Repo.
Context (repo : repo.Repo) (keyPath title : string).

Local Abbreviation findOldKey :=
  (handler.findOldKey manager team repo keyPath title).
Local Abbreviation rotate :=
  (handler.rotate manager githubOrganisation team repo keyPath title).
Local Abbreviation rotation :=
  (props.rotation githubOrganisation repo keyPath title
     (handler.log_repo team repo)).
Local Abbreviation listed keys :=
  (ListKeys_call githubOrganisation (repo.Name repo) (Ok keys)).

(** The events of a rotation, one by one. *)
Lemma rotation_events oldKey new e :
  rotation oldKey new -> In e new ->
  (exists r, e = GenerateKeyPair_call title r)
  \/ (exists private public r,
        e = CreateKey_call githubOrganisation (repo.Name repo)
              (repo.ReadOnly repo) title public r
        /\ In (GenerateKeyPair_call title (Ok (private, public))) new)
  \/ (exists private public r,
        e = WriteSecret_call keyPath private r
        /\ In (GenerateKeyPair_call title (Ok (private, public))) new
        /\ In (CreateKey_call githubOrganisation (repo.Name repo)
                 (repo.ReadOnly repo) title public (Ok tt)) new)
  \/ (e = Sleep_call (time.Second * 1) /\ oldKey <> None)
  \/ (exists k id r,
        e = DeleteKey_call githubOrganisation (repo.Name repo) id r
        /\ oldKey = Some k /\ github.ID k = Some id)
  \/ (exists format args, e = Warnf (handler.log_repo team repo) format args).
Proof.
  intros Hrot Hin.
  inversion Hrot as [? ?|? ? ? ?|? ? ? ?|? ?|k id private public r Hid|k private public Hid];
    subst; try destruct r; simpl in Hin;
    repeat (destruct Hin as [<-|Hin]);
    try contradiction;
    try (left; eexists; reflexivity);
    try (right; left; do 3 eexists; split; [reflexivity|simpl; tauto]);
    try (right; right; left; do 3 eexists; split; [reflexivity|simpl; tauto]);
    try (right; right; right; left; split; [reflexivity|discriminate]);
    try (right; right; right; right; left; do 3 eexists;
         split; [reflexivity|split; [reflexivity|exact Hid]]);
    try (right; right; right; right; right; do 2 eexists; reflexivity).
Qed.


(** The scan returns when every key has a title. *)
Lemma findOldKey_returns keys : forall oldKey w,
  Forall (fun k => github.Title k <> None) keys ->
  exists s w' ev, findOldKey keys oldKey w = (Returns s, w', ev).
Proof.
  induction keys as [|key keys IH]; intros oldKey w Hall.
  { do 3 eexists. reflexivity. }
  inversion Hall as [|? ? Hk Hrest]; subst.
  simpl. destruct (github.Title key) as [t|]; [|congruence]. unfold deref.
  erewrite bind_returns by apply mret_run. rewrite after_nil.
  destruct (String.eqb t title); [|apply IH; exact Hrest].
  destruct (handler.permissionsChanged key repo); [do 3 eexists; reflexivity|].
  destruct (manager.GetLastUpdated manager keyPath w) as [[updated|err] w1] eqn:Eg;
    erewrite bind_returns by (apply call_lift; exact Eg); cbv beta iota.
  - destruct (manager.time_Now manager w1) as [now w2] eqn:En.
    erewrite bind_returns by (apply lift_run; exact En). rewrite after_nil.
    destruct (time.After updated (time.AddDate now 0 0 (-7))).
    + do 3 eexists. reflexivity.
    + destruct (IH (Some key) w2 Hrest) as (s & w' & ev & ->).
      do 3 eexists. reflexivity.
  - destruct (match awserr_Code err with
              | Some code => String.eqb code manager.ErrCodeResourceNotFoundException
              | None => false
              end); do 3 eexists; reflexivity.
Qed.

(** With a timestamp that is not fresh and lookups that leave the world as
    it is, the scan looks the timestamp up once for every key that has the
    title, and ends with the last of them as the old key. *)
Lemma findOldKey_stale keys updated now w : forall oldKey,
  Forall (fun k => github.Title k <> None
                   /\ (traces.hasTitle title k = true ->
                       handler.permissionsChanged k repo = false)) keys ->
  manager.GetLastUpdated manager keyPath w = (Ok updated, w) ->
  manager.time_Now manager w = (now, w) ->
  props.clockReading now ->
  ~ props.fresh updated now ->
  findOldKey keys oldKey w
  = (Returns (handler.Proceed (traces.lastWithTitle title keys oldKey)), w,
     map (fun _ => GetLastUpdated_call keyPath (Ok updated))
       (List.filter (traces.hasTitle title) keys)).
Proof.
  intros oldKey Hall Hg Hn Hclock Hstale. revert oldKey.
  assert (Hafter : time.After updated (time.AddDate now 0 0 (-7)) = false).
  { destruct (time.After updated (time.AddDate now 0 0 (-7))) eqn:E; [|reflexivity].
    exfalso. apply Hstale.
    apply (calendar_facts.After_AddDate updated now
             (GetLastUpdated_nsec _ _ _ _ _ Hg) Hclock). exact E. }
  induction Hall as [|key keys [Hk Hperm] _ IH]; intros oldKey; [reflexivity|].
  simpl. unfold traces.hasTitle in *.
  destruct (github.Title key) as [t|]; [|congruence]. unfold deref.
  erewrite bind_returns by apply mret_run. rewrite after_nil.
  destruct (String.eqb t title); [|apply IH].
  rewrite (Hperm eq_refl).
  erewrite bind_returns by (apply call_lift; exact Hg). cbv beta iota.
  erewrite bind_returns by (apply lift_run; exact Hn). rewrite after_nil.
  rewrite Hafter, IH. reflexivity.
Qed.

End Repo.

(** The four ways the run for a repository goes. *)
Lemma processRepo_cases repo w :
  (exists err,
     keyPathOf repo = Err err
     /\ processRepo repo w
        = (Returns tt, w,
           [Warnf (handler.log_repo team repo)
              "failed to parse deploy key template: %s" [ArgError err]]))
  \/ (exists keyPath err,
        keyPathOf repo = Ok keyPath /\ titleOf repo = Err err
        /\ processRepo repo w
           = (Returns tt, w,
              [Warnf (handler.log_repo team repo)
                 "failed to parse github title template: %s" [ArgError err]]))
  \/ (exists keyPath title err w1,
        keyPathOf repo = Ok keyPath /\ titleOf repo = Ok title
        /\ manager.ListKeys manager githubOrganisation (repo.Name repo) w
           = (Err err, w1)
        /\ processRepo repo w
           = (Returns tt, w1,
              [ListKeys_call githubOrganisation (repo.Name repo) (Err err);
               Warnf (handler.log_repo team repo)
                 "failed to list github keys: %s" [ArgError err]]))
  \/ (exists keyPath title keys w1 r w' ev rot,
        keyPathOf repo = Ok keyPath /\ titleOf repo = Ok title
        /\ manager.ListKeys manager githubOrganisation (repo.Name repo) w
           = (Ok keys, w1)
        /\ processRepo repo w
           = (r, w', ListKeys_call githubOrganisation (repo.Name repo) (Ok keys)
                     :: ev ++ rot)%list
        /\ Forall (fun e => props.lookupOrWarning e = true) ev
        /\ (rot = []
            \/ exists oldKey,
                 props.rotation githubOrganisation repo keyPath title
                   (handler.log_repo team repo) oldKey rot
                 /\ (oldKey = None
                     \/ exists k, oldKey = Some k /\ In k keys
                                  /\ github.Title k = Some title))).
Proof.
  unfold handler.processRepo.
  destruct (keyPathOf repo) as [keyPath|err] eqn:Hk.
  2: { left. exists err. split; reflexivity. }
  destruct (titleOf repo) as [title|err] eqn:Ht.
  2: { right. left. exists keyPath, err. repeat split. }
  destruct (manager.ListKeys manager githubOrganisation (repo.Name repo) w)
    as [[keys|err] w1] eqn:Hl;
    erewrite bind_returns by (apply call_lift; exact Hl); cbv beta iota.
  2: { right. right. left. exists keyPath, title, err, w1. repeat split. }
  right. right. right.
  destruct (findOldKey_trace manager team repo keyPath title keys None w1)
    as (r & w2 & ev & Hscan & Hev & Hold).
  destruct r as [[oldKey|]|msg].
  - erewrite bind_returns by exact Hscan.
    destruct (rotate_trace manager githubOrganisation team repo keyPath title
                oldKey w2) as (r & w' & rot & Hrot & Hshape).
    rewrite Hrot. exists keyPath, title, keys, w1, r, w', ev, rot.
    repeat split; try assumption. right. exists oldKey. split; [exact Hshape|].
    destruct (Hold oldKey eq_refl) as [->|H]; [left; reflexivity|right; exact H].
  - erewrite bind_returns by exact Hscan.
    exists keyPath, title, keys, w1, (Returns tt), w2, ev, [].
    repeat split; try assumption. left. reflexivity.
  - erewrite bind_panics by exact Hscan.
    exists keyPath, title, keys, w1, (Panics msg), w2, ev, [].
    repeat split; try assumption.
    + simpl. rewrite app_nil_r. reflexivity.
    + left. reflexivity.
Qed.


(** X2: when the secret's timestamp is not fresh, the run looks it up once for
    every listed key that has the team's title and then rotates with the
    last of these keys as the old key: of several keys with the title only
    the last one can be deleted.  The lookups are assumed to leave the world
    as it is, and the keys with the title to have the repository's flag. *)
Theorem stale_secret_retires_last_key repo keyPath title keys updated now w w1 :
  keyPathOf repo = Ok keyPath ->
  titleOf repo = Ok title ->
  manager.ListKeys manager githubOrganisation (repo.Name repo) w = (Ok keys, w1) ->
  Forall (fun k => github.Title k <> None
                   /\ (traces.hasTitle title k = true ->
                       handler.permissionsChanged k repo = false)) keys ->
  manager.GetLastUpdated manager keyPath w1 = (Ok updated, w1) ->
  manager.time_Now manager w1 = (now, w1) ->
  props.clockReading now ->
  ~ props.fresh updated now ->
  exists r w' new,
    processRepo repo w
      = (r, w',
         ListKeys_call githubOrganisation (repo.Name repo) (Ok keys)
         :: map (fun _ => GetLastUpdated_call keyPath (Ok updated))
              (List.filter (traces.hasTitle title) keys)
         ++ new)%list
    /\ handler.rotate manager githubOrganisation team repo keyPath title
         (traces.lastWithTitle title keys None) w1 = (r, w', new)
    /\ props.rotation githubOrganisation repo keyPath title
         (handler.log_repo team repo) (traces.lastWithTitle title keys None) new.
Proof.
  intros Hk Ht Hl Hall Hg Hn Hclock Hstale.
  destruct (rotate_trace manager githubOrganisation team repo keyPath title
              (traces.lastWithTitle title keys None) w1)
    as (r & w' & new & Hrot & Hshape).
  exists r, w', new. split; [|split; [exact Hrot|exact Hshape]].
  rewrite (processRepo_listed _ _ _ _ _ _ _ _ _ _ _ _ Hk Ht Hl).
  erewrite bind_returns
    by (apply (findOldKey_stale repo keyPath title keys updated now w1 None);
        assumption).
  cbv beta iota. rewrite Hrot. reflexivity.
Qed.

(** A mutating call of the run for a repository is an event of its
    rotation. *)
Lemma processRepo_mutation repo w e :
  In e (snd (processRepo repo w)) ->
  handler.mutating e = true ->
  exists keyPath title oldKey rot,
    keyPathOf repo = Ok keyPath /\ titleOf repo = Ok title
    /\ props.rotation githubOrganisation repo keyPath title
         (handler.log_repo team repo) oldKey rot
    /\ In e rot
    /\ forall x, In x rot -> In x (snd (processRepo repo w)).
Proof.
  destruct (processRepo_cases repo w)
    as [(err & _ & ->)|[(kp & err & _ & _ & ->)|[(kp & t & err & w1 & _ & _ & _ & ->)
       |(kp & t & keys & w1 & r' & w' & ev & rot & Hk & Ht & Hl & -> & Hev & Hrot)]]];
    simpl.
  - intros [<-|[]] H. discriminate H.
  - intros [<-|[]] H. discriminate H.
  - intros [<-|[<-|[]]] H; discriminate H.
  - intros [<-|Hin] Hm; [discriminate Hm|].
    apply in_app_or in Hin as [Hin|Hin].
    { rewrite Forall_forall in Hev. apply Hev in Hin.
      destruct e; discriminate. }
    destruct Hrot as [->|(oldKey & Hshape & _)]; [contradiction|].
    exists kp, t, oldKey, rot. repeat split; try assumption.
    intros x Hx. right. apply in_or_app. right. exact Hx.
Qed.

(** X3: every [CreateKey] of the run for a repository is for that repository
    in the organisation, carries the repository's read-only flag and the
    title resolved for it, and publishes the public half of a key pair that
    [GenerateKeyPair] returned for that title in the same run. *)
Theorem published_key_is_generated repo w owner name readOnly title public r :
  In (CreateKey_call owner name readOnly title public r)
     (snd (processRepo repo w)) ->
  owner = githubOrganisation /\ name = repo.Name repo
  /\ readOnly = repo.ReadOnly repo
  /\ titleOf repo = Ok title
  /\ exists private,
       In (GenerateKeyPair_call title (Ok (private, public)))
          (snd (processRepo repo w)).
Proof.
  intros Hin.
  destruct (processRepo_mutation repo w _ Hin eq_refl)
    as (kp & t & oldKey & rot & Hk & Ht & Hshape & Hrot & Hsub).
  destruct (rotation_events repo kp t oldKey rot _ Hshape Hrot)
    as [(? & H)|[(private & public' & r'' & H & Hgen)
       |[(? & ? & ? & H & _)|[(H & _)|[(? & ? & ? & H & _)|(? & ? & H)]]]]];
    try discriminate H.
  injection H as -> -> -> -> -> ->.
  repeat split; try assumption. exists private. apply Hsub. exact Hgen.
Qed.

(** X4: every [WriteSecret] of the run for a repository writes, at the secret
    path resolved for the repository, the private half of a key pair that
    [GenerateKeyPair] returned in the same run and whose public half
    [CreateKey] has published successfully. *)
Theorem persisted_key_is_published repo w name secret r :
  In (WriteSecret_call name secret r) (snd (processRepo repo w)) ->
  keyPathOf repo = Ok name
  /\ exists title public,
       titleOf repo = Ok title
       /\ In (GenerateKeyPair_call title (Ok (secret, public)))
             (snd (processRepo repo w))
       /\ In (CreateKey_call githubOrganisation (repo.Name repo)
                (repo.ReadOnly repo) title public (Ok tt))
             (snd (processRepo repo w)).
Proof.
  intros Hin.
  destruct (processRepo_mutation repo w _ Hin eq_refl)
    as (kp & t & oldKey & rot & Hk & Ht & Hshape & Hrot & Hsub).
  destruct (rotation_events repo kp t oldKey rot _ Hshape Hrot)
    as [(? & H)|[(? & ? & ? & H & _)
       |[(private & public & r'' & H & Hgen & Hpub)
        |[(H & _)|[(? & ? & ? & H & _)|(? & ? & H)]]]]];
    try discriminate H.
  injection H as -> -> ->.
  split; [exact Hk|]. exists t, public. split; [exact Ht|].
  split; apply Hsub; assumption.
Qed.

(** The run for a repository returns, so that the loop goes on, whenever
    the keys that are listed for it all have a title and an identifier;
    whatever fails upstream. *)
Lemma processRepo_returns repo w :
  (forall keys w1,
     manager.ListKeys manager githubOrganisation (repo.Name repo) w = (Ok keys, w1) ->
     Forall (fun k => github.Title k <> None /\ github.ID k <> None) keys) ->
  exists w' ev, processRepo repo w = (Returns tt, w', ev).
Proof.
  intros Hkeys. unfold handler.processRepo.
  destruct (keyPathOf repo) as [keyPath|err]; [|do 2 eexists; reflexivity].
  destruct (titleOf repo) as [title|err]; [|do 2 eexists; reflexivity].
  destruct (manager.ListKeys manager githubOrganisation (repo.Name repo) w)
    as [[keys|err] w1] eqn:Hl;
    erewrite bind_returns by (apply call_lift; exact Hl); cbv beta iota.
  2: { do 2 eexists. reflexivity. }
  specialize (Hkeys keys w1 eq_refl).
  assert (Ht : Forall (fun k => github.Title k <> None) keys)
    by (eapply Forall_impl; [|exact Hkeys]; intros ? [? _]; assumption).
  destruct (findOldKey_returns repo keyPath title keys None w1 Ht)
    as (s & w2 & ev & Hscan).
  destruct (findOldKey_trace manager team repo keyPath title keys None w1)
    as (r & w2' & ev' & Hscan' & _ & Hold).
  rewrite Hscan in Hscan'. injection Hscan' as <- <- <-.
  erewrite bind_returns by exact Hscan.
  destruct s as [oldKey|]; [|do 2 eexists; reflexivity].
  destruct (rotate_returns manager githubOrganisation team repo keyPath title
              oldKey w2) as (w' & new & ->).
  { intros k ->. destruct (Hold (Some k) eq_refl) as [H|(k' & [= <-] & Hin & _)];
      [discriminate H|].
    rewrite Forall_forall in Hkeys. exact (proj2 (Hkeys k Hin)). }
  do 2 eexists. reflexivity.
Qed.

(** X5: a repository whose keys cannot be listed, because no installation
    client is obtained or because the listing itself fails, is left
    untouched: the failure is logged and no further call is made for it. *)
Theorem unlistable_repository_is_untouched repo keyPath title err w w1 :
  keyPathOf repo = Ok keyPath ->
  titleOf repo = Ok title ->
  (manager.getInstallationClient manager githubOrganisation w = (Err err, w1)
   \/ exists client w0,
        manager.getInstallationClient manager githubOrganisation w
        = (Ok client, w0)
        /\ manager.Repos_ListKeys manager client githubOrganisation
             (repo.Name repo) w0 = (Err err, w1)) ->
  processRepo repo w
  = (Returns tt, w1,
     [ListKeys_call githubOrganisation (repo.Name repo) (Err err);
      Warnf (handler.log_repo team repo) "failed to list github keys: %s"
        [ArgError err]]).
Proof.
  intros Hk Ht Hfail.
  assert (Hl : manager.ListKeys manager githubOrganisation (repo.Name repo) w
               = (Err err, w1)).
  { unfold manager.ListKeys.
    destruct Hfail as [->|(client & w0 & -> & ->)]; reflexivity. }
  unfold handler.processRepo. rewrite Hk, Ht.
  erewrite bind_returns by (apply call_lift; exact Hl). reflexivity.
Qed.

(** What the loop leaves in the trace comes from the run of one of the
    repositories. *)
Lemma for_range_events repos : forall w e,
  In e (snd (for_range repos processRepo w)) ->
  exists repo w0, In repo repos /\ In e (snd (processRepo repo w0)).
Proof.
  induction repos as [|repo repos IH]; intros w e; simpl.
  - intros [].
  - unfold mbind, M_MBind, M_bind.
    destruct (processRepo repo w) as [[[[]|msg] w1] ev1] eqn:Hb.
    + destruct (for_range repos processRepo w1) as [[r2 w2] ev2] eqn:Hr. simpl.
      intros Hin. apply in_app_or in Hin as [Hin|Hin].
      * exists repo, w. rewrite Hb. split; [left; reflexivity|exact Hin].
      * destruct (IH w1 e) as (repo' & w0 & Hin' & He).
        { rewrite Hr. exact Hin. }
        exists repo', w0. split; [right; exact Hin'|exact He].
    + simpl. intros Hin. exists repo, w. rewrite Hb.
      split; [left; reflexivity|exact Hin].
Qed.

(** Where the events of a run come from. *)
Lemma New_events w e :
  In e (snd (New w)) ->
  (exists format args, e = Warnf (handler.log team) format args)
  \/ (exists r, e = CreateAccessToken_call githubOrganisation r)
  \/ (exists tokenPath token r,
        tokenPathOf = Ok tokenPath /\ e = WriteSecret_call tokenPath token r)
  \/ (exists w2, In e (snd (repoLister w2)))
  \/ (exists r, e = List_call r)
  \/ (exists repos w2 w3 ev repo w0,
        repoLister w2 = (Returns (Ok repos), w3, ev)
        /\ In repo repos /\ In e (snd (processRepo repo w0))).
Proof.
  unfold handler.New.
  destruct tokenPathOf as [tokenPath|err] eqn:Ht.
  2: { simpl. intros [<-|[]]. left. eauto. }
  destruct (manager.CreateAccessToken manager githubOrganisation w)
    as [[token|err] w1] eqn:Hc;
    erewrite bind_returns by (apply call_lift; exact Hc); cbv beta iota.
  2: { simpl. intros [<-|[<-|[]]]; [right; left; eauto|left; eauto]. }
  destruct (manager.WriteSecret manager tokenPath token w1)
    as [[[]|err] w2] eqn:Hw;
    erewrite bind_returns by (apply call_lift; exact Hw); cbv beta iota.
  2: { simpl. intros [<-|[<-|[<-|[]]]];
         [right; left; eauto|right; right; left; eauto 6|left; eauto]. }
  rewrite after_after. unfold call at 1.
  destruct (repoLister w2) as [[[r|msg] w3] ev] eqn:Hl.
  2: { erewrite bind_panics by (erewrite bind_panics by exact Hl; reflexivity).
       simpl. intros [<-|[<-|Hin]];
         [right; left; eauto|right; right; left; eauto 6|].
       right. right. right. left. exists w2. rewrite Hl. exact Hin. }
  erewrite bind_returns
    by (erewrite bind_returns by exact Hl; reflexivity).
  assert (Hhead : forall x : exec (option error) * W * list Event,
            In e (snd (after [CreateAccessToken_call githubOrganisation (Ok token);
                              WriteSecret_call tokenPath token (Ok tt)]
                         (after (ev ++ [List_call r]) x))) ->
            (exists r, e = CreateAccessToken_call githubOrganisation r)
            \/ (exists tokenPath token r,
                  tokenPathOf = Ok tokenPath /\ e = WriteSecret_call tokenPath token r)
            \/ In e ev \/ (exists r, e = List_call r) \/ In e (snd x)).
  { intros [[x1 x2] x3]. simpl.
    intros [<-|[<-|Hin]]; [left; eauto|right; left; rewrite Ht; eauto 6|].
    rewrite <- app_assoc in Hin. apply in_app_or in Hin as [Hin|Hin]; [auto|].
    simpl in Hin. destruct Hin as [<-|Hin]; [right; right; right; left; eauto|].
    auto 6. }
  simpl after at 2.
  intros Hin. rewrite Ht in Hhead.
  match type of Hin with
  | In e (snd (after _ (after _ ?x))) => apply (Hhead x) in Hin
  end.
  destruct Hin as [H|[H|[H|[H|H]]]].
  - right. left. exact H.
  - right. right. left. exact H.
  - right. right. right. left. exists w2. rewrite Hl. exact H.
  - right. right. right. right. left. exact H.
  - destruct r as [repos|err].
    + unfold mbind, M_MBind, M_bind in H.
      destruct (for_range repos processRepo w3) as [[[[]|msg] w4] ev4] eqn:Hr;
        simpl in H; [rewrite app_nil_r in H|];
        (destruct (for_range_events repos w3 e) as (repo & w0 & Hin & He);
         [rewrite Hr; exact H|]);
        do 5 right; exists repos, w2, w3, ev, repo, w0; auto.
    + simpl in H. destruct H as [<-|[]]. left. eauto.
Qed.

(** X6: an error that the run of a team returns is the wrapped error of one of
    its four fatal steps (token path, token, token write, listing of the
    repositories), and the last thing the run did was to log that error:
    nothing follows a fatal step. *)
Theorem returned_error_is_a_fatal_step w e w' ev :
  New w = (Returns (Some e), w', ev) ->
  exists format err pre message,
    e = Errorf_err format err
    /\ In format traces.fatalFormats
    /\ ev = (pre ++ [Warnf (handler.log team) message [ArgError err]])%list.
Proof.
  unfold handler.New, traces.fatalFormats.
  destruct tokenPathOf as [tokenPath|err] eqn:Ht.
  2: { intros [= <- <- <-]. eexists _, err, [], _. repeat split; simpl; auto. }
  destruct (manager.CreateAccessToken manager githubOrganisation w)
    as [[token|err] w1] eqn:Hc;
    erewrite bind_returns by (apply call_lift; exact Hc); cbv beta iota.
  2: { intros [= <- <- <-].
       eexists _, err, [CreateAccessToken_call githubOrganisation (Err err)], _.
       repeat split; simpl; auto. }
  destruct (manager.WriteSecret manager tokenPath token w1)
    as [[[]|err] w2] eqn:Hw;
    erewrite bind_returns by (apply call_lift; exact Hw); cbv beta iota.
  2: { intros [= <- <- <-].
       eexists _, err, [CreateAccessToken_call githubOrganisation (Ok token);
                       WriteSecret_call tokenPath token (Err err)], _.
       repeat split; simpl; auto. }
  unfold call at 1.
  destruct (repoLister w2) as [[[r|msg] w3] ev3] eqn:Hl.
  2: { erewrite bind_panics by (erewrite bind_panics by exact Hl; reflexivity).
       discriminate. }
  erewrite bind_returns
    by (erewrite bind_returns by exact Hl; reflexivity).
  destruct r as [repos|err].
  - unfold mbind, M_MBind, M_bind.
    destruct (for_range repos processRepo w3) as [[[[]|msg] w4] ev4];
      discriminate.
  - intros [= <- <- <-].
    eexists _, err, ([CreateAccessToken_call githubOrganisation (Ok token);
                     WriteSecret_call tokenPath token (Ok tt)]
                    ++ ev3 ++ [List_call (Err err)])%list, _.
    split; [reflexivity|]. split; [simpl; auto|].
    simpl. rewrite <- !app_assoc. reflexivity.
Qed.

Lemma after_events {A} evs (x : exec A * W * list Event) :
  snd (after evs x) = (evs ++ snd x)%list.
Proof. destruct x as [[r w] ev]. reflexivity. Qed.

(** The run for a repository returns when the keys that it lists have a
    title and an identifier. *)
Lemma processRepo_returns_listed repo w :
  (forall keys,
     In (ListKeys_call githubOrganisation (repo.Name repo) (Ok keys))
        (snd (processRepo repo w)) ->
     Forall (fun k => github.Title k <> None /\ github.ID k <> None) keys) ->
  exists w' ev, processRepo repo w = (Returns tt, w', ev).
Proof.
  intros Hkeys.
  destruct (keyPathOf repo) as [keyPath|err] eqn:Hk.
  2: { unfold handler.processRepo. rewrite Hk. do 2 eexists. reflexivity. }
  destruct (titleOf repo) as [title|err] eqn:Ht.
  2: { unfold handler.processRepo. rewrite Hk, Ht. do 2 eexists. reflexivity. }
  apply processRepo_returns. intros keys w1 Hl. apply Hkeys.
  erewrite processRepo_listed by eassumption.
  rewrite after_events. left. reflexivity.
Qed.

(** The loop returns when the keys that it lists have a title and an
    identifier. *)
Lemma for_range_returns_listed repos : forall w,
  (forall name keys,
     In (ListKeys_call githubOrganisation name (Ok keys))
        (snd (for_range repos processRepo w)) ->
     Forall (fun k => github.Title k <> None /\ github.ID k <> None) keys) ->
  exists w' ev, for_range repos processRepo w = (Returns tt, w', ev).
Proof.
  induction repos as [|repo repos IH]; intros w Hkeys.
  - do 2 eexists. reflexivity.
  - destruct (processRepo repo w) as [[[[]|msg] w1] ev1] eqn:Hb.
    + simpl in Hkeys |- *. erewrite bind_returns in Hkeys |- * by exact Hb.
      destruct (IH w1) as (w2 & ev2 & H2).
      { intros name keys Hin. apply (Hkeys name keys).
        rewrite after_events. apply in_or_app. right. exact Hin. }
      rewrite H2. do 2 eexists. reflexivity.
    + destruct (processRepo_returns_listed repo w) as (w' & ev & H).
      { intros keys Hin. apply (Hkeys (repo.Name repo) keys). simpl.
        erewrite bind_panics by exact Hb. rewrite Hb in Hin. exact Hin. }
      rewrite Hb in H. discriminate H.
Qed.

(** X7: once the repositories are listed, nothing that fails for a repository
    is returned: when the keys that GitHub lists in the run have a title
    and an identifier, the run of the team returns no error, whichever of
    the listings, generations, publications, writes, lookups and deletions
    fail. *)
Theorem repository_failures_are_not_returned tokenPath token repos w w1 w2 w3 ev :
  tokenPathOf = Ok tokenPath ->
  manager.CreateAccessToken manager githubOrganisation w = (Ok token, w1) ->
  manager.WriteSecret manager tokenPath token w1 = (Ok tt, w2) ->
  repoLister w2 = (Returns (Ok repos), w3, ev) ->
  (forall name keys,
     In (ListKeys_call githubOrganisation name (Ok keys)) (snd (New w)) ->
     Forall (fun k => github.Title k <> None /\ github.ID k <> None) keys) ->
  exists w' ev', New w = (Returns None, w', ev').
Proof.
  intros Ht Hc Hw Hl Hkeys.
  erewrite New_loop in Hkeys |- * by eassumption.
  destruct (for_range_returns_listed repos w3) as (w' & ev' & Hr).
  { intros name keys Hin. apply (Hkeys name keys).
    rewrite after_events. apply in_or_app. right.
    unfold mbind, M_MBind, M_bind.
    destruct (for_range repos processRepo w3) as [[[[]|msg] w4] ev4];
      simpl in Hin |- *; [apply in_or_app; left|]; exact Hin. }
  erewrite bind_returns by exact Hr. do 2 eexists. reflexivity.
Qed.

(** X8: a listed key without a title that is met before any key of the team
    makes the run panic at that repository: the listing is all that the
    repository sees, and the repositories after it are not processed. *)
Theorem untitled_key_stops_the_run repo rest keyPath title pre k post w w1 :
  keyPathOf repo = Ok keyPath ->
  titleOf repo = Ok title ->
  manager.ListKeys manager githubOrganisation (repo.Name repo) w
  = (Ok (pre ++ k :: post)%list, w1) ->
  Forall (props.otherTitle title) pre ->
  github.Title k = None ->
  exists msg,
    for_range (repo :: rest) processRepo w
    = (Panics msg, w1,
       [ListKeys_call githubOrganisation (repo.Name repo)
          (Ok (pre ++ k :: post)%list)]).
Proof.
  intros Hk Ht Hl Hpre Hnil. eexists. simpl.
  erewrite bind_panics; [reflexivity|].
  erewrite processRepo_listed by eassumption.
  erewrite bind_panics; [reflexivity|].
  rewrite findOldKey_skip by exact Hpre. simpl. rewrite Hnil.
  erewrite bind_panics by reflexivity. reflexivity.
Qed.

End Handler.
End body_facts.

(* --------------------------------------------------------------------- *)
(** ** The table of repositories, and the runs over it                    *)
(* --------------------------------------------------------------------- *)

Module table_facts.
Import run_facts.

Section Lister.
Context {W Item : Type}
  (DynamoDBTableName : string)
  (Scan : string -> W -> result (list Item) * W)
  (UnmarshalMap : Item -> result string).

Local Abbreviation List := (dynamodb.List DynamoDBTableName Scan UnmarshalMap).

Lemma appendRepos_decoded items : forall names repos (w : W),
  Forall2 (fun item name => UnmarshalMap item = Ok name) items names ->
  dynamodb.appendRepos UnmarshalMap items repos w
  = (Returns (repos ++ map listing.repoOf names)%list, w, []).
Proof.
  induction items as [|item items IH]; intros names repos w H;
    inversion H as [|? name ? names' Hd Hrest]; subst; simpl.
  - rewrite app_nil_r. reflexivity.
  - rewrite Hd, (IH _ _ _ Hrest), <- app_assoc. reflexivity.
Qed.

Lemma appendRepos_undecodable items : forall repos (w : W),
  Exists (fun item => is_ok (UnmarshalMap item) = false) items ->
  exists msg, dynamodb.appendRepos UnmarshalMap items repos w = (Panics msg, w, []).
Proof.
  induction items as [|item items IH]; intros repos w H;
    inversion H as [? ? Hd|? ? Hrest]; subst; simpl.
  - destruct (UnmarshalMap item); [discriminate Hd|]. eexists. reflexivity.
  - destruct (UnmarshalMap item); [apply IH; exact Hrest|].
    eexists. reflexivity.
Qed.

Lemma appendRepos_silent items : forall repos (w : W),
  snd (dynamodb.appendRepos UnmarshalMap items repos w) = [].
Proof.
  induction items as [|item items IH]; intros repos w; simpl; [reflexivity|].
  destruct (UnmarshalMap item); [apply IH|reflexivity].
Qed.

(** What [List] logs is the failure of the scan. *)
Lemma List_events w e :
  In e (snd (List w)) ->
  exists fields format args, e = Errorf fields format args.
Proof.
  unfold dynamodb.List.
  destruct (Scan DynamoDBTableName w) as [[items|err] w1] eqn:Es;
    erewrite bind_returns by (apply lift_run; exact Es); cbv beta iota.
  - unfold mbind, M_MBind, M_bind.
    pose proof (appendRepos_silent items [] w1) as Hs.
    destruct (dynamodb.appendRepos UnmarshalMap items [] w1) as [[[r|msg] w2] ev2];
      simpl in Hs; subst ev2; simpl; intros [].
  - simpl. intros [<-|[]]. eauto.
Qed.

(** X9: when the scan succeeds and every item decodes, [List] returns one
    repository for each item of the table, in the order of the scan, named
    as the item decodes and writable; it logs nothing and changes nothing
    beyond the scan. *)
Theorem List_follows_the_scan items names w w1 :
  Scan DynamoDBTableName w = (Ok items, w1) ->
  Forall2 (fun item name => UnmarshalMap item = Ok name) items names ->
  List w = (Returns (Ok (map listing.repoOf names)), w1, []).
Proof.
  intros Hs Hd. unfold dynamodb.List.
  erewrite bind_returns by (apply lift_run; exact Hs). cbv beta iota.
  erewrite bind_returns by (apply appendRepos_decoded; exact Hd).
  reflexivity.
Qed.

(** X10: one item that does not decode makes [List] panic, however many items
    decode: no repository is returned; and a scan that fails is returned as a
    wrapped error, with one entry in the log. *)
Theorem List_failures w :
  (forall items w1,
     Scan DynamoDBTableName w = (Ok items, w1) ->
     Exists (fun item => is_ok (UnmarshalMap item) = false) items ->
     exists msg, List w = (Panics msg, w1, []))
  /\ (forall err w1,
        Scan DynamoDBTableName w = (Err err, w1) ->
        List w
        = (Returns (Err (Errorf_err "scanning DynamoDB table: %w" err)), w1,
           [Errorf (dynamodb.log_fields DynamoDBTableName)
              "failed to scan DynamoDB table: %v" [ArgError err]])).
Proof.
  split.
  - intros items w1 Hs Hd. unfold dynamodb.List.
    erewrite bind_returns by (apply lift_run; exact Hs). cbv beta iota.
    destruct (appendRepos_undecodable items [] w1 Hd) as (msg & Hp).
    exists msg. erewrite bind_panics by exact Hp. reflexivity.
  - intros err w1 Hs. unfold dynamodb.List.
    erewrite bind_returns by (apply lift_run; exact Hs). reflexivity.
Qed.

Section Run.
Context
  (manager : manager.Clients W)
  (engine : template.Engine)
  (githubOrganisation : string)
  (tokenTemplate keyTemplate titleTemplate : string)
  (team : team.Team).

(** X11: in a run over the table, every key is published with write access:
    each [CreateKey] of the run is made with [readOnly] false, in the
    organisation, for a repository that [List] returned. *)
Theorem table_keys_are_published_writable w owner name readOnly title public r :
  In (CreateKey_call owner name readOnly title public r)
     (snd (handler.New manager engine githubOrganisation List tokenTemplate
             keyTemplate titleTemplate team w)) ->
  readOnly = false /\ owner = githubOrganisation
  /\ exists repos w2 w3 ev,
       List w2 = (Returns (Ok repos), w3, ev)
       /\ In (listing.repoOf name) repos.
Proof.
  intros Hin.
  apply body_facts.New_events in Hin
    as [(? & ? & H)|[(? & H)|[(? & ? & ? & _ & H)|[(w2 & H)|[(? & H)
       |(repos & w2 & w3 & ev & repo & w0 & Hl & Hrepo & H)]]]]];
    try discriminate H.
  { apply List_events in H as (? & ? & ? & H). discriminate H. }
  destruct (body_facts.processRepo_mutation _ _ _ _ _ _ _ _ _ H eq_refl)
    as (kp & t & oldKey & rot & _ & _ & Hshape & Hrot & _).
  destruct (body_facts.rotation_events _ _ _ _ _ _ _ _ Hshape Hrot)
    as [(? & E)|[(? & ? & ? & E & _)
       |[(? & ? & ? & E & _)|[(E & _)|[(? & ? & ? & E & _)|(? & ? & E)]]]]];
    try discriminate E.
  injection E as -> -> -> -> -> ->.
  assert (Hall : Forall (fun x => repo.ReadOnly x = false) repos).
  { unfold dynamodb.List in Hl.
    destruct (Scan DynamoDBTableName w2) as [[items|err] w4] eqn:Es;
      erewrite bind_returns in Hl by (apply lift_run; exact Es);
      cbv beta iota in Hl; [|discriminate Hl].
    destruct (dynamodb.appendRepos UnmarshalMap items [] w4)
      as [[[rs|msg] w5] ev5] eqn:Ea.
    - erewrite bind_returns in Hl by exact Ea. injection Hl as <- _ _.
      eapply dynamodb_facts.appendRepos_writable; [apply Forall_nil|exact Ea].
    - erewrite bind_panics in Hl by exact Ea. discriminate Hl. }
  rewrite Forall_forall in Hall. pose proof (Hall repo Hrepo) as Hro.
  repeat split; [exact Hro|].
  exists repos, w2, w3, ev. split; [exact Hl|].
  destruct repo as [n ro]. simpl in Hro. subst ro. exact Hrepo.
Qed.

End Run.
End Lister.
End table_facts.

(* --------------------------------------------------------------------- *)
(** ** More on the manager                                                *)
(* --------------------------------------------------------------------- *)

Module service_facts.
Import calendar_facts.

Lemma FindString_found (re : list regexp.atom) (s m : string) :
  regexp.matchPrefix re s = Some m -> regexp.FindString re s = m.
Proof. intros H. destruct s; simpl; rewrite H; reflexivity. Qed.

Lemma matchPrefix_app (re : list regexp.atom) : forall m suffix,
  regexp.matchPrefix re m = Some m ->
  regexp.matchPrefix re (m +:+ suffix) = Some m.
Proof.
  induction re as [|a re IH]; intros m suffix H.
  - destruct m; [reflexivity|discriminate H].
  - destruct m as [|c m]; [discriminate H|].
    rewrite append_cons. simpl in H |- *.
    destruct (match a with
              | regexp.Digit => time.isDigit c
              | regexp.Lit l => Ascii.eqb c l
              end); [|discriminate H].
    destruct (regexp.matchPrefix re m) as [m'|] eqn:E; [|discriminate H].
    injection H as ->. rewrite (IH m suffix E). reflexivity.
Qed.

Lemma FindString_noDigits (re : list regexp.atom) (s : string) :
  props.noDigits s = true -> regexp.FindString (regexp.Digit :: re) s = "".
Proof.
  induction s as [|c s IH]; intros H; [reflexivity|].
  simpl in H. apply andb_true_iff in H as [Hc Hs]. apply negb_true_iff in Hc.
  cbn [regexp.FindString regexp.matchPrefix]. rewrite Hc. exact (IH Hs).
Qed.

Section Manager.
Context {W : Type} (m : manager.Clients W).

(** X12: [GetLastUpdated] reads the first timestamp of the description, wherever
    it stands: whatever text without digits precedes it and whatever text
    follows it, a description that holds the formatted time [t] is read as
    [t], to the second. *)
Theorem timestamp_is_read_anywhere name (t : time.Time) before after_ w w' :
  0 <= time.Year t <= 9999 ->
  props.noDigits before = true ->
  manager.DescribeSecret m name w
    = (Ok (Some (before +:+ time.Format_RFC3339 t +:+ after_)), w') ->
  manager.GetLastUpdated m name w = (Ok (time.mkTime (time.sec t) 0), w').
Proof.
  intros Hy Hb Hd. unfold manager.GetLastUpdated. rewrite Hd.
  cbn [aws_StringValue].
  change manager.re with (regexp.Digit :: tl manager.re).
  rewrite FindString_skip by exact Hb.
  rewrite (FindString_found _ _ (time.Format_RFC3339 t))
    by (apply matchPrefix_app; exact (Format_matches t Hy)).
  rewrite (Format_not_empty _ Hy), (Parse_Format _ Hy). reflexivity.
Qed.

(** X13: a secret whose description holds no digit (in particular a secret
    without description) has no timestamp: [GetLastUpdated] returns an
    error. *)
Theorem unstamped_secret_has_no_timestamp name d w w' :
  manager.DescribeSecret m name w = (Ok d, w') ->
  props.noDigits (aws_StringValue d) = true ->
  manager.GetLastUpdated m name w
  = (Err (Errorf_str "failed to find timestamp in description: %s"
            (aws_StringValue d)), w').
Proof.
  intros Hd Hn. unfold manager.GetLastUpdated. rewrite Hd.
  change manager.re with (regexp.Digit :: tl manager.re).
  rewrite (FindString_noDigits _ _ Hn). reflexivity.
Qed.

(** X14: an error of [GetLastUpdated] for a secret that exists is none of the
    AWS errors: a description without a readable timestamp is never taken
    for a missing secret, and nothing but the lookup touches the store. *)
Theorem timestamp_errors_are_not_aws_errors name d err w w1 w' :
  manager.DescribeSecret m name w = (Ok d, w1) ->
  manager.GetLastUpdated m name w = (Err err, w') ->
  awserr_Code err = None /\ ~ props.isNotFound err /\ w' = w1.
Proof.
  intros Hd. unfold manager.GetLastUpdated, props.isNotFound. rewrite Hd.
  destruct (String.eqb _ "").
  - intros [= <- <-]. repeat split. discriminate.
  - destruct (time.Parse_RFC3339 _); intros [= <- <-].
    repeat split. discriminate.
Qed.

(** X15: a write can fail and still leave a fresh timestamp: when the secret is
    created and the update that should store the value fails, the error of
    the update is returned, and the description that the creation stored is
    read back as the time of the failed write. *)
Theorem failed_write_leaves_its_stamp name secret now err w w1 w2 w3 w4 :
  0 <= time.Year now <= 9999 ->
  manager.time_Now m w = (now, w1) ->
  manager.CreateSecret m name
    (manager.description (time.Format_RFC3339 now)) w1 = (Ok tt, w2) ->
  manager.UpdateSecret m (manager.description (time.Format_RFC3339 now))
    name secret w2 = (Err err, w3) ->
  manager.DescribeSecret m name w3
    = (Ok (Some (manager.description (time.Format_RFC3339 now))), w4) ->
  manager.WriteSecret m name secret w = (Err err, w3)
  /\ manager.GetLastUpdated m name w3
     = (Ok (time.mkTime (time.sec now) 0), w4).
Proof.
  intros Hy Hn Hc Hu Hd. split.
  - unfold manager.WriteSecret. rewrite Hn, Hc. exact Hu.
  - unfold manager.GetLastUpdated. rewrite Hd. cbn [aws_StringValue].
    rewrite (FindString_description _ Hy), (Format_not_empty _ Hy),
      (Parse_Format _ Hy). reflexivity.
Qed.

(** X16: only one failure of the creation lets [WriteSecret] go on to the
    update: any other AWS error is returned as it is, an error that is no
    AWS error is returned wrapped, and in both cases the store is left as the
    creation left it. *)
Theorem create_errors_stop_the_write name secret now err w w1 w2 :
  manager.time_Now m w = (now, w1) ->
  manager.CreateSecret m name
    (manager.description (time.Format_RFC3339 now)) w1 = (Err err, w2) ->
  awserr_Code err <> Some manager.ErrCodeResourceExistsException ->
  manager.WriteSecret m name secret w
  = (Err (match awserr_Code err with
          | Some _ => err
          | None => Errorf_err "failed to convert error: %s" err
          end), w2).
Proof.
  intros Hn Hc Hne. unfold manager.WriteSecret. rewrite Hn, Hc.
  destruct (awserr_Code err) as [code|]; [|reflexivity].
  destruct (String.eqb_spec code manager.ErrCodeResourceExistsException)
    as [->|_]; [congruence|reflexivity].
Qed.

(** X17: the temporary key pair is deleted on every path that follows its
    creation, whether the key decodes or not, and the outcome of the
    deletion changes nothing in the result; a private key that is returned
    is the key material of the pair. *)
Theorem temporary_key_pair_is_deleted title material r w w1 w2 :
  manager.CreateKeyPair m title w = (Ok material, w1) ->
  manager.DeleteKeyPair m title w1 = (r, w2) ->
  manager.GenerateKeyPair m title w
  = (manager.derivePublicKey m (aws_StringValue material), w2)
  /\ forall private public,
       fst (manager.GenerateKeyPair m title w) = Ok (private, public) ->
       private = aws_StringValue material
       /\ manager.pem_Decode m private <> None.
Proof.
  intros Hc Hd.
  assert (H : manager.GenerateKeyPair m title w
              = (manager.derivePublicKey m (aws_StringValue material), w2)).
  { unfold manager.GenerateKeyPair. rewrite Hc, Hd. reflexivity. }
  split; [exact H|]. intros private public. rewrite H. simpl.
  unfold manager.derivePublicKey.
  destruct (manager.pem_Decode m (aws_StringValue material)) as [b|] eqn:Hp;
    [|discriminate].
  destruct (manager.x509_ParsePKCS1PrivateKey m b); [|discriminate].
  destruct (manager.ssh_NewPublicKey m _); [|discriminate].
  intros [= <- _]. split; [reflexivity|]. rewrite Hp. discriminate.
Qed.

(** X18: without an installation client no call is made to GitHub: the three
    methods on deploy keys return the error of the client as it is. *)
Theorem no_client_no_github_call owner name err w w1 :
  manager.getInstallationClient m owner w = (Err err, w1) ->
  manager.ListKeys m owner name w = (Err err, w1)
  /\ (forall readOnly title publicKey,
        manager.CreateKey m owner name readOnly title publicKey w = (Err err, w1))
  /\ (forall id, manager.DeleteKey m owner name id w = (Err err, w1)).
Proof.
  intros H. unfold manager.ListKeys, manager.CreateKey, manager.DeleteKey.
  rewrite H. repeat split.
Qed.

(** X19: the key that [CreateKey] sends is one that a later scan takes for the
    team's key with unchanged permissions: it has the title, the flag of
    the repository and the public key, and no identifier of its own. *)
Theorem sent_key_is_recognised owner (repo : repo.Repo) title publicKey client w w1 :
  manager.getInstallationClient m owner w = (Ok client, w1) ->
  exists key,
    manager.CreateKey m owner (repo.Name repo) (repo.ReadOnly repo) title
      publicKey w
    = manager.Repos_CreateKey m client owner (repo.Name repo) key w1
    /\ traces.hasTitle title key = true
    /\ handler.permissionsChanged key repo = false
    /\ github.Key_ key = Some publicKey
    /\ github.ID key = None.
Proof.
  intros H. unfold manager.CreateKey. rewrite H. eexists. split; [reflexivity|].
  unfold traces.hasTitle, handler.permissionsChanged. simpl.
  rewrite String.eqb_refl, Bool.eqb_reflx. repeat split.
Qed.

End Manager.
End service_facts.

(* --------------------------------------------------------------------- *)
(** ** More on the names that the templates see                           *)
(* --------------------------------------------------------------------- *)

Module naming_facts.
Import template_facts.

Lemma dotsToDashes_no_dot (s : string) :
  ~ In "."%char (list_ascii_of_string (props.dotsToDashes s)).
Proof.
  induction s as [|c s IH]; simpl; [tauto|].
  intros [H|H]; [|exact (IH H)].
  destruct (Ascii.eqb_spec c ".") as [->|Hne]; [discriminate H|].
  apply Hne. exact H.
Qed.

Lemma dotsToDashes_length (s : string) :
  String.length (props.dotsToDashes s) = String.length s.
Proof. induction s as [|c s IH]; simpl; [reflexivity|]. rewrite IH. reflexivity. Qed.

Lemma dotsToDashes_fixed (s : string) :
  ~ In "."%char (list_ascii_of_string s) -> props.dotsToDashes s = s.
Proof.
  induction s as [|c s IH]; simpl; [reflexivity|]. intros H.
  destruct (Ascii.eqb_spec c ".") as [->|_]; [tauto|].
  rewrite IH by tauto. reflexivity.
Qed.

(** X20: the repository name that a template sees holds no ['.'], is as long
    as the declared name, and is the declared name when that holds no
    ['.']; and the template without repository is the template of the empty
    repository name. *)
Theorem sanitised_name_has_no_dot team repository owner text :
  ~ In "."%char
      (list_ascii_of_string
         (template.Repository (template.NewTemplate team repository owner text)))
  /\ String.length
       (template.Repository (template.NewTemplate team repository owner text))
     = String.length repository
  /\ (~ In "."%char (list_ascii_of_string repository) ->
      template.Repository (template.NewTemplate team repository owner text)
      = repository)
  /\ template.NewTemplateWithoutRepository team owner text
     = template.NewTemplate team "" owner text.
Proof.
  unfold template.NewTemplate. cbn [template.Repository].
  rewrite ReplaceAll_dots.
  split; [apply dotsToDashes_no_dot|].
  split; [apply dotsToDashes_length|].
  split; [apply dotsToDashes_fixed|reflexivity].
Qed.

(** X21: sanitising is not injective: two repository names that differ only in
    ['.'] against ['-'] give the same template, so with every template text
    and every template library they resolve to the same secret path and the
    same key title. *)
Theorem dotted_names_collide E team owner text (name1 name2 : string) :
  props.dotsToDashes name1 = props.dotsToDashes name2 ->
  template.NewTemplate team name1 owner text
  = template.NewTemplate team name2 owner text
  /\ template.String E (template.NewTemplate team name1 owner text)
     = template.String E (template.NewTemplate team name2 owner text).
Proof.
  intros H.
  assert (Heq : template.NewTemplate team name1 owner text
                = template.NewTemplate team name2 owner text).
  { unfold template.NewTemplate. rewrite !ReplaceAll_dots, H. reflexivity. }
  split; [exact Heq|]. rewrite Heq. reflexivity.
Qed.

End naming_facts.

(* --------------------------------------------------------------------- *)
(** ** The further properties at work                                     *)
(* --------------------------------------------------------------------- *)

Module more_examples.
Import scenario cases.

Lemma otherKey_otherTitle : props.otherTitle title otherKey.
Proof. exists "concourse-data-deploy-key". split; [reflexivity|discriminate]. Qed.


(** The secret of [svc-a] was written seven days ago to the second, and the
    listing holds two keys with the team's title: both are looked up, and
    the second one is the key to retire. *)
Lemma stale_secret_retires_last_key_witness :
  let keys := [teamKey 1 false; otherKey; teamKey 2 false] in
  let w := world keys (Some lastWeek) fake.no_faults in
  exists r w' new,
    processRepo (svc_a false) w
      = (r, w',
         ListKeys_call organisation "svc-a" (Ok keys)
         :: map (fun _ => GetLastUpdated_call keyPath (Ok lastWeek))
              (List.filter (traces.hasTitle title) keys)
         ++ new)%list
    /\ handler.rotate fake.clients organisation platform (svc_a false) keyPath
         title (traces.lastWithTitle title keys None) w = (r, w', new)
    /\ props.rotation organisation (svc_a false) keyPath title
         (handler.log_repo platform (svc_a false))
         (traces.lastWithTitle title keys None) new.
Proof.
  cbv zeta.
  apply (body_facts.stale_secret_retires_last_key fake.clients
           text_template.engine organisation keyTemplate titleTemplate platform
           (svc_a false) keyPath title
           [teamKey 1 false; otherKey; teamKey 2 false] lastWeek now
           (world [teamKey 1 false; otherKey; teamKey 2 false] (Some lastWeek)
              fake.no_faults)
           (world [teamKey 1 false; otherKey; teamKey 2 false] (Some lastWeek)
              fake.no_faults)).
  - vm_compute. reflexivity.
  - vm_compute. reflexivity.
  - vm_compute. reflexivity.
  - repeat constructor; try discriminate.
  - vm_compute. reflexivity.
  - reflexivity.
  - unfold props.clockReading. simpl. lia.
  - unfold props.fresh, props.UnixNano, props.sevenDays. simpl. lia.
Defined.

(** The key that is created for [svc-a] in an empty world. *)
Lemma published_key_is_generated_witness :
  let w := world [] None fake.no_faults in
  organisation = organisation /\ "svc-a" = repo.Name (svc_a false)
  /\ false = repo.ReadOnly (svc_a false)
  /\ template.String text_template.engine
       (template.NewTemplate (team.Name platform) (repo.Name (svc_a false))
          organisation titleTemplate) = Ok title
  /\ exists private,
       In (GenerateKeyPair_call title (Ok (private, "ssh-rsa NEW PRIVATE")))
          (snd (processRepo (svc_a false) w)).
Proof.
  cbv zeta.
  apply (body_facts.published_key_is_generated fake.clients text_template.engine
           organisation keyTemplate titleTemplate platform (svc_a false)
           (world [] None fake.no_faults) organisation "svc-a" false title
           "ssh-rsa NEW PRIVATE" (Ok tt)).
  vm_compute. right. right. left. reflexivity.
Defined.

(** The secret that is written for [svc-a] in an empty world. *)
Lemma persisted_key_is_published_witness :
  let w := world [] None fake.no_faults in
  template.String text_template.engine
    (template.NewTemplate (team.Name platform) (repo.Name (svc_a false))
       organisation keyTemplate) = Ok keyPath
  /\ exists title public,
       template.String text_template.engine
         (template.NewTemplate (team.Name platform) (repo.Name (svc_a false))
            organisation titleTemplate) = Ok title
       /\ In (GenerateKeyPair_call title (Ok ("NEW PRIVATE", public)))
             (snd (processRepo (svc_a false) w))
       /\ In (CreateKey_call organisation (repo.Name (svc_a false))
                (repo.ReadOnly (svc_a false)) title public (Ok tt))
             (snd (processRepo (svc_a false) w)).
Proof.
  cbv zeta.
  apply (body_facts.persisted_key_is_published fake.clients text_template.engine
           organisation keyTemplate titleTemplate platform (svc_a false)
           (world [] None fake.no_faults) keyPath "NEW PRIVATE" (Ok tt)).
  vm_compute. right. right. right. left. reflexivity.
Defined.

(** No installation client is obtained: [svc-a], whose key is a month old,
    is left as it is. *)
Lemma unlistable_repository_is_untouched_witness :
  let w := world [teamKey 2 false] (Some lastMonth)
             (failing "getInstallationClient" internalError) in
  processRepo (svc_a false) w
  = (Returns tt, w,
     [ListKeys_call organisation "svc-a" (Err internalError);
      Warnf (handler.log_repo platform (svc_a false))
        "failed to list github keys: %s" [ArgError internalError]]).
Proof.
  cbv zeta.
  apply (body_facts.unlistable_repository_is_untouched fake.clients
           text_template.engine organisation keyTemplate titleTemplate platform
           (svc_a false) keyPath title internalError).
  - vm_compute. reflexivity.
  - vm_compute. reflexivity.
  - left. vm_compute. reflexivity.
Defined.

(** The listing of the repositories fails: the run returns the wrapped
    error, after the token has been written. *)
Lemma returned_error_is_a_fatal_step_witness :
  let w := world [] None (failing "List" internalError) in
  exists format err pre message,
    Errorf_err "listing repos: %w" internalError = Errorf_err format err
    /\ In format traces.fatalFormats
    /\ snd (run [svc_a false] w)
       = (pre ++ [Warnf (handler.log platform) message [ArgError err]])%list.
Proof.
  cbv zeta.
  apply (body_facts.returned_error_is_a_fatal_step fake.clients
           text_template.engine organisation (fake.lister [svc_a false])
           tokenTemplate keyTemplate titleTemplate platform
           (world [] None (failing "List" internalError))
           (Errorf_err "listing repos: %w" internalError)
           (snd (fst (run [svc_a false]
                        (world [] None (failing "List" internalError)))))).
  vm_compute. reflexivity.
Defined.

(** Everything fails for [svc-a] and [svc-b] once they are listed (no key
    pair can be generated): the run returns no error. *)
Lemma repository_failures_are_not_returned_witness :
  let w := world [otherKey; teamKey 2 true] None
             (failing "CreateKeyPair" internalError) in
  exists w' ev', run [svc_a false; svc_b] w = (Returns None, w', ev').
Proof.
  cbv zeta.
  apply (body_facts.repository_failures_are_not_returned fake.clients
           text_template.engine organisation (fake.lister [svc_a false; svc_b])
           tokenTemplate keyTemplate titleTemplate platform
           tokenPath "token:org" [svc_a false; svc_b]
           (world [otherKey; teamKey 2 true] None
              (failing "CreateKeyPair" internalError))
           (world [otherKey; teamKey 2 true] None
              (failing "CreateKeyPair" internalError))
           (snd (manager.WriteSecret fake.clients tokenPath "token:org"
                   (world [otherKey; teamKey 2 true] None
                      (failing "CreateKeyPair" internalError))))
           (snd (manager.WriteSecret fake.clients tokenPath "token:org"
                   (world [otherKey; teamKey 2 true] None
                      (failing "CreateKeyPair" internalError))))
           []).
  - vm_compute. reflexivity.
  - vm_compute. reflexivity.
  - vm_compute. reflexivity.
  - vm_compute. reflexivity.
  - intros name keys H. vm_compute in H.
    repeat (destruct H as [H|H];
            [try discriminate H; injection H as <- <-;
             repeat constructor; discriminate|]).
    destruct H.
Defined.

(** An untitled key listed for [svc-a] before the team's key: the loop
    panics there and [svc-b] is not reached. *)
Lemma untitled_key_stops_the_run_witness :
  let keys := [otherKey; untitledKey; teamKey 2 false] in
  let w := world keys (Some lastMonth) fake.no_faults in
  exists msg,
    for_range [svc_a false; svc_b] processRepo w
    = (Panics msg, w, [ListKeys_call organisation "svc-a" (Ok keys)]).
Proof.
  cbv zeta.
  apply (body_facts.untitled_key_stops_the_run fake.clients text_template.engine
           organisation keyTemplate titleTemplate platform (svc_a false) [svc_b]
           keyPath title [otherKey] untitledKey [teamKey 2 false]).
  - vm_compute. reflexivity.
  - vm_compute. reflexivity.
  - vm_compute. reflexivity.
  - constructor; [exact otherKey_otherTitle|constructor].
  - reflexivity.
Defined.

(** A table of two items. *)
Lemma List_follows_the_scan_witness :
  let w := world [] None fake.no_faults in
  cases.List [Ok "svc-a"; Ok "svc.b"] w
  = (Returns (Ok (map listing.repoOf ["svc-a"; "svc.b"])), w, []).
Proof.
  cbv zeta.
  apply (table_facts.List_follows_the_scan "github-repos"
           (cases.Scan [Ok "svc-a"; Ok "svc.b"]) cases.UnmarshalMap
           [Ok "svc-a"; Ok "svc.b"]).
  - reflexivity.
  - repeat constructor.
Defined.

(** The key that a run over the table creates for [svc-a], which has a
    read-only key of the team. *)
Lemma table_keys_are_published_writable_witness :
  false = false /\ organisation = organisation
  /\ exists repos w2 w3 ev,
       cases.List [Ok "svc-a"] w2 = (Returns (Ok repos), w3, ev)
       /\ In (listing.repoOf "svc-a") repos.
Proof.
  apply (table_facts.table_keys_are_published_writable "github-repos"
           (cases.Scan [Ok "svc-a"]) cases.UnmarshalMap fake.clients
           text_template.engine organisation tokenTemplate keyTemplate
           titleTemplate platform
           (world [teamKey 2 true] (Some yesterday) fake.no_faults)
           organisation "svc-a" false title "ssh-rsa NEW PRIVATE" (Ok tt)).
  vm_compute. do 5 right. left. reflexivity.
Defined.

(** A timestamp in a description that was written by hand. *)
Lemma timestamp_is_read_anywhere_witness :
  manager.GetLastUpdated fake.clients keyPath (described (Some handWritten))
  = (Ok (time.mkTime (time.sec yesterday) 0), described (Some handWritten)).
Proof.
  apply (service_facts.timestamp_is_read_anywhere fake.clients keyPath yesterday
           "Rotated by hand at " " (see the runbook)").
  - vm_compute. split; discriminate.
  - reflexivity.
  - reflexivity.
Defined.

(** A secret without description. *)
Lemma unstamped_secret_has_no_timestamp_witness :
  manager.GetLastUpdated fake.clients keyPath (described None)
  = (Err (Errorf_str "failed to find timestamp in description: %s"
            (aws_StringValue None)), described None).
Proof.
  apply (service_facts.unstamped_secret_has_no_timestamp fake.clients keyPath None).
  - reflexivity.
  - reflexivity.
Defined.

(** A description with a date that is none: the thirteenth month. *)
Lemma timestamp_errors_are_not_aws_errors_witness :
  let d := Some "Last updated: 2026-13-01T00:00:00Z" in
  let err := Errorf_err "failed to parse timestamp: %s"
               (time.ParseError "month out of range") in
  awserr_Code err = None /\ ~ props.isNotFound err /\ described d = described d.
Proof.
  cbv zeta.
  apply (service_facts.timestamp_errors_are_not_aws_errors fake.clients keyPath
           (Some "Last updated: 2026-13-01T00:00:00Z")
           (Errorf_err "failed to parse timestamp: %s"
              (time.ParseError "month out of range"))
           (described (Some "Last updated: 2026-13-01T00:00:00Z"))).
  - reflexivity.
  - vm_compute. reflexivity.
Defined.

(** The update fails after the secret has been created. *)
Lemma failed_write_leaves_its_stamp_witness :
  let w := world [] None (failing "UpdateSecret" internalError) in
  let w' := snd (manager.WriteSecret fake.clients keyPath "NEW PRIVATE" w) in
  manager.WriteSecret fake.clients keyPath "NEW PRIVATE" w = (Err internalError, w')
  /\ manager.GetLastUpdated fake.clients keyPath w'
     = (Ok (time.mkTime (time.sec now) 0), w').
Proof.
  cbv zeta.
  apply (service_facts.failed_write_leaves_its_stamp fake.clients keyPath
           "NEW PRIVATE" now internalError
           (world [] None (failing "UpdateSecret" internalError))
           (world [] None (failing "UpdateSecret" internalError))
           (snd (manager.WriteSecret fake.clients keyPath "NEW PRIVATE"
                   (world [] None (failing "UpdateSecret" internalError))))).
  - vm_compute. split; discriminate.
  - reflexivity.
  - vm_compute. reflexivity.
  - vm_compute. reflexivity.
  - vm_compute. reflexivity.
Defined.

(** The creation fails with an internal error. *)
Lemma create_errors_stop_the_write_witness :
  let w := world [] None (failing "CreateSecret" internalError) in
  manager.WriteSecret fake.clients keyPath "NEW PRIVATE" w
  = (Err internalError, w).
Proof.
  cbv zeta.
  apply (service_facts.create_errors_stop_the_write fake.clients keyPath
           "NEW PRIVATE" now internalError
           (world [] None (failing "CreateSecret" internalError))
           (world [] None (failing "CreateSecret" internalError))).
  - reflexivity.
  - vm_compute. reflexivity.
  - discriminate.
Defined.

(** The key pair that is generated under the title of the team. *)
Lemma temporary_key_pair_is_deleted_witness :
  let w := world [] None fake.no_faults in
  manager.GenerateKeyPair fake.clients title w
  = (manager.derivePublicKey fake.clients (aws_StringValue (Some "NEW PRIVATE")),
     snd (fake.DeleteKeyPair title (snd (fake.CreateKeyPair title w))))
  /\ forall private public,
       fst (manager.GenerateKeyPair fake.clients title w) = Ok (private, public) ->
       private = aws_StringValue (Some "NEW PRIVATE")
       /\ manager.pem_Decode fake.clients private <> None.
Proof.
  cbv zeta.
  apply (service_facts.temporary_key_pair_is_deleted fake.clients title
           (Some "NEW PRIVATE") (Ok tt) (world [] None fake.no_faults)
           (snd (fake.CreateKeyPair title (world [] None fake.no_faults)))).
  - vm_compute. reflexivity.
  - vm_compute. reflexivity.
Defined.

(** No installation client is obtained. *)
Lemma no_client_no_github_call_witness :
  let w := world [teamKey 2 false] None
             (failing "getInstallationClient" internalError) in
  manager.ListKeys fake.clients organisation "svc-a" w = (Err internalError, w)
  /\ (forall readOnly title publicKey,
        manager.CreateKey fake.clients organisation "svc-a" readOnly title
          publicKey w = (Err internalError, w))
  /\ (forall id,
        manager.DeleteKey fake.clients organisation "svc-a" id w
        = (Err internalError, w)).
Proof.
  cbv zeta.
  apply (service_facts.no_client_no_github_call fake.clients organisation "svc-a"
           internalError).
  vm_compute. reflexivity.
Defined.

(** The key that is sent for [svc-a]. *)
Lemma sent_key_is_recognised_witness :
  let w := world [] None fake.no_faults in
  exists key,
    manager.CreateKey fake.clients organisation (repo.Name (svc_a false))
      (repo.ReadOnly (svc_a false)) title "ssh-rsa NEW PRIVATE" w
    = fake.Repos_CreateKey tt organisation (repo.Name (svc_a false)) key w
    /\ traces.hasTitle title key = true
    /\ handler.permissionsChanged key (svc_a false) = false
    /\ github.Key_ key = Some "ssh-rsa NEW PRIVATE"
    /\ github.ID key = None.
Proof.
  cbv zeta.
  apply (service_facts.sent_key_is_recognised fake.clients organisation
           (svc_a false) title "ssh-rsa NEW PRIVATE" tt
           (world [] None fake.no_faults)).
  reflexivity.
Defined.

(** The names [svc.a] and [svc-a]. *)
Lemma dotted_names_collide_witness :
  template.NewTemplate "platform" "svc.a" organisation keyTemplate
  = template.NewTemplate "platform" "svc-a" organisation keyTemplate
  /\ template.String text_template.engine
       (template.NewTemplate "platform" "svc.a" organisation keyTemplate)
     = template.String text_template.engine
         (template.NewTemplate "platform" "svc-a" organisation keyTemplate).
Proof.
  apply (naming_facts.dotted_names_collide text_template.engine "platform"
           organisation keyTemplate "svc.a" "svc-a").
  reflexivity.
Defined.

End more_examples.
